(** * slangpy [setup.py]: a shallow embedding of the build orchestrator

    The script is modelled top to bottom: the module-level platform and
    preset resolution, the two environment mode flags, [CMakeBuild.build_extension]
    (environment, working-directory wipe, CMake argument list, the three
    CMake invocations, artifact clean-up), [CustomBuildPy.run] and the version
    extraction with [VERSION_REGEX].

    Text is a [string] whose characters stand for the code points 0..255.
    Everything the script asks of its surroundings (interpreter facts, pathlib,
    the file system, child processes, setuptools, the [tools/msvc] helper) is a
    field of the record [World]; effects are threaded through a small
    state-and-exception monad that logs every observable action. *)

From Stdlib Require Import Ascii String ZArith Lia.
From stdpp Require Import base option list strings gmap.

Set Default Proof Using "Type".
Open Scope Z_scope.
Open Scope nat_scope.

(* ===================================================================== *)
(** ** Python built-ins used by the script *)
(* ===================================================================== *)

Module Py.

(** [str.isspace] on one character, for code points below 256; this is also
    the class [\s] of a [str] pattern. *)
Definition isspace (c : ascii) : bool :=
  let n := N_of_ascii c in
  ((9 <=? n) && (n <=? 13) || (28 <=? n) && (n <=? 32)
   || (n =? 133) || (n =? 160))%N.

(** [str.lower] on one character, for code points below 256. *)
Definition lower_char (c : ascii) : ascii :=
  let n := N_of_ascii c in
  if ((65 <=? n) && (n <=? 90)
      || (192 <=? n) && (n <=? 222) && negb (n =? 215))%N
  then ascii_of_N (n + 32) else c.

Fixpoint lower (s : string) : string :=
  match s with
  | EmptyString => EmptyString
  | String c s' => String (lower_char c) (lower s')
  end.

Definition startswith (s p : string) : bool := String.prefix p s.

(** [s.split(sep)] for a one-character separator: one more piece than there
    are separators, empty pieces included. *)
Fixpoint split (sep : ascii) (s : string) : list string :=
  match s with
  | EmptyString => [EmptyString]
  | String c s' =>
      if Ascii.eqb c sep then EmptyString :: split sep s'
      else match split sep s' with
           | w :: ws => String c w :: ws
           | [] => [String c EmptyString]
           end
  end.

Fixpoint lstrip (s : string) : string :=
  match s with
  | EmptyString => EmptyString
  | String c s' => if isspace c then lstrip s' else s
  end.

Fixpoint rstrip (s : string) : string :=
  match s with
  | EmptyString => EmptyString
  | String c s' =>
      match rstrip s' with
      | EmptyString => if isspace c then EmptyString else String c EmptyString
      | r => String c r
      end
  end.

Definition strip (s : string) : string := rstrip (lstrip s).

(** Truthiness of a [str]: the empty string is false. *)
Definition truthy (s : string) : bool :=
  match s with EmptyString => false | _ => true end.

(** [[].insert(i, x)]: positions past the end append. *)
Definition list_insert {A} (i : nat) (x : A) (l : list A) : list A :=
  take i l ++ x :: drop i l.

(** [dict(pairs)]: later pairs overwrite earlier ones. *)
Definition dict (pairs : list (string * string)) : gmap string string :=
  foldl (λ m kv, <[kv.1 := kv.2]> m) ∅ pairs.

(** The exceptions the script can meet.  [KeyboardInterrupt] is the one
    that does not derive from [Exception]. *)
Inductive exn : Type :=
| Exception (msg : string)
| RuntimeError (msg : string)
| AssertionError (msg : string)
| IndexError
| KeyError (key : string)
| CalledProcessError (returncode : Z) (cmd : list string)
| OSError (msg : string)
| UnicodeDecodeError
| ImportError (msg : string)
| KeyboardInterrupt.

Definition is_Exception (e : exn) : bool :=
  match e with KeyboardInterrupt => false | _ => true end.

Inductive result (A : Type) : Type :=
| Ok (a : A)
| Raise (e : exn).
Global Arguments Ok {A} a.
Global Arguments Raise {A} e.

(** [f"{x}"] for a value that may be [None]. *)
Definition fmt_opt (o : option string) : string :=
  match o with Some s => s | None => "None" end.

End Py.
Export Py.

(* ===================================================================== *)
(** ** The fragment of [re] that [VERSION_REGEX] uses *)
(* ===================================================================== *)

Module Re.

(** Pattern items: the anchors under [re.MULTILINE], literal text, and a
    greedy repetition [cls{lo,}] of a character class, possibly a capturing
    group. *)
Inductive node : Type :=
| Bol
| Eol
| Lit (l : string)
| Many (capture : bool) (lo : nat) (cls : ascii → bool).

Definition pattern := list node.

Definition newline : ascii := "010"%char.

(** [\s], [[A-Z]] and [.] (no [re.DOTALL]). *)
Definition cls_space : ascii → bool := isspace.
Definition cls_upper (c : ascii) : bool :=
  let n := N_of_ascii c in ((65 <=? n) && (n <=? 90))%N.
Definition cls_dot (c : ascii) : bool := negb (Ascii.eqb c newline).

(** A position in the subject is the character before it (if any) and the
    text after it. *)
Definition at_bol (prev : option ascii) : bool :=
  match prev with None => true | Some c => Ascii.eqb c newline end.

Definition at_eol (s : string) : bool :=
  match s with EmptyString => true | String c _ => Ascii.eqb c newline end.

Fixpoint span (cls : ascii → bool) (s : string) : nat :=
  match s with
  | String c s' => if cls c then S (span cls s') else 0
  | EmptyString => 0
  end.

Fixpoint stake (n : nat) (s : string) : string :=
  match n, s with
  | S n', String c s' => String c (stake n' s')
  | _, _ => EmptyString
  end.

Fixpoint sdrop (n : nat) (s : string) : string :=
  match n, s with
  | S n', String _ s' => sdrop n' s'
  | _, _ => s
  end.

Fixpoint last_char (prev : option ascii) (consumed : string) : option ascii :=
  match consumed with
  | EmptyString => prev
  | String c s' => last_char (Some c) s'
  end.

(** Backtracking over a greedy repetition: try [k] repetitions, then
    [k-1], ... down to [lo]; the first success wins. *)
Fixpoint backtrack {A} (lo k : nat) (try : nat → option A) : option A :=
  if k <? lo then None
  else match try k with
       | Some r => Some r
       | None => match k with
                 | O => None
                 | S k' => backtrack lo k' try
                 end
       end.

(** Match the pattern at one position; on success the captured groups in
    order and the text left after the match. *)
Fixpoint match_here (p : pattern) (prev : option ascii) (s : string)
  : option (list string * string) :=
  match p with
  | [] => Some ([], s)
  | Bol :: p' => if at_bol prev then match_here p' prev s else None
  | Eol :: p' => if at_eol s then match_here p' prev s else None
  | Lit l :: p' =>
      if String.prefix l s
      then match_here p' (last_char prev l) (sdrop (String.length l) s)
      else None
  | Many capture lo cls :: p' =>
      backtrack lo (span cls s) (λ k,
        match match_here p' (last_char prev (stake k s)) (sdrop k s) with
        | Some (gs, rest) =>
            Some (if capture then stake k s :: gs else gs, rest)
        | None => None
        end)
  end.

(** [pattern.findall]: scan left to right; after a match the scan resumes
    where the match ended ([skip] counts the positions inside it). *)
Fixpoint scan (p : pattern) (prev : option ascii) (s : string) (skip : nat)
  : list (list string) :=
  match skip with
  | S k =>
      match s with
      | EmptyString => []
      | String c s' => scan p (Some c) s' k
      end
  | O =>
      match match_here p prev s with
      | Some (gs, rest) =>
          gs :: match s with
                | EmptyString => []
                | String c s' =>
                    scan p (Some c) s'
                      (pred (String.length s - String.length rest))
                end
      | None =>
          match s with
          | EmptyString => []
          | String c s' => scan p (Some c) s' 0
          end
      end
  end.

Definition findall (p : pattern) (s : string) : list (list string) :=
  scan p None s 0.

(** With two groups [findall] yields 2-tuples. *)
Definition as_pairs (ms : list (list string)) : list (string * string) :=
  omap (λ gs, match gs with [k; v] => Some (k, v) | _ => None end) ms.

End Re.

(* ===================================================================== *)
(** ** VersionExtractor (setup.py, lines 201-206) *)
(* ===================================================================== *)

(** [VERSION_REGEX]: under [re.MULTILINE], a line start, optional white
    space, a hash sign, optional white space, the word define, white space,
    the text SGL_VERSION_ followed by a first group of one or more capitals,
    white space, a second group of any characters but a newline, a line end. *)
Definition VERSION_REGEX : Re.pattern :=
  [ Re.Bol; Re.Many false 0 Re.cls_space;
    Re.Lit "#"; Re.Many false 0 Re.cls_space;
    Re.Lit "define"; Re.Many false 1 Re.cls_space;
    Re.Lit "SGL_VERSION_"; Re.Many true 1 Re.cls_upper;
    Re.Many false 1 Re.cls_space;
    Re.Many true 0 Re.cls_dot; Re.Eol ].

(** [matches = dict(VERSION_REGEX.findall(f.read()))] *)
Definition version_matches (blob : string) : gmap string string :=
  dict (Re.as_pairs (Re.findall VERSION_REGEX blob)).

(** The format call with the fields MAJOR, MINOR and PATCH looked up in
    [matches], in that order; a missing one is a [KeyError]. *)
Definition format_version (matches : gmap string string) : result string :=
  match matches !! "MAJOR" with
  | None => Raise (KeyError "MAJOR")
  | Some major =>
      match matches !! "MINOR" with
      | None => Raise (KeyError "MINOR")
      | Some minor =>
          match matches !! "PATCH" with
          | None => Raise (KeyError "PATCH")
          | Some patch => Ok (major +:+ "." +:+ minor +:+ "." +:+ patch)
          end
      end
  end.

Definition version_of (blob : string) : result string :=
  format_version (version_matches blob).

(** A line feed, to write multi-line texts. *)
Definition nl : string := String Re.newline EmptyString.

(* ===================================================================== *)
(** ** The surroundings of the script *)
(* ===================================================================== *)

(** The file system, as far as the script looks at it: the set of paths
    that exist. *)
Abbreviation fs_t := (gset string).
Abbreviation env_t := (gmap string string).

(** What the script reads from, and calls in, the interpreter, the standard
    library, setuptools and the [tools/msvc] helper. *)
Record World := {
  (* interpreter and operating system *)
  sys_platform : string;
  platform_machine : string;
  os_name : string;
  sys_prefix : string;
  environ : env_t;
  dunder_file : string;
  cwd : string;
  (* pathlib and os.path *)
  path_div : string → string → string;
  path_parent : string → string;
  path_resolve : fs_t → string → string;
  path_glob : fs_t → string → string → list string;
  path_inside : string → string → bool;
  abspath : string → string;
  os_path_join : list string → string;
  (* shutil, os, open *)
  which : fs_t → string → option string;
  rmtree_error : fs_t → string → option exn;
  remove_error : fs_t → string → option exn;
  copytree_result : fs_t → string → string → result fs_t;
  read_text : string → result string;
  str_exn : exn → string;
  (* child processes: exit status and what the child did to the disk *)
  run_process : list string → env_t → fs_t → result Z * fs_t;
  (* [subprocess.check_output(argv).decode("utf-8")] of a query tool *)
  check_output_utf8 : list string → result string;
  (* setuptools *)
  get_ext_fullpath : string → string;
  build_lib : string;
  requested_commands : list string;
  super_build_py_run : fs_t → result unit * fs_t;
  (* tools/msvc.py: import and [msvc14_get_vc_env] *)
  msvc14_get_vc_env : option string → result env_t
}.

(** Observable actions, in the order they happen.  A [Spawn] records the
    file system the child starts in. *)
Inductive event : Type :=
| Stdout (msg : string)
| Spawn (argv : list string) (env : env_t) (before : fs_t)
| Rmtree (path : string)
| Remove (path : string)
| Copytree (src dst : string)
| SuperRun.

Record state := State { fs : fs_t; log : list event }.

Definition M (A : Type) : Type := state → result A * state.

Definition ret {A} (a : A) : M A := λ s, (Ok a, s).
Definition raise {A} (e : exn) : M A := λ s, (Raise e, s).
Definition bind {A B} (m : M A) (k : A → M B) : M B :=
  λ s, match m s with
       | (Ok a, s') => k a s'
       | (Raise e, s') => (Raise e, s')
       end.
Definition lift {A} (r : result A) : M A := λ s, (r, s).
Definition get_fs : M fs_t := λ s, (Ok (fs s), s).
Definition emit (e : event) : M unit :=
  λ s, (Ok tt, State (fs s) (log s ++ [e])).

(** [try: body / except Exception as e: handler e] *)
Definition try_except {A} (body : M A) (handler : exn → M A) : M A :=
  λ s, match body s with
       | (Raise e, s') =>
           if is_Exception e then handler e s' else (Raise e, s')
       | r => r
       end.

Notation "'let*' x ':=' m 'in' k" := (bind m (λ x, k))
  (at level 10, x name, m at level 100, k at level 200).
Notation "m1 ';;' m2" := (bind m1 (λ _, m2))
  (at level 100, m2 at level 200, right associativity).

Fixpoint for_each {A} (l : list A) (body : A → M unit) : M unit :=
  match l with
  | [] => ret tt
  | x :: l' => body x ;; for_each l' body
  end.

Notation "a == b" := (String.eqb a b) (at level 70, no associativity).

Definition print (msg : string) : M unit := emit (Stdout msg).

Definition os_path_exists (f : fs_t) (p : string) : bool := bool_decide (p ∈ f).

(** A disk without a directory and all below it. *)
Definition without_tree (w : World) (dir : string) (f : fs_t) : fs_t :=
  filter (λ p, ¬ (p = dir ∨ path_inside w dir p)) f.

(** [shutil.rmtree]: the directory and everything below it go. *)
Definition rmtree (w : World) (path : string) : M unit :=
  λ s, match rmtree_error w (fs s) path with
       | Some e => (Raise e, State (fs s) (log s ++ [Rmtree path]))
       | None =>
           (Ok tt, State (without_tree w path (fs s)) (log s ++ [Rmtree path]))
       end.

Definition os_remove (w : World) (path : string) : M unit :=
  λ s, match remove_error w (fs s) path with
       | Some e => (Raise e, State (fs s) (log s ++ [Remove path]))
       | None => (Ok tt, State (fs s ∖ {[path]}) (log s ++ [Remove path]))
       end.

Definition copytree (w : World) (src dst : string) : M unit :=
  λ s, match copytree_result w (fs s) src dst with
       | Raise e => (Raise e, State (fs s) (log s ++ [Copytree src dst]))
       | Ok f' => (Ok tt, State f' (log s ++ [Copytree src dst]))
       end.

(** [subprocess.run(argv, env=env, check=True)] *)
Definition subprocess_run (w : World) (argv : list string) (env : env_t) : M unit :=
  λ s, let '(r, f') := run_process w argv env (fs s) in
       let s' := State f' (log s ++ [Spawn argv env (fs s)]) in
       match r with
       | Ok rc => if Z.eqb rc 0 then (Ok tt, s')
                  else (Raise (CalledProcessError rc argv), s')
       | Raise e => (Raise e, s')
       end.

(** [subprocess.check_output(argv).decode("utf-8")]; the query tool leaves
    the disk alone. *)
Definition subprocess_check_output (w : World) (argv : list string) : M string :=
  λ s, (check_output_utf8 w argv,
        State (fs s) (log s ++ [Spawn argv (environ w) (fs s)])).

(* ===================================================================== *)
(** ** Module level: platform, preset and mode flags (lines 23-73) *)
(* ===================================================================== *)

Definition opt_eqb (o : option string) (v : string) : bool :=
  match o with Some x => x == v | None => false end.

(** Lines 25-34. *)
Definition resolve_PLATFORM (w : World) : result string :=
  if startswith (sys_platform w) "win" then Ok "windows"
  else if startswith (sys_platform w) "linux" then Ok "linux"
  else if startswith (sys_platform w) "darwin" then Ok "macos"
  else if startswith (sys_platform w) "android" then Ok "android"
  else Raise (Exception ("Unsupported platform: " +:+ sys_platform w)).

(** Lines 37-65: the preset and the MSVC platform specifier. *)
Definition resolve_CMAKE_PRESET (w : World) (PLATFORM : string)
  : result (string * option string) :=
  if PLATFORM == "windows" then
    let python_arch := lower (platform_machine w) in
    let is_arm64 := (python_arch == "arm64") || (python_arch == "aarch64") in
    if is_arm64 then Ok ("windows-arm64-msvc", Some "x86_arm64")
    else Ok ("windows-msvc", Some "x64")
  else if PLATFORM == "linux" then Ok ("linux-gcc", None)
  else if PLATFORM == "macos" then Ok ("macos-arm64-clang", None)
  else if PLATFORM == "android" then
    let android_abi := environ w !! "ANDROID_ABI" in
    if opt_eqb android_abi "arm64-v8a" then Ok ("android-arm64", None)
    else if opt_eqb android_abi "x86_64" then Ok ("android-x86_64", None)
    else Raise (RuntimeError
           ("Unsupported ANDROID_ABI for slangpy build: " +:+ fmt_opt android_abi
            +:+ " (expected 'arm64-v8a' or 'x86_64')"))
  else Raise (RuntimeError ("Unsupported platform: " +:+ PLATFORM)).

Definition CMAKE_CONFIG : string := "RelWithDebInfo".

(** Lines 70 and 73. *)
Definition env_flag (w : World) (name : string) : bool :=
  opt_eqb (environ w !! name) "1".

(** The module globals the classes below read. *)
Record globals := Globals {
  SOURCE_DIR : string;
  PLATFORM : string;
  CMAKE_PRESET : string;
  MSVC_PLAT_SPEC : option string;
  NO_CMAKE_BUILD : bool;
  BUILD_RELEASE_WHEEL : bool
}.

(** PlatformResolver as one function: OS identifier, architecture and
    environment in, preset out. *)
Definition PlatformResolver (w : World) : result string :=
  match resolve_PLATFORM w with
  | Raise e => Raise e
  | Ok p => match resolve_CMAKE_PRESET w p with
            | Raise e => Raise e
            | Ok (preset, _) => Ok preset
            end
  end.

(** Lines 23-73 in order. *)
Definition module_globals (w : World) (f : fs_t) : result globals :=
  let source_dir := path_resolve w f (path_parent w (dunder_file w)) in
  match resolve_PLATFORM w with
  | Raise e => Raise e
  | Ok platform =>
      match resolve_CMAKE_PRESET w platform with
      | Raise e => Raise e
      | Ok (preset, plat_spec) =>
          Ok (Globals source_dir platform preset plat_spec
                (env_flag w "NO_CMAKE_BUILD") (env_flag w "BUILD_RELEASE_WHEEL"))
      end
  end.

(* ===================================================================== *)
(** ** CMakeBuild.build_extension (lines 86-184) *)
(* ===================================================================== *)

(** Lines 92-97: EnvironmentPreparer. *)
Definition prepare_env (w : World) (g : globals) : M env_t :=
  let env := environ w in
  if os_name w == "nt" then lift (msvc14_get_vc_env w (MSVC_PLAT_SPEC g))
  else ret env.

Definition build_dir_of (w : World) (g : globals) : string :=
  path_div w (SOURCE_DIR g) "build/pip".

(** Lines 101-103. *)
Definition wipe_build_dir (w : World) (build_dir : string) : M unit :=
  let* f := get_fs in
  if os_path_exists f build_dir then rmtree w build_dir else ret tt.

(** Lines 105-119. *)
Definition initial_cmake_args (g : globals) (build_dir extdir : string) : list string :=
  [ "--preset";
    CMAKE_PRESET g;
    "-B";
    build_dir;
    "-DCMAKE_DEFAULT_BUILD_TYPE=" +:+ CMAKE_CONFIG;
    "-DPython_FIND_REGISTRY:STRING=NEVER";
    "-DCMAKE_INSTALL_PREFIX=" +:+ extdir;
    "-DCMAKE_INSTALL_LIBDIR=.";
    "-DCMAKE_INSTALL_BINDIR=.";
    "-DCMAKE_INSTALL_INCLUDEDIR=include";
    "-DCMAKE_INSTALL_DATAROOTDIR=.";
    "-DSGL_BUILD_EXAMPLES=OFF";
    "-DSGL_BUILD_TESTS=OFF" ].

(** Lines 121-135. *)
Definition python_location_args (w : World) (g : globals) (cmake_args : list string)
  : M (list string) :=
  if PLATFORM g == "android" then
    let toolchain_file := environ w !! "CMAKE_TOOLCHAIN_FILE" in
    match toolchain_file with
    | Some tf =>
        if truthy tf then
          let* f := get_fs in
          let python_prefix :=
            path_resolve w f
              (path_div w (path_div w (path_parent w tf) "python") "prefix") in
          let include_dirs := path_glob w f python_prefix "include/python3.*" in
          match include_dirs with
          | [] => raise IndexError
          | inc :: _ =>
              let cmake_args := cmake_args ++ ["-DPython_INCLUDE_DIR=" +:+ inc] in
              let libs := path_glob w f python_prefix "lib/libpython3.*.so" in
              match libs with
              | [] => raise IndexError
              | lib :: _ => ret (cmake_args ++ ["-DPython_LIBRARY=" +:+ lib])
              end
          end
        else raise (AssertionError "CMAKE_TOOLCHAIN_FILE environment variable is not set!")
    | None => raise (AssertionError "CMAKE_TOOLCHAIN_FILE environment variable is not set!")
    end
  else ret (list_insert 5 ("-DPython_ROOT_DIR:PATH=" +:+ sys_prefix w) cmake_args).

(** Lines 137-145. *)
Definition local_slang_args (w : World) (g : globals) (cmake_args : list string)
  : M (list string) :=
  if PLATFORM g == "android" then
    let* f := get_fs in
    let slang_root :=
      path_resolve w f (path_div w (path_parent w (SOURCE_DIR g)) "slang") in
    let android_abi := environ w !! "ANDROID_ABI" in
    ret (cmake_args ++
         [ "-DSGL_LOCAL_SLANG=ON";
           "-DSGL_LOCAL_SLANG_DIR=" +:+ slang_root;
           "-DSGL_LOCAL_SLANG_BUILD_DIR=build-android-" +:+ fmt_opt android_abi
             +:+ "/" +:+ CMAKE_CONFIG ])
  else ret cmake_args.

Definition WSL_MARKER : string := "/proc/sys/fs/binfmt_misc/WSLInterop".

Definition remap_flags (wsl_src win_src : string) : list string :=
  let flag := "-fdebug-prefix-map=" +:+ wsl_src +:+ "=" +:+ win_src in
  map (λ x, "-DCMAKE_" +:+ x +:+ "_FLAGS=" +:+ flag) ["C"; "CXX"].

(** Lines 147-159: PathMapper and its use. *)
Definition wsl_path_mapping (w : World) (g : globals) (cmake_args : list string)
  : M (list string) :=
  let* f := get_fs in
  let is_wsl := os_path_exists f WSL_MARKER in
  if is_wsl then
    print "[setup.py] WSL detected, attempting path mapping for debug info..." ;;
    try_except
      (let wsl_src := SOURCE_DIR g in
       let* win_src :=
         match which w f "wslpath" with
         | Some _ =>
             let* out := subprocess_check_output w ["wslpath"; "-m"; wsl_src] in
             ret (strip out)
         | None => ret wsl_src
         end in
       print ("[setup.py] Path mapping: '" +:+ wsl_src +:+ "' -> '" +:+ win_src +:+ "'") ;;
       if negb (win_src == wsl_src) then
         let flag := "-fdebug-prefix-map=" +:+ wsl_src +:+ "=" +:+ win_src in
         let cmake_args := cmake_args ++ remap_flags wsl_src win_src in
         print ("[setup.py] Added build flag: " +:+ flag) ;;
         ret cmake_args
       else ret cmake_args)
      (λ e,
         print ("[setup.py] Failed to setup WSL path mapping: " +:+ str_exn w e) ;;
         ret cmake_args)
  else ret cmake_args.

(** Lines 161-165. *)
Definition release_wheel_args (g : globals) (cmake_args : list string) : list string :=
  if BUILD_RELEASE_WHEEL g
  then cmake_args ++ ["-DSGL_PROJECT_DIR="; "-DSGL_SLANG_DEBUG_INFO=OFF"]
  else cmake_args.

(** Line 169: the items of CMAKE_ARGS. *)
Definition user_items (v : string) : list string :=
  filter (λ item, truthy item = true) (split " "%char v).

(** Lines 167-169. *)
Definition user_args (w : World) (cmake_args : list string) : list string :=
  match environ w !! "CMAKE_ARGS" with
  | Some v => cmake_args ++ user_items v
  | None => cmake_args
  end.

(** Lines 105-169: ConfigurationBuilder. *)
Definition ConfigurationBuilder (w : World) (g : globals) (build_dir extdir : string)
  : M (list string) :=
  let cmake_args := initial_cmake_args g build_dir extdir in
  let* cmake_args := python_location_args w g cmake_args in
  let* cmake_args := local_slang_args w g cmake_args in
  let* cmake_args := wsl_path_mapping w g cmake_args in
  let cmake_args := release_wheel_args g cmake_args in
  let cmake_args := user_args w cmake_args in
  ret cmake_args.

Definition configure_cmd (cmake_args : list string) : list string :=
  "cmake" :: cmake_args.
Definition build_cmd (build_dir : string) : list string :=
  ["cmake"; "--build"; build_dir; "--config"; CMAKE_CONFIG].
Definition install_cmd (build_dir : string) : list string :=
  ["cmake"; "--install"; build_dir; "--config"; CMAKE_CONFIG].

(** Lines 171-178: BuildPipelineInvoker. *)
Definition BuildPipelineInvoker (w : World) (cmake_args : list string)
    (build_dir : string) (env : env_t) : M unit :=
  subprocess_run w (configure_cmd cmake_args) env ;;
  subprocess_run w (build_cmd build_dir) env ;;
  subprocess_run w (install_cmd build_dir) env.

(** Lines 180-184. *)
Definition remove_unneeded (w : World) (extdir : string) : M unit :=
  for_each ["slang-rhi.lib"] (λ file,
    let path := path_div w extdir file in
    let* f := get_fs in
    if os_path_exists f path then os_remove w path else ret tt).

Definition build_extension (w : World) (g : globals) (ext_name : string) : M unit :=
  let* f := get_fs in
  let ext_fullpath := path_div w (cwd w) (get_ext_fullpath w ext_name) in
  let extdir := path_resolve w f (path_parent w ext_fullpath) in
  let* env := prepare_env w g in
  let build_dir := build_dir_of w g in
  wipe_build_dir w build_dir ;;
  let* cmake_args := ConfigurationBuilder w g build_dir extdir in
  BuildPipelineInvoker w cmake_args build_dir env ;;
  remove_unneeded w extdir.

(* ===================================================================== *)
(** ** CustomBuildPy.run (lines 187-198) *)
(* ===================================================================== *)

Definition super_run (w : World) : M unit :=
  λ s, let '(r, f') := super_build_py_run w (fs s) in
       (r, State f' (log s ++ [SuperRun])).

Definition CustomBuildPy_run (w : World) (g : globals) : M unit :=
  (if BUILD_RELEASE_WHEEL g then
     let src := abspath w "data" in
     let dst := os_path_join w [build_lib w; "slangpy"; "data"] in
     let* f := get_fs in
     (if os_path_exists f dst then rmtree w dst else ret tt) ;;
     copytree w src dst
   else ret tt) ;;
  super_run w.

(* ===================================================================== *)
(** ** The script as a whole (lines 23-216) *)
(* ===================================================================== *)

(** Line 213. *)
Definition ext_modules (g : globals) : list string :=
  if NO_CMAKE_BUILD g then [] else ["slangpy.slangpy_ext"].

(** setuptools' [setup]: each requested command runs through [cmdclass];
    [build_ext] calls [build_extension] once per extension module. *)
Definition run_command (w : World) (g : globals) (cmd : string) : M unit :=
  if cmd == "build_ext" then for_each (ext_modules g) (build_extension w g)
  else if cmd == "build_py" then CustomBuildPy_run w g
  else ret tt.

Definition setup (w : World) (g : globals) (version : string) : M unit :=
  for_each (requested_commands w) (run_command w g).

Definition setup_py (w : World) : M unit :=
  let* f := get_fs in
  let* g := lift (module_globals w f) in
  let* blob := lift (read_text w "src/sgl/sgl.h") in
  let* version := lift (version_of blob) in
  print ("version=" +:+ version) ;;
  let* long_description := lift (read_text w "README.md") in
  setup w g version.

(* ===================================================================== *)
(** ** Vocabulary: platform resolution *)
(* ===================================================================== *)

(** The presets the resolver can answer with. *)
Definition PRESETS : list string :=
  [ "windows-msvc"; "windows-arm64-msvc"; "linux-gcc"; "macos-arm64-clang";
    "android-arm64"; "android-x86_64" ].

Definition is_arm64_class (machine : string) : bool :=
  (lower machine == "arm64") || (lower machine == "aarch64").

Definition supported_os (platform : string) : bool :=
  startswith platform "win" || startswith platform "linux"
  || startswith platform "darwin" || startswith platform "android".

(* ===================================================================== *)
(** ** Vocabulary: the configuration list *)
(* ===================================================================== *)

(** The built-in part of the configuration: lines 105-165, everything
    before the user's CMAKE_ARGS. *)
Definition builtin_steps (w : World) (g : globals) (build_dir extdir : string)
  : M (list string) :=
  let* a := python_location_args w g (initial_cmake_args g build_dir extdir) in
  let* a := local_slang_args w g a in
  let* a := wsl_path_mapping w g a in
  ret (release_wheel_args g a).

(** The same surroundings with another environment. *)
Definition with_environ (env : env_t) (w : World) : World :=
  {| sys_platform := sys_platform w; platform_machine := platform_machine w;
     os_name := os_name w; sys_prefix := sys_prefix w; environ := env;
     dunder_file := dunder_file w; cwd := cwd w; path_div := path_div w;
     path_parent := path_parent w; path_resolve := path_resolve w;
     path_glob := path_glob w; path_inside := path_inside w;
     abspath := abspath w; os_path_join := os_path_join w; which := which w;
     rmtree_error := rmtree_error w; remove_error := remove_error w;
     copytree_result := copytree_result w; read_text := read_text w;
     str_exn := str_exn w; run_process := run_process w;
     check_output_utf8 := check_output_utf8 w;
     get_ext_fullpath := get_ext_fullpath w; build_lib := build_lib w;
     requested_commands := requested_commands w;
     super_build_py_run := super_build_py_run w;
     msvc14_get_vc_env := msvc14_get_vc_env w |}.

(** What the user supplied through CMAKE_ARGS. *)
Definition user_supplied (w : World) : list string :=
  match environ w !! "CMAKE_ARGS" with
  | Some v => user_items v
  | None => []
  end.

Fixpoint without_char (c : ascii) (s : string) : string :=
  match s with
  | EmptyString => EmptyString
  | String x s' => if Ascii.eqb x c then without_char c s'
                   else String x (without_char c s')
  end.

Fixpoint has_char (c : ascii) (s : string) : bool :=
  match s with
  | EmptyString => false
  | String x s' => Ascii.eqb x c || has_char c s'
  end.

Fixpoint join_all (l : list string) : string :=
  match l with
  | [] => EmptyString
  | x :: l' => x +:+ join_all l'
  end.

(** An install-directory override on the command line. *)
Definition is_install_override (arg : string) : bool :=
  String.prefix "-DCMAKE_INSTALL_" arg.

Definition install_overrides (args : list string) : list string :=
  filter (λ a, is_install_override a = true) args.

(** The five install-directory overrides of lines 112-116. *)
Definition INSTALL_OVERRIDES (extdir : string) : list string :=
  [ "-DCMAKE_INSTALL_PREFIX=" +:+ extdir;
    "-DCMAKE_INSTALL_LIBDIR=.";
    "-DCMAKE_INSTALL_BINDIR=.";
    "-DCMAKE_INSTALL_INCLUDEDIR=include";
    "-DCMAKE_INSTALL_DATAROOTDIR=." ].

(** Two runs get the same answers to everything ConfigurationBuilder asks
    before it reads CMAKE_ARGS. *)
Record same_answers (w1 w2 : World) (f1 f2 : fs_t) : Prop := {
  sa_prefix : sys_prefix w1 = sys_prefix w2;
  sa_toolchain :
    environ w1 !! "CMAKE_TOOLCHAIN_FILE" = environ w2 !! "CMAKE_TOOLCHAIN_FILE";
  sa_abi : environ w1 !! "ANDROID_ABI" = environ w2 !! "ANDROID_ABI";
  sa_div : ∀ a b, path_div w1 a b = path_div w2 a b;
  sa_parent : ∀ a, path_parent w1 a = path_parent w2 a;
  sa_resolve : ∀ p, path_resolve w1 f1 p = path_resolve w2 f2 p;
  sa_glob : ∀ d pat, path_glob w1 f1 d pat = path_glob w2 f2 d pat;
  sa_marker : WSL_MARKER ∈ f1 ↔ WSL_MARKER ∈ f2;
  sa_which : is_Some (which w1 f1 "wslpath") ↔ is_Some (which w2 f2 "wslpath");
  sa_query : ∀ argv, check_output_utf8 w1 argv = check_output_utf8 w2 argv
}.

(** The host-path query and the diagnostics of the path-mapping step. *)
Definition WSL_QUERY (g : globals) : list string := ["wslpath"; "-m"; SOURCE_DIR g].

Definition MSG_DETECTED : event :=
  Stdout "[setup.py] WSL detected, attempting path mapping for debug info...".
Definition MSG_MAPPING (src dst : string) : event :=
  Stdout ("[setup.py] Path mapping: '" +:+ src +:+ "' -> '" +:+ dst +:+ "'").
Definition MSG_ADDED (src dst : string) : event :=
  Stdout ("[setup.py] Added build flag: " +:+ "-fdebug-prefix-map=" +:+ src +:+ "=" +:+ dst).
Definition MSG_FAILED (w : World) (e : exn) : event :=
  Stdout ("[setup.py] Failed to setup WSL path mapping: " +:+ str_exn w e).

(** Where [CustomBuildPy.run] puts the bundled data. *)
Definition bundle_dst (w : World) : string :=
  os_path_join w [build_lib w; "slangpy"; "data"].

(* ===================================================================== *)
(** ** Vocabulary: the pipeline and the working directory *)
(* ===================================================================== *)

(** The three phases of the external pipeline, recognised by the command
    line of a child process. *)
Inductive phase : Type := Configure | Build | Install.

Definition phase_of (argv : list string) : option phase :=
  match argv with
  | prog :: arg1 :: _ =>
      if prog == "cmake" then
        if arg1 == "--build" then Some Build
        else if arg1 == "--install" then Some Install
        else Some Configure
      else None
  | _ => None
  end.

Definition event_phase (e : event) : option phase :=
  match e with Spawn argv _ _ => phase_of argv | _ => None end.

Definition phases (l : list event) : list phase := omap event_phase l.

(** The phases invoked when the run stops in phase [ph]. *)
Definition phases_upto (ph : phase) : list phase :=
  match ph with
  | Configure => [Configure]
  | Build => [Configure; Build]
  | Install => [Configure; Build; Install]
  end.

(** Events that neither start a pipeline phase nor touch the disk. *)
Definition quiet (e : event) : Prop :=
  match e with
  | Stdout _ => True
  | Spawn argv _ _ => phase_of argv = None
  | _ => False
  end.

Definition is_Remove (e : event) : Prop :=
  match e with Remove _ => True | _ => False end.

Definition exit_ok (r : result Z * fs_t) : Prop := r.1 = Ok 0%Z.

(** The ways the three invocations of lines 172-178 can go, from the disk
    [f1] the first starts in: the child processes spawned, and whether all
    three exited with status zero. *)
Inductive pipeline_trace (w : World) (env : env_t) (c b i : list string) (f1 : fs_t)
  : list event → bool → Prop :=
| configure_failed :
    ¬ exit_ok (run_process w c env f1) →
    pipeline_trace w env c b i f1 [Spawn c env f1] false
| build_failed f2 :
    run_process w c env f1 = (Ok 0%Z, f2) →
    ¬ exit_ok (run_process w b env f2) →
    pipeline_trace w env c b i f1 [Spawn c env f1; Spawn b env f2] false
| install_failed f2 f3 :
    run_process w c env f1 = (Ok 0%Z, f2) →
    run_process w b env f2 = (Ok 0%Z, f3) →
    ¬ exit_ok (run_process w i env f3) →
    pipeline_trace w env c b i f1
      [Spawn c env f1; Spawn b env f2; Spawn i env f3] false
| all_succeeded f2 f3 f4 :
    run_process w c env f1 = (Ok 0%Z, f2) →
    run_process w b env f2 = (Ok 0%Z, f3) →
    run_process w i env f3 = (Ok 0%Z, f4) →
    pipeline_trace w env c b i f1
      [Spawn c env f1; Spawn b env f2; Spawn i env f3] true.

(** The disk the configure phase starts from. *)
Definition wiped (w : World) (dir : string) (f : fs_t) : fs_t :=
  if bool_decide (dir ∈ f) then without_tree w dir f else f.

(** Lines 102-103 go through: there is no working directory, or its removal
    raises nothing. *)
Definition wipe_succeeds (w : World) (g : globals) (s : state) : Prop :=
  build_dir_of w g ∉ fs s ∨ rmtree_error w (fs s) (build_dir_of w g) = None.

(** The state lines 102-103 then leave: the wiped disk, and the removal
    logged if there was something to remove. *)
Definition after_wipe (w : World) (g : globals) (s : state) : state :=
  State (wiped w (build_dir_of w g) (fs s))
    (log s ++ if bool_decide (build_dir_of w g ∈ fs s)
              then [Rmtree (build_dir_of w g)] else []).

(* ===================================================================== *)
(** ** Vocabulary: version directives *)
(* ===================================================================== *)

(** The value of the last pair with key [k]. *)
Fixpoint last_value (k : string) (pairs : list (string * string)) : option string :=
  match pairs with
  | [] => None
  | (k', v) :: rest =>
      match last_value k rest with
      | Some v' => Some v'
      | None => if k' == k then Some v else None
      end
  end.

Definition version_key (k : string) : bool :=
  (k == "MAJOR") || (k == "MINOR") || (k == "PATCH").

(** The directives [findall] reports for a text, in text order. *)
Definition directives (blob : string) : list (string * string) :=
  Re.as_pairs (Re.findall VERSION_REGEX blob).

(** A header seen as lines: version directives in their plain form, and
    other lines. *)
Inductive line : Type :=
| Directive (suffix value : string)
| Other (text : string).

Definition render (l : line) : string :=
  match l with
  | Directive k v => "#define SGL_VERSION_" +:+ k +:+ " " +:+ v
  | Other t => t
  end.

Fixpoint unlines (ls : list string) : string :=
  match ls with
  | [] => EmptyString
  | l :: ls' => l +:+ nl +:+ unlines ls'
  end.

Fixpoint all_chars (P : ascii → bool) (s : string) : bool :=
  match s with
  | EmptyString => true
  | String c s' => P c && all_chars P s'
  end.

Definition starts_nonspace (s : string) : bool :=
  match s with String c _ => negb (isspace c) | EmptyString => false end.

(** A line on which the pattern cannot begin: blank, or its first
    non-blank character is not a hash sign, or the hash sign is directly
    followed by a word that does not begin with the letter d (pragma,
    include, ifndef, endif, ...). *)
Definition plain_text (t : string) : bool :=
  match lstrip t with
  | EmptyString => true
  | String c y =>
      if Ascii.eqb c "#"%char then
        match y with
        | String d _ => negb (isspace d) && negb (Ascii.eqb d "d"%char)
        | EmptyString => false
        end
      else true
  end.

Definition well_formed (l : line) : bool :=
  match l with
  | Directive k v =>
      all_chars Re.cls_upper k && negb (k == EmptyString)
      && all_chars Re.cls_dot v && starts_nonspace v
  | Other t => all_chars Re.cls_dot t && plain_text t
  end.

Definition directive_of (l : line) : option (string * string) :=
  match l with Directive k v => Some (k, v) | Other _ => None end.

(** The least number of characters a match of the pattern takes. *)
Fixpoint min_len (p : Re.pattern) : nat :=
  match p with
  | [] => 0
  | Re.Lit l :: p' => String.length l + min_len p'
  | Re.Many _ lo _ :: p' => lo + min_len p'
  | _ :: p' => min_len p'
  end.

Fixpoint no_bol (p : Re.pattern) : bool :=
  match p with
  | [] => true
  | Re.Bol :: _ => false
  | _ :: p' => no_bol p'
  end.

(** The pattern behind the line-start anchor. *)
Definition AFTER_BOL : Re.pattern := tail VERSION_REGEX.

(* ===================================================================== *)
(** ** A POSIX machine to run the script on *)
(* ===================================================================== *)

(** The version header of the example machine. *)
Definition EXAMPLE_HEADER : string :=
  "#pragma once" +:+ nl +:+
  "#define SGL_VERSION_MAJOR 0" +:+ nl +:+
  "#define SGL_VERSION_MINOR 40" +:+ nl +:+
  "#define SGL_VERSION_PATCH 0" +:+ nl.

Definition posix_div (a b : string) : string := a +:+ "/" +:+ b.

Fixpoint posix_parent_go (s : string) : option string :=
  match s with
  | EmptyString => None
  | String c s' =>
      match posix_parent_go s' with
      | Some p => Some (String c p)
      | None => if Ascii.eqb c "/"%char then Some EmptyString else None
      end
  end.

Definition posix_parent (p : string) : string :=
  match posix_parent_go p with Some d => d | None => "." end.

Definition posix_inside (dir p : string) : bool := String.prefix (dir +:+ "/") p.

Definition posix_world (platform machine : string) (env : env_t)
    (wslpath : option (result string))
    (child : list string → fs_t → result Z * fs_t) : World :=
  {| sys_platform := platform; platform_machine := machine;
     os_name := "posix"; sys_prefix := "/usr"; environ := env;
     dunder_file := "/src/slangpy/setup.py"; cwd := "/src/slangpy";
     path_div := posix_div; path_parent := posix_parent;
     path_resolve := λ _ p, p;
     path_glob := λ _ dir pat,
       if pat == "include/python3.*" then [posix_div dir "include/python3.11"]
       else if pat == "lib/libpython3.*.so" then [posix_div dir "lib/libpython3.11.so"]
       else [];
     path_inside := posix_inside;
     abspath := λ p, posix_div "/src/slangpy" p;
     os_path_join := λ l, foldr (λ x acc, if acc == EmptyString then x else posix_div x acc) EmptyString l;
     which := λ _ _, match wslpath with Some _ => Some "/usr/bin/wslpath" | None => None end;
     rmtree_error := λ _ _, None; remove_error := λ _ _, None;
     copytree_result := λ f _ dst, Ok (f ∪ {[dst]});
     read_text := λ p, if p == "src/sgl/sgl.h" then Ok EXAMPLE_HEADER else Ok EmptyString;
     str_exn := λ _, "error";
     run_process := λ argv _ f, child argv f;
     check_output_utf8 := λ _, match wslpath with Some r => r | None => Raise (OSError "wslpath") end;
     get_ext_fullpath := λ _, "build/lib/slangpy/slangpy_ext.so";
     build_lib := "build/lib";
     requested_commands := ["build_py"; "build_ext"];
     super_build_py_run := λ f, (Ok tt, f);
     msvc14_get_vc_env := λ _, Ok ∅ |}.

(** Every child succeeds and leaves the disk as it is. *)
Definition child_ok (argv : list string) (f : fs_t) : result Z * fs_t := (Ok 0%Z, f).

(** Another Linux machine: other architecture, other environment, children
    that fail. *)
Definition child_fails (argv : list string) (f : fs_t) : result Z * fs_t := (Ok 2%Z, f).
Definition other_linux_world : World :=
  posix_world "linux" "aarch64" {[ "HOME" := "/root" ]} None child_fails.

Definition linux_world : World := posix_world "linux" "x86_64" ∅ None child_ok.

Definition linux_globals : globals :=
  Globals "/src/slangpy" "linux" "linux-gcc" None false false.

Definition flags_world (no_build release : string) : World :=
  posix_world "linux" "x86_64"
    {[ "NO_CMAKE_BUILD" := no_build; "BUILD_RELEASE_WHEEL" := release ]}
    None child_ok.

(** A machine under the compatibility layer: the marker file exists and the
    host-path query answers [wslpath]. *)
Definition wsl_world (wslpath : option (result string)) : World :=
  posix_world "linux" "x86_64" ∅ wslpath child_ok.
Definition wsl_state : state := State {[ WSL_MARKER ]} [].

(** A Linux machine where the user passes two items through CMAKE_ARGS. *)
Definition cmake_args_world : World :=
  posix_world "linux" "x86_64" {[ "CMAKE_ARGS" := "-DSGL_BUILD_TESTS=ON  -GNinja" ]}
    None child_ok.

Definition EXAMPLE_BUILD_DIR : string := "/src/slangpy/build/pip".
Definition EXAMPLE_EXTDIR : string := "/src/slangpy/build/lib/slangpy".

(** The configuration expected on [cmake_args_world]. *)
Definition cmake_args_world_result : list string :=
  [ "--preset"; "linux-gcc"; "-B"; "/src/slangpy/build/pip";
    "-DCMAKE_DEFAULT_BUILD_TYPE=RelWithDebInfo";
    "-DPython_ROOT_DIR:PATH=/usr";
    "-DPython_FIND_REGISTRY:STRING=NEVER";
    "-DCMAKE_INSTALL_PREFIX=/src/slangpy/build/lib/slangpy";
    "-DCMAKE_INSTALL_LIBDIR=."; "-DCMAKE_INSTALL_BINDIR=.";
    "-DCMAKE_INSTALL_INCLUDEDIR=include"; "-DCMAKE_INSTALL_DATAROOTDIR=.";
    "-DSGL_BUILD_EXAMPLES=OFF"; "-DSGL_BUILD_TESTS=OFF";
    "-DSGL_BUILD_TESTS=ON"; "-GNinja" ].

(** The configuration expected on [linux_world]. *)
Definition LINUX_CMAKE_ARGS : list string :=
  [ "--preset"; "linux-gcc"; "-B"; "/src/slangpy/build/pip";
    "-DCMAKE_DEFAULT_BUILD_TYPE=RelWithDebInfo";
    "-DPython_ROOT_DIR:PATH=/usr";
    "-DPython_FIND_REGISTRY:STRING=NEVER";
    "-DCMAKE_INSTALL_PREFIX=/src/slangpy/build/lib/slangpy";
    "-DCMAKE_INSTALL_LIBDIR=."; "-DCMAKE_INSTALL_BINDIR=.";
    "-DCMAKE_INSTALL_INCLUDEDIR=include"; "-DCMAKE_INSTALL_DATAROOTDIR=.";
    "-DSGL_BUILD_EXAMPLES=OFF"; "-DSGL_BUILD_TESTS=OFF" ].

(** A disk with a stale working directory. *)
Definition stale_disk : fs_t :=
  {[ "/src/slangpy/setup.py"; "/src/slangpy/build/pip";
     "/src/slangpy/build/pip/CMakeCache.txt" ]}.

(** A version header behind an include guard. *)
Definition GUARDED_HEADER : string :=
  "#ifndef SGL_VERSION_H" +:+ nl +:+
  "#define SGL_VERSION_H" +:+ nl +:+
  "#define SGL_VERSION_MAJOR 1" +:+ nl +:+
  "#define SGL_VERSION_MINOR 2" +:+ nl +:+
  "#define SGL_VERSION_PATCH 3" +:+ nl +:+
  "#endif" +:+ nl.

(** A header that defines the major version twice and one more macro. *)
Definition REDEFINED_HEADER : string :=
  "#define SGL_VERSION_MAJOR 1" +:+ nl +:+
  "#define SGL_VERSION_STR alpha" +:+ nl +:+
  "#define SGL_VERSION_MINOR 2" +:+ nl +:+
  "#define SGL_VERSION_MAJOR 9" +:+ nl +:+
  "#define SGL_VERSION_PATCH 3" +:+ nl.

(* ===================================================================== *)
(** ** Vocabulary: further properties *)
(* ===================================================================== *)

(** The capturing repetitions of a pattern, in order: least count and
    character class. *)
Fixpoint captures (p : Re.pattern) : list (nat * (ascii → bool)) :=
  match p with
  | [] => []
  | Re.Many true lo cls :: p' => (lo, cls) :: captures p'
  | _ :: p' => captures p'
  end.

(** A group that fits a capturing repetition. *)
Definition fits (g : string) (c : nat * (ascii → bool)) : Prop :=
  c.1 ≤ String.length g ∧ all_chars c.2 g = true.

(** The suffixes of the directives [findall] reports. *)
Definition suffixes (blob : string) : list string := (directives blob).*1.

Definition is_Spawn (e : event) : Prop :=
  match e with Spawn _ _ _ => True | _ => False end.

(** The install directory of an extension, as line 89 computes it. *)
Definition extdir_of (w : World) (ext_name : string) (f : fs_t) : string :=
  path_resolve w f (path_parent w (path_div w (cwd w) (get_ext_fullpath w ext_name))).

(** The file lines 181-184 remove. *)
Definition unneeded_lib (w : World) (extdir : string) : string :=
  path_div w extdir "slang-rhi.lib".

(** The same globals with another release-wheel flag. *)
Definition with_release (b : bool) (g : globals) : globals :=
  Globals (SOURCE_DIR g) (PLATFORM g) (CMAKE_PRESET g) (MSVC_PLAT_SPEC g)
    (NO_CMAKE_BUILD g) b.

(** Arguments only an Android build passes. *)
Definition android_only (arg : string) : bool :=
  String.prefix "-DSGL_LOCAL_SLANG" arg
  || String.prefix "-DPython_INCLUDE_DIR=" arg
  || String.prefix "-DPython_LIBRARY=" arg.

Definition PLATFORMS : list string := ["windows"; "linux"; "macos"; "android"].

Definition ASSERT_TOOLCHAIN : exn :=
  AssertionError "CMAKE_TOOLCHAIN_FILE environment variable is not set!".

(** An Android cross-build machine. *)
Definition android_world (env : env_t) : World :=
  posix_world "android" "aarch64" env None child_ok.
Definition android_globals : globals :=
  Globals "/src/slangpy" "android" "android-arm64" None false false.
Definition android_env : env_t :=
  {[ "ANDROID_ABI" := "arm64-v8a";
     "CMAKE_TOOLCHAIN_FILE" := "/ndk/build/cmake/android.toolchain.cmake" ]}.

(** A Windows machine whose toolchain helper fails. *)
Definition broken_msvc_world : World :=
  {| sys_platform := "win32"; platform_machine := "AMD64";
     os_name := "nt"; sys_prefix := "C:/Python"; environ := ∅;
     dunder_file := "C:/src/slangpy/setup.py"; cwd := "C:/src/slangpy";
     path_div := posix_div; path_parent := posix_parent;
     path_resolve := λ _ p, p; path_glob := λ _ _ _, [];
     path_inside := posix_inside;
     abspath := λ p, posix_div "C:/src/slangpy" p;
     os_path_join := λ l, foldr (λ x acc, if acc == EmptyString then x else posix_div x acc) EmptyString l;
     which := λ _ _, None;
     rmtree_error := λ _ _, None; remove_error := λ _ _, None;
     copytree_result := λ f _ dst, Ok (f ∪ {[dst]});
     read_text := λ p, if p == "src/sgl/sgl.h" then Ok EXAMPLE_HEADER else Ok EmptyString;
     str_exn := λ _, "error";
     run_process := λ argv _ f, child_ok argv f;
     check_output_utf8 := λ _, Raise (OSError "wslpath");
     get_ext_fullpath := λ _, "build/lib/slangpy/slangpy_ext.pyd";
     build_lib := "build/lib";
     requested_commands := ["build_py"; "build_ext"];
     super_build_py_run := λ f, (Ok tt, f);
     msvc14_get_vc_env := λ _, Raise (OSError "vcvarsall.bat not found") |}.
Definition windows_globals : globals :=
  Globals "C:/src/slangpy" "windows" "windows-msvc" (Some "x64") false false.

(** A disk with a built extension and the import library next to it. *)
Definition built_disk : fs_t :=
  {[ "/src/slangpy/build/lib/slangpy/slangpy_ext.so";
     "/src/slangpy/build/lib/slangpy/slang-rhi.lib" ]}.

(** The extraction returned a version. *)
Definition is_Ok_version (blob : string) : Prop := ∃ v, version_of blob = Ok v.

(** Settle a decidable statement about concrete data by evaluation. *)
Ltac decide_now := refine (bool_decide_unpack _ _); vm_compute; exact I.

(** How a build invocation went: it stopped before the pipeline, or the
    pipeline ran on the wiped disk, with the prepared environment and the
    list ConfigurationBuilder returned, and the clean-up followed only if all
    three phases succeeded. *)
Inductive build_outcome (w : World) (g : globals) (name : string) (s : state)
  : result unit * state → Prop :=
| stopped_early e s' evs :
    log s' = log s ++ evs →
    Forall (λ ev, event_phase ev = None ∧ ¬ is_Remove ev) evs →
    build_outcome w g name s (Raise e, s')
| pipeline_ran env s2 args pre pev ok r :
    (prepare_env w g s).1 = Ok env →
    fs s2 = wiped w (build_dir_of w g) (fs s) →
    log s2 = log s ++ pre →
    Forall (λ ev, event_phase ev = None ∧ ¬ is_Remove ev) pre →
    (∃ s1, fs s1 = fs s2 ∧
       (ConfigurationBuilder w g (build_dir_of w g) (extdir_of w name (fs s)) s1).1
       = Ok args) →
    pipeline_trace w env (configure_cmd args) (build_cmd (build_dir_of w g))
      (install_cmd (build_dir_of w g)) (fs s2) pev ok →
    log (BuildPipelineInvoker w args (build_dir_of w g) env s2).2 = log s2 ++ pev →
    (if ok
     then r = remove_unneeded w (extdir_of w name (fs s))
                (BuildPipelineInvoker w args (build_dir_of w g) env s2).2
     else r = BuildPipelineInvoker w args (build_dir_of w g) env s2
          ∧ ∃ e, r.1 = Raise e) →
    build_outcome w g name s r.

(** [sep.join(items)] for a one-character separator. *)
Fixpoint join_with (sep : ascii) (items : list string) : string :=
  match items with
  | [] => EmptyString
  | x :: rest =>
      match rest with
      | [] => x
      | _ => x +:+ String sep (join_with sep rest)
      end
  end.

(* ===================================================================== *)
(** * Properties *)
(* ===================================================================== *)

(** ** The built-ins on small inputs *)

Example lower_machine : lower "ARM64" = "arm64" ∧ lower "AArch64" = "aarch64".
Proof. split; reflexivity. Qed.

Example isspace_code_points :
  filter (λ n, isspace (ascii_of_nat n) = true) (seq 0 256)
  = [9; 10; 11; 12; 13; 28; 29; 30; 31; 32; 133; 160].
Proof. vm_compute. reflexivity. Qed.

Example split_on_spaces :
  split " " "a  b c " = ["a"; EmptyString; "b"; "c"; EmptyString]
  ∧ split " " EmptyString = [EmptyString]
  ∧ user_items "a  b c " = ["a"; "b"; "c"]
  ∧ user_items ("-DA=1" +:+ String "009" "-DB=2") = ["-DA=1" +:+ String "009" "-DB=2"].
Proof. repeat split; reflexivity. Qed.

Example strip_output : strip ("  C:/src" +:+ nl) = "C:/src".
Proof. reflexivity. Qed.

Example insert_at_five :
  list_insert 5 "x" ["a"; "b"; "c"; "d"; "e"; "f"] = ["a"; "b"; "c"; "d"; "e"; "x"; "f"].
Proof. reflexivity. Qed.

Example dict_last_wins :
  dict [("MAJOR", "1"); ("MINOR", "2"); ("MAJOR", "9")] !! "MAJOR" = Some "9".
Proof. reflexivity. Qed.

Example mode_flag_values :
  env_flag (flags_world "1" "1") "NO_CMAKE_BUILD" = true
  ∧ env_flag (flags_world "true" "0") "NO_CMAKE_BUILD" = false
  ∧ env_flag (flags_world "true" "0") "BUILD_RELEASE_WHEEL" = false
  ∧ env_flag (flags_world "yes" EmptyString) "NO_CMAKE_BUILD" = false
  ∧ env_flag (flags_world "yes" EmptyString) "BUILD_RELEASE_WHEEL" = false
  ∧ env_flag linux_world "NO_CMAKE_BUILD" = false.
Proof. repeat split; reflexivity. Qed.

(** ** Running the monad *)

Lemma bind_ok {A B} (m : M A) (k : A → M B) s a s' :
  m s = (Ok a, s') → bind m k s = k a s'.
Proof. intros H. unfold bind. by rewrite H. Qed.

Lemma bind_raise {A B} (m : M A) (k : A → M B) s e s' :
  m s = (Raise e, s') → bind m k s = (Raise e, s').
Proof. intros H. unfold bind. by rewrite H. Qed.

Lemma state_eta (s : state) : State (fs s) (log s) = s.
Proof. by destruct s. Qed.

(** ** PlatformResolver *)

Lemma startswith_head s a p :
  startswith s (String a p) = true → ∃ s', s = String a s'.
Proof.
  unfold startswith. destruct s as [|b s']; simpl; [done|].
  destruct (ascii_dec a b) as [->|]; [eauto|done].
Qed.

Lemma supported_os_cases os :
  supported_os os = true ↔
  startswith os "win" = true ∨ startswith os "linux" = true
  ∨ startswith os "darwin" = true ∨ startswith os "android" = true.
Proof.
  unfold supported_os. rewrite !orb_true_iff. tauto.
Qed.

Lemma resolver_windows w :
  startswith (sys_platform w) "win" = true →
  PlatformResolver w =
    Ok (if is_arm64_class (platform_machine w)
        then "windows-arm64-msvc" else "windows-msvc").
Proof.
  intros H. unfold PlatformResolver, resolve_PLATFORM. rewrite H.
  unfold resolve_CMAKE_PRESET, is_arm64_class. simpl.
  by destruct (_ || _).
Qed.

Lemma resolver_linux w :
  startswith (sys_platform w) "linux" = true → PlatformResolver w = Ok "linux-gcc".
Proof.
  intros H. unfold PlatformResolver, resolve_PLATFORM.
  destruct (startswith_head _ _ _ H) as [s' Hs]. rewrite Hs in H |- *.
  unfold startswith in *. simpl in H |- *. by rewrite H.
Qed.

Lemma resolver_darwin w :
  startswith (sys_platform w) "darwin" = true →
  PlatformResolver w = Ok "macos-arm64-clang".
Proof.
  intros H. unfold PlatformResolver, resolve_PLATFORM.
  destruct (startswith_head _ _ _ H) as [s' Hs]. rewrite Hs in H |- *.
  unfold startswith in *. simpl in H |- *. by rewrite H.
Qed.

Lemma resolve_PLATFORM_android w :
  startswith (sys_platform w) "android" = true → resolve_PLATFORM w = Ok "android".
Proof.
  intros H. unfold resolve_PLATFORM.
  destruct (startswith_head _ _ _ H) as [s' Hs]. rewrite Hs in H |- *.
  unfold startswith in *. simpl in H |- *. by rewrite H.
Qed.

Lemma resolve_PLATFORM_unsupported w :
  supported_os (sys_platform w) = false →
  resolve_PLATFORM w = Raise (Exception ("Unsupported platform: " +:+ sys_platform w)).
Proof.
  unfold supported_os, resolve_PLATFORM. rewrite !orb_false_iff.
  by intros [[[-> ->] ->] ->].
Qed.

Lemma opt_eqb_spec o v : opt_eqb o v = true ↔ o = Some v.
Proof.
  destruct o as [x|]; simpl; [|done].
  rewrite String.eqb_eq. split; congruence.
Qed.

Lemma opt_eqb_false o v : o ≠ Some v → opt_eqb o v = false.
Proof.
  intros H. destruct (opt_eqb o v) eqn:E; [|done].
  by apply opt_eqb_spec in E.
Qed.

Lemma setup_py_raise w e :
  (∀ f, module_globals w f = Raise e) → ∀ s, setup_py w s = (Raise e, s).
Proof.
  intros H s. unfold setup_py, bind, get_fs, lift. by rewrite H.
Qed.

Lemma module_globals_resolver w f :
  module_globals w f =
    match resolve_PLATFORM w with
    | Raise e => Raise e
    | Ok platform =>
        match resolve_CMAKE_PRESET w platform with
        | Raise e => Raise e
        | Ok (preset, plat_spec) =>
            Ok (Globals (path_resolve w f (path_parent w (dunder_file w)))
                  platform preset plat_spec
                  (env_flag w "NO_CMAKE_BUILD") (env_flag w "BUILD_RELEASE_WHEEL"))
        end
    end.
Proof. reflexivity. Qed.

Lemma resolver_in_presets w preset :
  PlatformResolver w = Ok preset →
  preset ∈ PRESETS ∧ supported_os (sys_platform w) = true.
Proof.
  unfold PlatformResolver, resolve_PLATFORM, supported_os.
  destruct (startswith (sys_platform w) "win") eqn:Hw; simpl.
  { unfold resolve_CMAKE_PRESET. simpl. destruct (_ || _); intros [= <-];
      split; try done; unfold PRESETS; set_solver. }
  destruct (startswith (sys_platform w) "linux") eqn:Hl; simpl.
  { intros [= <-]. split; [unfold PRESETS; set_solver|done]. }
  destruct (startswith (sys_platform w) "darwin") eqn:Hd; simpl.
  { intros [= <-]. split; [unfold PRESETS; set_solver|done]. }
  destruct (startswith (sys_platform w) "android") eqn:Ha; simpl; [|done].
  unfold resolve_CMAKE_PRESET. simpl.
  destruct (opt_eqb _ "arm64-v8a").
  { intros [= <-]. split; [unfold PRESETS; set_solver|done]. }
  destruct (opt_eqb _ "x86_64"); [|done].
  intros [= <-]. split; [unfold PRESETS; set_solver|done].
Qed.

(** C1. For a supported OS identifier the resolver answers with one preset
    of the closed set: on Windows the ARM64 preset exactly when the
    lower-cased machine name is arm64 or aarch64 and the default preset
    otherwise; on Linux and macOS a fixed preset whatever the machine; on
    Android the preset chosen by ANDROID_ABI.  For an unsupported OS
    identifier, and for Android with a missing or unknown ABI, the resolver
    raises and the whole script stops with that exception in the state it
    started in: nothing was logged, so no child process was spawned. *)
Theorem C1_platform_resolver (w : World) :
  let os := sys_platform w in
  let abi := environ w !! "ANDROID_ABI" in
  (∀ preset, PlatformResolver w = Ok preset →
     preset ∈ PRESETS ∧ supported_os os = true)
  ∧ (startswith os "win" = true →
     PlatformResolver w =
       Ok (if is_arm64_class (platform_machine w)
           then "windows-arm64-msvc" else "windows-msvc"))
  ∧ (startswith os "linux" = true → PlatformResolver w = Ok "linux-gcc")
  ∧ (startswith os "darwin" = true → PlatformResolver w = Ok "macos-arm64-clang")
  ∧ (startswith os "android" = true → abi = Some "arm64-v8a" →
     PlatformResolver w = Ok "android-arm64")
  ∧ (startswith os "android" = true → abi = Some "x86_64" →
     PlatformResolver w = Ok "android-x86_64")
  ∧ (supported_os os = false
     ∨ (startswith os "android" = true
        ∧ abi ≠ Some "arm64-v8a" ∧ abi ≠ Some "x86_64") →
     ∃ e, PlatformResolver w = Raise e ∧ ∀ s, setup_py w s = (Raise e, s)).
Proof.
  cbv zeta. split; [apply resolver_in_presets|].
  split; [apply resolver_windows|].
  split; [apply resolver_linux|].
  split; [apply resolver_darwin|].
  split; [|split].
  - intros Ha Habi. unfold PlatformResolver.
    rewrite (resolve_PLATFORM_android _ Ha). unfold resolve_CMAKE_PRESET.
    simpl. by rewrite Habi.
  - intros Ha Habi. unfold PlatformResolver.
    rewrite (resolve_PLATFORM_android _ Ha). unfold resolve_CMAKE_PRESET.
    simpl. by rewrite Habi.
  - intros [Hun|(Ha & H1 & H2)].
    + eexists. unfold PlatformResolver.
      rewrite (resolve_PLATFORM_unsupported _ Hun). split; [done|].
      apply setup_py_raise. intros f. rewrite module_globals_resolver.
      by rewrite (resolve_PLATFORM_unsupported _ Hun).
    + eexists. unfold PlatformResolver.
      rewrite (resolve_PLATFORM_android _ Ha). unfold resolve_CMAKE_PRESET.
      simpl. rewrite (opt_eqb_false _ _ H1), (opt_eqb_false _ _ H2).
      split; [done|].
      apply setup_py_raise. intros f. rewrite module_globals_resolver.
      rewrite (resolve_PLATFORM_android _ Ha). unfold resolve_CMAKE_PRESET.
      simpl. by rewrite (opt_eqb_false _ _ H1), (opt_eqb_false _ _ H2).
Qed.

Lemma C1_platform_resolver_witness :
  PlatformResolver (posix_world "win32" "ARM64" ∅ None child_ok) = Ok "windows-arm64-msvc"
  ∧ PlatformResolver (posix_world "win32" "AMD64" ∅ None child_ok) = Ok "windows-msvc"
  ∧ PlatformResolver linux_world = Ok "linux-gcc"
  ∧ PlatformResolver (posix_world "darwin" "arm64" ∅ None child_ok) = Ok "macos-arm64-clang"
  ∧ PlatformResolver
      (posix_world "android" "aarch64" {[ "ANDROID_ABI" := "x86_64" ]} None child_ok)
    = Ok "android-x86_64"
  ∧ (∃ e, PlatformResolver (posix_world "freebsd14" "amd64" ∅ None child_ok) = Raise e
          ∧ ∀ s, setup_py (posix_world "freebsd14" "amd64" ∅ None child_ok) s = (Raise e, s))
  ∧ (∃ e, PlatformResolver (posix_world "android" "aarch64" ∅ None child_ok) = Raise e
          ∧ ∀ s, setup_py (posix_world "android" "aarch64" ∅ None child_ok) s = (Raise e, s)).
Proof.
  split.
  { exact (proj1 (proj2 (C1_platform_resolver
             (posix_world "win32" "ARM64" ∅ None child_ok))) eq_refl). }
  split.
  { exact (proj1 (proj2 (C1_platform_resolver
             (posix_world "win32" "AMD64" ∅ None child_ok))) eq_refl). }
  split.
  { exact (proj1 (proj2 (proj2 (C1_platform_resolver linux_world))) eq_refl). }
  split.
  { exact (proj1 (proj2 (proj2 (proj2 (C1_platform_resolver
             (posix_world "darwin" "arm64" ∅ None child_ok))))) eq_refl). }
  split.
  { exact (proj1 (proj2 (proj2 (proj2 (proj2 (proj2 (C1_platform_resolver
             (posix_world "android" "aarch64" {[ "ANDROID_ABI" := "x86_64" ]} None child_ok)))))))
             eq_refl eq_refl). }
  split.
  { apply (proj2 (proj2 (proj2 (proj2 (proj2 (proj2 (C1_platform_resolver
             (posix_world "freebsd14" "amd64" ∅ None child_ok)))))))).
    left. reflexivity. }
  apply (proj2 (proj2 (proj2 (proj2 (proj2 (proj2 (C1_platform_resolver
           (posix_world "android" "aarch64" ∅ None child_ok)))))))).
  right. split; [reflexivity|]. split; discriminate.
Defined.

(** ** Mode flags *)

Lemma env_flag_spec w name : env_flag w name = true ↔ environ w !! name = Some "1".
Proof. apply opt_eqb_spec. Qed.

Lemma module_globals_flags w f g :
  module_globals w f = Ok g →
  NO_CMAKE_BUILD g = env_flag w "NO_CMAKE_BUILD"
  ∧ BUILD_RELEASE_WHEEL g = env_flag w "BUILD_RELEASE_WHEEL".
Proof.
  rewrite module_globals_resolver.
  destruct (resolve_PLATFORM w) as [p|]; [|done].
  destruct (resolve_CMAKE_PRESET w p) as [[preset spec]|]; [|done].
  by intros [= <-].
Qed.

Lemma bundling_logged w g s :
  BUILD_RELEASE_WHEEL g = true →
  (bundle_dst w ∈ fs s → rmtree_error w (fs s) (bundle_dst w) = None) →
  Copytree (abspath w "data") (bundle_dst w) ∈ log (CustomBuildPy_run w g s).2.
Proof.
  intros Hg Hrm. unfold CustomBuildPy_run. rewrite Hg.
  fold (bundle_dst w).
  unfold bind, get_fs, os_path_exists, rmtree, copytree, super_run, ret.
  case_bool_decide as Hin.
  - rewrite (Hrm Hin). cbn [fs log].
    destruct (copytree_result _ _ _ _); cbn [fs log].
    + destruct (super_build_py_run _ _). cbn. set_solver.
    + cbn. set_solver.
  - destruct (copytree_result _ _ _ _); cbn [fs log].
    + destruct (super_build_py_run _ _). cbn. set_solver.
    + cbn. set_solver.
Qed.

(** C10. A mode is active exactly when its variable holds the string 1.
    With NO_CMAKE_BUILD at any other value, or unset, the extension module is
    listed and [build_ext] builds it; with BUILD_RELEASE_WHEEL at any other
    value, or unset, no release flags are added and [build_py] copies nothing.
    With the value 1 the extension list is empty, respectively the release
    flags are added and the data directory is copied. *)
Theorem C10_mode_flags (w : World) (f : fs_t) (g : globals) :
  module_globals w f = Ok g →
  (NO_CMAKE_BUILD g = true ↔ environ w !! "NO_CMAKE_BUILD" = Some "1")
  ∧ (BUILD_RELEASE_WHEEL g = true ↔ environ w !! "BUILD_RELEASE_WHEEL" = Some "1")
  ∧ (environ w !! "NO_CMAKE_BUILD" ≠ Some "1" →
     ext_modules g = ["slangpy.slangpy_ext"]
     ∧ ∀ s, run_command w g "build_ext" s
            = (build_extension w g "slangpy.slangpy_ext" ;; ret tt) s)
  ∧ (environ w !! "NO_CMAKE_BUILD" = Some "1" →
     ext_modules g = [] ∧ ∀ s, run_command w g "build_ext" s = (Ok tt, s))
  ∧ (environ w !! "BUILD_RELEASE_WHEEL" ≠ Some "1" →
     (∀ args, release_wheel_args g args = args)
     ∧ ∀ s, CustomBuildPy_run w g s = super_run w s)
  ∧ (environ w !! "BUILD_RELEASE_WHEEL" = Some "1" →
     (∀ args, release_wheel_args g args
              = args ++ ["-DSGL_PROJECT_DIR="; "-DSGL_SLANG_DEBUG_INFO=OFF"])
     ∧ ∀ s, (bundle_dst w ∈ fs s → rmtree_error w (fs s) (bundle_dst w) = None) →
            Copytree (abspath w "data") (bundle_dst w)
              ∈ log (CustomBuildPy_run w g s).2).
Proof.
  intros Hg. destruct (module_globals_flags _ _ _ Hg) as [Hn Hr].
  split; [rewrite Hn; apply env_flag_spec|].
  split; [rewrite Hr; apply env_flag_spec|].
  split; [|split; [|split]].
  - intros Hne.
    assert (NO_CMAKE_BUILD g = false) as Hoff.
    { rewrite Hn. by apply opt_eqb_false. }
    unfold run_command, ext_modules. rewrite Hoff. by split.
  - intros He.
    assert (NO_CMAKE_BUILD g = true) as Hon.
    { rewrite Hn. by apply env_flag_spec. }
    unfold run_command, ext_modules. rewrite Hon. by split.
  - intros Hne.
    assert (BUILD_RELEASE_WHEEL g = false) as Hoff.
    { rewrite Hr. by apply opt_eqb_false. }
    unfold release_wheel_args, CustomBuildPy_run. rewrite Hoff. by split.
  - intros He.
    assert (BUILD_RELEASE_WHEEL g = true) as Hon.
    { rewrite Hr. by apply env_flag_spec. }
    split; [by unfold release_wheel_args; rewrite Hon|].
    intros s Hrm. by apply bundling_logged.
Qed.

Lemma C10_mode_flags_witness :
  ext_modules (Globals "/src/slangpy" "linux" "linux-gcc" None false false)
    = ["slangpy.slangpy_ext"]
  ∧ ext_modules (Globals "/src/slangpy" "linux" "linux-gcc" None true true) = [].
Proof.
  split.
  - refine (proj1 (proj1 (proj2 (proj2
      (C10_mode_flags (flags_world "true" "0") ∅ _ eq_refl))) _)).
    vm_compute. discriminate.
  - refine (proj1 (proj1 (proj2 (proj2 (proj2
      (C10_mode_flags (flags_world "1" "1") ∅ _ eq_refl)))) _)).
    vm_compute. reflexivity.
Defined.

(** ** ConfigurationBuilder, step by step *)

Lemma python_location_args_state w g a s :
  (python_location_args w g a s).2 = s.
Proof.
  unfold python_location_args, bind, get_fs, raise, ret.
  repeat case_match; done.
Qed.

Lemma local_slang_args_run w g a s :
  local_slang_args w g a s =
    (Ok (if PLATFORM g == "android"
         then a ++ [ "-DSGL_LOCAL_SLANG=ON";
                     "-DSGL_LOCAL_SLANG_DIR=" +:+
                       path_resolve w (fs s)
                         (path_div w (path_parent w (SOURCE_DIR g)) "slang");
                     "-DSGL_LOCAL_SLANG_BUILD_DIR=build-android-" +:+
                       fmt_opt (environ w !! "ANDROID_ABI") +:+ "/" +:+ CMAKE_CONFIG ]
         else a), s).
Proof.
  unfold local_slang_args, bind, get_fs, ret. by destruct (_ == _).
Qed.

Lemma eqb_refl_string (x : string) : (x == x) = true.
Proof. apply String.eqb_refl. Qed.

Lemma wsl_path_mapping_absent w g a s :
  WSL_MARKER ∉ fs s → wsl_path_mapping w g a s = (Ok a, s).
Proof.
  intros H. unfold wsl_path_mapping, bind, get_fs, os_path_exists, ret.
  by rewrite bool_decide_eq_false_2.
Qed.

Lemma wsl_path_mapping_no_tool w g a s :
  WSL_MARKER ∈ fs s → which w (fs s) "wslpath" = None →
  wsl_path_mapping w g a s =
    (Ok a, State (fs s) (log s ++ [MSG_DETECTED; MSG_MAPPING (SOURCE_DIR g) (SOURCE_DIR g)])).
Proof.
  intros H Hw.
  unfold wsl_path_mapping, bind, get_fs, os_path_exists, try_except, print, emit, ret.
  rewrite bool_decide_eq_true_2 by done. cbn [fs log]. rewrite Hw.
  cbn [fs log]. rewrite eqb_refl_string. cbn. by rewrite <- app_assoc.
Qed.

Lemma wsl_path_mapping_query_raises w g a s tool e :
  WSL_MARKER ∈ fs s → which w (fs s) "wslpath" = Some tool →
  check_output_utf8 w (WSL_QUERY g) = Raise e →
  wsl_path_mapping w g a s =
    if is_Exception e
    then (Ok a, State (fs s)
                  (log s ++ [MSG_DETECTED; Spawn (WSL_QUERY g) (environ w) (fs s);
                             MSG_FAILED w e]))
    else (Raise e, State (fs s)
                     (log s ++ [MSG_DETECTED; Spawn (WSL_QUERY g) (environ w) (fs s)])).
Proof.
  intros H Hw Hq.
  unfold wsl_path_mapping, bind, get_fs, os_path_exists, try_except, print, emit, ret,
    subprocess_check_output.
  rewrite bool_decide_eq_true_2 by done. cbn [fs log]. rewrite Hw.
  fold (WSL_QUERY g). rewrite Hq. cbn [fs log].
  destruct (is_Exception e); cbn [fs log]; by rewrite <- !app_assoc.
Qed.

Lemma wsl_path_mapping_query_ok w g a s tool out :
  WSL_MARKER ∈ fs s → which w (fs s) "wslpath" = Some tool →
  check_output_utf8 w (WSL_QUERY g) = Ok out →
  wsl_path_mapping w g a s =
    if strip out == SOURCE_DIR g
    then (Ok a, State (fs s)
                  (log s ++ [MSG_DETECTED; Spawn (WSL_QUERY g) (environ w) (fs s);
                             MSG_MAPPING (SOURCE_DIR g) (strip out)]))
    else (Ok (a ++ remap_flags (SOURCE_DIR g) (strip out)),
          State (fs s)
            (log s ++ [MSG_DETECTED; Spawn (WSL_QUERY g) (environ w) (fs s);
                       MSG_MAPPING (SOURCE_DIR g) (strip out);
                       MSG_ADDED (SOURCE_DIR g) (strip out)])).
Proof.
  intros H Hw Hq.
  unfold wsl_path_mapping, bind, get_fs, os_path_exists, try_except, print, emit, ret,
    subprocess_check_output.
  rewrite bool_decide_eq_true_2 by done. cbn [fs log]. rewrite Hw.
  fold (WSL_QUERY g). rewrite Hq. cbn [fs log].
  destruct (strip out == SOURCE_DIR g); cbn [fs log negb]; by rewrite <- !app_assoc.
Qed.

(** C6. Without the marker file the path-mapping step hands the argument
    list back untouched and does nothing else.  With the marker, when the
    tool is absent, when the query raises an [Exception], or when it answers
    the source path itself, the step still succeeds with the argument list
    untouched (no remap flag), the disk untouched and only diagnostics (and
    the query itself) logged.  Any other answer that decodes, whatever it
    holds, is taken as the host path: the step succeeds as well, with the two
    remap flags for the stripped answer appended. *)
Theorem C6_path_mapping_best_effort (w : World) (g : globals)
    (cmake_args : list string) (s : state) :
  (WSL_MARKER ∉ fs s → wsl_path_mapping w g cmake_args s = (Ok cmake_args, s))
  ∧ (WSL_MARKER ∈ fs s →
     which w (fs s) "wslpath" = None
     ∨ (∃ e, check_output_utf8 w (WSL_QUERY g) = Raise e ∧ is_Exception e = true)
     ∨ (∃ out, check_output_utf8 w (WSL_QUERY g) = Ok out ∧ strip out = SOURCE_DIR g) →
     ∃ diagnostics,
       wsl_path_mapping w g cmake_args s
         = (Ok cmake_args, State (fs s) (log s ++ MSG_DETECTED :: diagnostics))
       ∧ Forall quiet diagnostics
       ∧ ∃ msg, last diagnostics = Some (Stdout msg))
  ∧ (WSL_MARKER ∈ fs s →
     ∀ tool out,
       which w (fs s) "wslpath" = Some tool →
       check_output_utf8 w (WSL_QUERY g) = Ok out →
       strip out ≠ SOURCE_DIR g →
       ∃ diagnostics,
         wsl_path_mapping w g cmake_args s
           = (Ok (cmake_args ++ remap_flags (SOURCE_DIR g) (strip out)),
              State (fs s) (log s ++ MSG_DETECTED :: diagnostics))
         ∧ Forall quiet diagnostics
         ∧ last diagnostics = Some (MSG_ADDED (SOURCE_DIR g) (strip out))).
Proof.
  split; [apply wsl_path_mapping_absent|]. split.
  - intros Hm Hcases.
    destruct (which w (fs s) "wslpath") as [tool|] eqn:Hw.
    + destruct Hcases as [?|[(e & Hq & He)|(out & Hq & Hout)]]; [done|..].
      * rewrite (wsl_path_mapping_query_raises _ _ _ _ _ _ Hm Hw Hq), He.
        eexists. split; [done|]. split; [|by eexists].
        repeat constructor.
      * rewrite (wsl_path_mapping_query_ok _ _ _ _ _ _ Hm Hw Hq), Hout.
        rewrite eqb_refl_string.
        eexists. split; [done|]. split; [|by eexists].
        repeat constructor.
    + rewrite (wsl_path_mapping_no_tool _ _ _ _ Hm Hw).
      eexists. split; [done|]. split; [|by eexists].
      repeat constructor.
  - intros Hm tool out Hw Hq Hdiff.
    rewrite (wsl_path_mapping_query_ok _ _ _ _ _ _ Hm Hw Hq).
    destruct (String.eqb_spec (strip out) (SOURCE_DIR g)) as [?|_]; [done|].
    eexists. split; [done|]. split; [|done].
    repeat constructor.
Qed.

Lemma C6_path_mapping_best_effort_witness :
  wsl_path_mapping linux_world linux_globals ["--preset"] (State ∅ [])
    = (Ok ["--preset"], State ∅ [])
  ∧ ∃ diagnostics,
      wsl_path_mapping (wsl_world (Some (Raise (CalledProcessError 1 []))))
        linux_globals ["--preset"] wsl_state
      = (Ok ["--preset"], State (fs wsl_state) (log wsl_state ++ MSG_DETECTED :: diagnostics))
      ∧ Forall quiet diagnostics
      ∧ ∃ msg, last diagnostics = Some (Stdout msg).
Proof.
  split.
  - apply (proj1 (C6_path_mapping_best_effort linux_world linux_globals
                    ["--preset"] (State ∅ []))).
    simpl. apply not_elem_of_empty.
  - apply (proj1 (proj2 (C6_path_mapping_best_effort
                    (wsl_world (Some (Raise (CalledProcessError 1 []))))
                    linux_globals ["--preset"] wsl_state))).
    + simpl. apply elem_of_singleton. reflexivity.
    + right. left. eexists. split; reflexivity.
Defined.

(** With the marker present and the tool found, an answer that is no path at
    all (nothing, or an error text) is not treated as a failure: both remap
    flags are added, with that answer as the host path. *)
Lemma C6_unexpected_output_counterexample :
  WSL_MARKER ∈ fs wsl_state
  ∧ (wsl_path_mapping (wsl_world (Some (Ok EmptyString))) linux_globals
       ["--preset"] wsl_state).1
    = Ok [ "--preset";
           "-DCMAKE_C_FLAGS=-fdebug-prefix-map=/src/slangpy=";
           "-DCMAKE_CXX_FLAGS=-fdebug-prefix-map=/src/slangpy=" ]
  ∧ (wsl_path_mapping (wsl_world (Some (Ok ("wslpath: bad path" +:+ nl))))
       linux_globals ["--preset"] wsl_state).1
    = Ok [ "--preset";
           "-DCMAKE_C_FLAGS=-fdebug-prefix-map=/src/slangpy=wslpath: bad path";
           "-DCMAKE_CXX_FLAGS=-fdebug-prefix-map=/src/slangpy=wslpath: bad path" ]
  ∧ (wsl_path_mapping (wsl_world (Some (Ok EmptyString))) linux_globals
       ["--preset"] wsl_state).1
    ≠ Ok ["--preset"].
Proof.
  split; [simpl; apply elem_of_singleton; reflexivity|].
  split; [vm_compute; reflexivity|].
  split; [vm_compute; reflexivity|].
  vm_compute. discriminate.
Qed.

Lemma builder_split w g bd ext s :
  ConfigurationBuilder w g bd ext s =
    match builtin_steps w g bd ext s with
    | (Ok a, s') => (Ok (user_args w a), s')
    | (Raise e, s') => (Raise e, s')
    end.
Proof.
  unfold ConfigurationBuilder, builtin_steps, bind, ret.
  repeat case_match; simplify_eq; done.
Qed.

Lemma user_args_supplied w a : user_args w a = a ++ user_supplied w.
Proof.
  unfold user_args, user_supplied.
  destruct (environ w !! "CMAKE_ARGS"); [done|by rewrite app_nil_r].
Qed.

Lemma builder_result w g bd ext s args :
  (ConfigurationBuilder w g bd ext s).1 = Ok args ↔
  ∃ builtin, (builtin_steps w g bd ext s).1 = Ok builtin
             ∧ args = builtin ++ user_supplied w.
Proof.
  rewrite builder_split.
  destruct (builtin_steps w g bd ext s) as [[a|e] s']; simpl.
  - rewrite user_args_supplied. split.
    + intros [= <-]. eauto.
    + intros (b & [= <-] & ->). done.
  - split; [done|]. by intros (b & ? & _).
Qed.

(** What the path-mapping step can do to the state and to the list. *)
Lemma wsl_path_mapping_frame w g a s :
  ∃ new, (wsl_path_mapping w g a s).2 = State (fs s) (log s ++ new)
         ∧ Forall quiet new
         ∧ ((wsl_path_mapping w g a s).1 = Ok a
            ∨ (∃ dst, (wsl_path_mapping w g a s).1
                      = Ok (a ++ remap_flags (SOURCE_DIR g) dst))
            ∨ ∃ e, (wsl_path_mapping w g a s).1 = Raise e).
Proof.
  destruct (decide (WSL_MARKER ∈ fs s)) as [Hm|Hm].
  2:{ rewrite wsl_path_mapping_absent by done. exists []. simpl.
      rewrite app_nil_r, state_eta. eauto. }
  destruct (which w (fs s) "wslpath") as [tool|] eqn:Hw.
  2:{ rewrite (wsl_path_mapping_no_tool _ _ _ _ Hm Hw). eexists.
      split; [done|]. split; [repeat constructor|eauto]. }
  destruct (check_output_utf8 w (WSL_QUERY g)) as [out|e] eqn:Hq.
  - rewrite (wsl_path_mapping_query_ok _ _ _ _ _ _ Hm Hw Hq).
    destruct (_ == _); eexists; (split; [done|]);
      (split; [repeat constructor|eauto]).
  - rewrite (wsl_path_mapping_query_raises _ _ _ _ _ _ Hm Hw Hq).
    destruct (is_Exception e); eexists; (split; [done|]);
      (split; [repeat constructor|eauto]).
Qed.

(** ** The items of CMAKE_ARGS *)

Lemma split_not_nil sep s : split sep s ≠ [].
Proof.
  destruct s as [|c s]; simpl; [done|].
  destruct (Ascii.eqb c sep); [done|]. by destruct (split sep s).
Qed.

Lemma join_user_items sep s :
  join_all (filter (λ item, truthy item = true) (split sep s)) = without_char sep s.
Proof.
  induction s as [|c s IH]; simpl; [done|].
  destruct (Ascii.eqb c sep).
  - rewrite filter_cons_False by done. exact IH.
  - destruct (split sep s) as [|x xs] eqn:E; [by destruct (split_not_nil sep s)|].
    rewrite filter_cons_True by done. simpl. f_equal. rewrite <- IH.
    destruct x as [|a x].
    + by rewrite filter_cons_False.
    + by rewrite filter_cons_True.
Qed.

Lemma split_pieces_no_sep sep s :
  Forall (λ item, has_char sep item = false) (split sep s).
Proof.
  induction s as [|c s IH]; simpl; [by repeat constructor|].
  destruct (Ascii.eqb c sep) eqn:Ec; [by constructor|].
  destruct (split sep s) as [|x xs].
  { constructor; [simpl; by rewrite Ec|constructor]. }
  inversion IH; subst. constructor; [|done]. simpl. by rewrite Ec.
Qed.

Lemma user_items_verbatim v :
  Forall (λ u, u ≠ EmptyString ∧ has_char " " u = false) (user_items v)
  ∧ join_all (user_items v) = without_char " " v.
Proof.
  split; [|apply join_user_items].
  unfold user_items. apply Forall_forall. intros u [Ht Hin]%list_elem_of_filter.
  split; [by destruct u|].
  by apply (proj1 (Forall_forall _ _) (split_pieces_no_sep " " v)).
Qed.

(** ** Determinism of ConfigurationBuilder *)

Lemma local_slang_args_state w g a s : (local_slang_args w g a s).2 = s.
Proof. by rewrite local_slang_args_run. Qed.

Lemma builtin_steps_run w g bd ext s :
  builtin_steps w g bd ext s =
    match (python_location_args w g (initial_cmake_args g bd ext) s).1 with
    | Ok a1 =>
        match (local_slang_args w g a1 s).1 with
        | Ok a2 =>
            match wsl_path_mapping w g a2 s with
            | (Ok a3, s3) => (Ok (release_wheel_args g a3), s3)
            | (Raise e, s3) => (Raise e, s3)
            end
        | Raise e => (Raise e, s)
        end
    | Raise e => (Raise e, s)
    end.
Proof.
  unfold builtin_steps, bind, ret.
  pose proof (python_location_args_state w g (initial_cmake_args g bd ext) s) as H1.
  destruct (python_location_args w g (initial_cmake_args g bd ext) s) as [[a1|e1] s1];
    simpl in H1 |- *; subst s1; [|done].
  pose proof (local_slang_args_state w g a1 s) as H2.
  destruct (local_slang_args w g a1 s) as [[a2|e2] s2];
    simpl in H2 |- *; subst s2; [|done].
  by destruct (wsl_path_mapping w g a2 s) as [[a3|e3] s3].
Qed.

Section agreement.
Context (w1 w2 : World) (s1 s2 : state).
Hypothesis same : same_answers w1 w2 (fs s1) (fs s2).

Lemma python_location_args_agree g a :
  (python_location_args w1 g a s1).1 = (python_location_args w2 g a s2).1.
Proof using same.
  unfold python_location_args, bind, get_fs, raise, ret.
  rewrite (sa_prefix _ _ _ _ same), (sa_toolchain _ _ _ _ same).
  destruct (PLATFORM g == "android"); [|done].
  destruct (environ w2 !! "CMAKE_TOOLCHAIN_FILE") as [tf|]; [|done].
  destruct (truthy tf); [|done].
  rewrite (sa_parent _ _ _ _ same), !(sa_div _ _ _ _ same),
    !(sa_resolve _ _ _ _ same), !(sa_glob _ _ _ _ same).
  repeat case_match; done.
Qed.

Lemma local_slang_args_agree g a :
  (local_slang_args w1 g a s1).1 = (local_slang_args w2 g a s2).1.
Proof using same.
  rewrite !local_slang_args_run. simpl.
  by rewrite (sa_abi _ _ _ _ same), (sa_parent _ _ _ _ same),
    (sa_div _ _ _ _ same), (sa_resolve _ _ _ _ same).
Qed.

Lemma wsl_path_mapping_agree g a :
  (wsl_path_mapping w1 g a s1).1 = (wsl_path_mapping w2 g a s2).1.
Proof using same.
  pose proof (sa_marker _ _ _ _ same) as Hm.
  pose proof (sa_which _ _ _ _ same) as Hw.
  pose proof (sa_query _ _ _ _ same (WSL_QUERY g)) as Hq.
  destruct (decide (WSL_MARKER ∈ fs s1)) as [H1|H1].
  2:{ rewrite !wsl_path_mapping_absent; tauto. }
  assert (WSL_MARKER ∈ fs s2) as H2 by tauto.
  destruct (which w1 (fs s1) "wslpath") as [t1|] eqn:E1;
    destruct (which w2 (fs s2) "wslpath") as [t2|] eqn:E2.
  - destruct (check_output_utf8 w2 (WSL_QUERY g)) as [out|e] eqn:Eq.
    + rewrite (wsl_path_mapping_query_ok _ _ _ _ _ _ H1 E1 Hq),
        (wsl_path_mapping_query_ok _ _ _ _ _ _ H2 E2 Eq).
      by destruct (_ == _).
    + rewrite (wsl_path_mapping_query_raises _ _ _ _ _ _ H1 E1 Hq),
        (wsl_path_mapping_query_raises _ _ _ _ _ _ H2 E2 Eq).
      by destruct (is_Exception e).
  - destruct (proj1 Hw) as [? [=]]. by eexists.
  - destruct (proj2 Hw) as [? [=]]. by eexists.
  - by rewrite (wsl_path_mapping_no_tool _ _ _ _ H1 E1),
      (wsl_path_mapping_no_tool _ _ _ _ H2 E2).
Qed.

Lemma builtin_steps_agree g bd ext :
  (builtin_steps w1 g bd ext s1).1 = (builtin_steps w2 g bd ext s2).1.
Proof using same.
  rewrite !builtin_steps_run, python_location_args_agree.
  destruct (python_location_args w2 g _ s2).1 as [a1|]; [|done].
  rewrite local_slang_args_agree.
  destruct (local_slang_args w2 g a1 s2).1 as [a2|]; [|done].
  pose proof (wsl_path_mapping_agree g a2) as H.
  destruct (wsl_path_mapping w1 g a2 s1) as [[?|?] ?],
    (wsl_path_mapping w2 g a2 s2) as [[?|?] ?]; simpl in *; congruence.
Qed.
End agreement.

(** C4. Two runs of ConfigurationBuilder with the same globals (platform,
    preset, mode flags, source directory), working and install directories,
    interpreter prefix, the same values of CMAKE_TOOLCHAIN_FILE, ANDROID_ABI
    and CMAKE_ARGS and the same answers to the path, glob, marker and
    host-path queries end alike: both raise the same exception or both
    return the same argument list, element for element.  Nothing else of the
    two worlds or of the two states (the rest of the disk, the log so far,
    the rest of the environment) needs to agree. *)
Theorem C4_builder_deterministic (w1 w2 : World) (g : globals)
    (build_dir extdir : string) (s1 s2 : state) :
  same_answers w1 w2 (fs s1) (fs s2) →
  environ w1 !! "CMAKE_ARGS" = environ w2 !! "CMAKE_ARGS" →
  (ConfigurationBuilder w1 g build_dir extdir s1).1
  = (ConfigurationBuilder w2 g build_dir extdir s2).1.
Proof.
  intros Hsame Hargs. rewrite !builder_split.
  pose proof (builtin_steps_agree _ _ _ _ Hsame g build_dir extdir) as H.
  destruct (builtin_steps w1 g build_dir extdir s1) as [[a1|e1] t1],
    (builtin_steps w2 g build_dir extdir s2) as [[a2|e2] t2];
    simpl in *; simplify_eq; [|done].
  unfold user_args. by rewrite Hargs.
Qed.

(** ** User arguments come last *)

Lemma same_answers_without_cmake_args w f :
  same_answers w (with_environ (delete "CMAKE_ARGS" (environ w)) w) f f.
Proof.
  split; try done; simpl; by rewrite lookup_delete_ne.
Qed.

(** C3. Whenever ConfigurationBuilder returns a list, the list is the
    built-in arguments, which are exactly what the builder returns with
    CMAKE_ARGS removed from the environment, followed by the user's items:
    every built-in argument keeps its index and every user item sits past
    all of them.  The items are the non-empty pieces between single spaces
    of the variable's value, passed on unchanged: none is empty, none holds a
    space, and together they are the value without its spaces. *)
Theorem C3_user_args_last (w : World) (g : globals) (build_dir extdir : string)
    (s : state) (args : list string) :
  (ConfigurationBuilder w g build_dir extdir s).1 = Ok args →
  ∃ builtin,
    (ConfigurationBuilder (with_environ (delete "CMAKE_ARGS" (environ w)) w)
       g build_dir extdir s).1 = Ok builtin
    ∧ args = builtin ++ user_supplied w
    ∧ (∀ i b, builtin !! i = Some b → args !! i = Some b)
    ∧ (∀ j u, user_supplied w !! j = Some u →
              args !! (length builtin + j) = Some u)
    ∧ Forall (λ u, u ≠ EmptyString ∧ has_char " " u = false) (user_supplied w)
    ∧ ∀ v, environ w !! "CMAKE_ARGS" = Some v →
           join_all (user_supplied w) = without_char " " v.
Proof.
  intros (builtin & Hb & ->)%builder_result. exists builtin.
  split.
  { apply builder_result. exists builtin. split.
    - by rewrite <- (builtin_steps_agree _ _ _ _
                       (same_answers_without_cmake_args w (fs s))).
    - unfold user_supplied. simpl. rewrite lookup_delete_eq.
      by rewrite app_nil_r. }
  split; [done|].
  split. { intros i b Hi. by apply lookup_app_l_Some. }
  split. { intros j u Hj. by rewrite lookup_app_r, Nat.add_comm, Nat.add_sub by lia. }
  unfold user_supplied. destruct (environ w !! "CMAKE_ARGS") as [v|].
  - split; [apply user_items_verbatim|].
    intros ? [= <-]. apply user_items_verbatim.
  - split; [constructor|done].
Qed.

Lemma C4_builder_deterministic_witness :
  (ConfigurationBuilder linux_world linux_globals EXAMPLE_BUILD_DIR EXAMPLE_EXTDIR
     (State ∅ [])).1
  = (ConfigurationBuilder other_linux_world linux_globals EXAMPLE_BUILD_DIR
       EXAMPLE_EXTDIR (State {[ "/tmp/stale" ]} [Stdout "earlier"])).1.
Proof.
  apply (C4_builder_deterministic linux_world other_linux_world linux_globals
           EXAMPLE_BUILD_DIR EXAMPLE_EXTDIR (State ∅ [])
           (State {[ "/tmp/stale" ]} [Stdout "earlier"])).
  - split; reflexivity.
  - reflexivity.
Defined.

Lemma C3_user_args_last_witness :
  ∃ builtin,
    (ConfigurationBuilder
       (with_environ (delete "CMAKE_ARGS" (environ cmake_args_world)) cmake_args_world)
       linux_globals EXAMPLE_BUILD_DIR EXAMPLE_EXTDIR (State ∅ [])).1 = Ok builtin
    ∧ cmake_args_world_result = builtin ++ user_supplied cmake_args_world
    ∧ (∀ i b, builtin !! i = Some b → cmake_args_world_result !! i = Some b)
    ∧ (∀ j u, user_supplied cmake_args_world !! j = Some u →
              cmake_args_world_result !! (length builtin + j) = Some u)
    ∧ Forall (λ u, u ≠ EmptyString ∧ has_char " " u = false) (user_supplied cmake_args_world)
    ∧ ∀ v, environ cmake_args_world !! "CMAKE_ARGS" = Some v →
           join_all (user_supplied cmake_args_world) = without_char " " v.
Proof.
  apply (C3_user_args_last cmake_args_world linux_globals EXAMPLE_BUILD_DIR
           EXAMPLE_EXTDIR (State ∅ [])).
  vm_compute. reflexivity.
Defined.

(** ** What every configuration holds *)

Lemma python_location_args_shape w g a s a' :
  (python_location_args w g a s).1 = Ok a' →
  a' = list_insert 5 ("-DPython_ROOT_DIR:PATH=" +:+ sys_prefix w) a
  ∨ ∃ inc lib, a' = a ++ ["-DPython_INCLUDE_DIR=" +:+ inc; "-DPython_LIBRARY=" +:+ lib].
Proof.
  unfold python_location_args, bind, get_fs, raise, ret.
  repeat case_match; simpl; intros [= <-]; eauto.
  right. rewrite <- app_assoc. eauto.
Qed.

Lemma builtin_steps_shape w g bd ext s b :
  (builtin_steps w g bd ext s).1 = Ok b →
  ∃ rest,
    b = ["--preset"; CMAKE_PRESET g; "-B"; bd] ++ rest
    ∧ rest !! 0 = Some ("-DCMAKE_DEFAULT_BUILD_TYPE=" +:+ CMAKE_CONFIG)
    ∧ "-DPython_FIND_REGISTRY:STRING=NEVER" ∈ rest
    ∧ install_overrides rest = INSTALL_OVERRIDES ext
    ∧ "-DSGL_BUILD_EXAMPLES=OFF" ∈ rest
    ∧ "-DSGL_BUILD_TESTS=OFF" ∈ rest.
Proof.
  rewrite builtin_steps_run.
  destruct (python_location_args w g _ s).1 as [a1|] eqn:E1; [|done].
  rewrite local_slang_args_run. cbn [fst].
  set (a2 := if PLATFORM g == "android" then _ else a1).
  destruct (wsl_path_mapping_frame w g a2 s) as (new & _ & _ & Hwsl).
  destruct (wsl_path_mapping w g a2 s) as [[a3|e3] s3]; cbn [fst] in *; [|done].
  intros [= <-].
  assert (∃ tail, release_wheel_args g a3 = a1 ++ tail
                  ∧ install_overrides tail = []) as (tail & -> & Htail).
  { assert (∃ t2, a2 = a1 ++ t2 ∧ install_overrides t2 = []) as (t2 & Ha2 & Ht2).
    { subst a2. destruct (PLATFORM g == "android").
      - eexists. split; [done|]. by vm_compute.
      - exists []. by rewrite app_nil_r. }
    assert (∃ t3, a3 = a1 ++ t3 ∧ install_overrides t3 = []) as (t3 & -> & Ht3).
    { destruct Hwsl as [[= ->]|[(dst & [= ->])|(e & [=])]].
      - eauto.
      - rewrite Ha2, <- app_assoc. eexists. split; [done|].
        unfold install_overrides in *. rewrite filter_app, Ht2. by vm_compute. }
    unfold release_wheel_args. destruct (BUILD_RELEASE_WHEEL g).
    - rewrite <- app_assoc. eexists. split; [done|].
      unfold install_overrides in *. rewrite filter_app, Ht3. by vm_compute.
    - eauto. }
  assert (∀ l, install_overrides (l ++ tail) = install_overrides l) as Hdrop.
  { intros l. unfold install_overrides in *. by rewrite filter_app, Htail, app_nil_r. }
  apply python_location_args_shape in E1 as [->|(inc & lib & ->)].
  - exists (drop 4 (list_insert 5 ("-DPython_ROOT_DIR:PATH=" +:+ sys_prefix w)
                      (initial_cmake_args g bd ext)) ++ tail).
    split; [reflexivity|]. split; [reflexivity|].
    rewrite Hdrop. cbn [drop take list_insert initial_cmake_args app].
    split; [do 2 apply list_elem_of_further; apply list_elem_of_here|].
    split; [by vm_compute|].
    split.
    + do 8 apply list_elem_of_further. apply list_elem_of_here.
    + do 9 apply list_elem_of_further. apply list_elem_of_here.
  - exists (drop 4 (initial_cmake_args g bd ext
                    ++ ["-DPython_INCLUDE_DIR=" +:+ inc; "-DPython_LIBRARY=" +:+ lib])
            ++ tail).
    split; [reflexivity|]. split; [reflexivity|].
    rewrite Hdrop. cbn [drop take initial_cmake_args app].
    split; [apply list_elem_of_further; apply list_elem_of_here|].
    split; [by vm_compute|].
    split.
    + do 7 apply list_elem_of_further. apply list_elem_of_here.
    + do 8 apply list_elem_of_further. apply list_elem_of_here.
Qed.

(** C7, as the code has it.  Every list ConfigurationBuilder returns starts
    with the preset option and the selected preset, then the working
    directory option and its path, then the default build-type label; after
    these leading words the built-in part holds the flag that switches off
    the registry lookup, the two flags that switch off the examples and the
    tests, and exactly five install-directory overrides (prefix, library,
    binary, include and shared-data directory), the prefix pinned to the
    install directory and the other four to paths relative to it. *)
Theorem C7_always_included (w : World) (g : globals) (build_dir extdir : string)
    (s : state) (args : list string) :
  (ConfigurationBuilder w g build_dir extdir s).1 = Ok args →
  ∃ rest,
    args = ["--preset"; CMAKE_PRESET g; "-B"; build_dir] ++ rest ++ user_supplied w
    ∧ rest !! 0 = Some ("-DCMAKE_DEFAULT_BUILD_TYPE=" +:+ CMAKE_CONFIG)
    ∧ "-DPython_FIND_REGISTRY:STRING=NEVER" ∈ rest
    ∧ install_overrides rest =
        [ "-DCMAKE_INSTALL_PREFIX=" +:+ extdir;
          "-DCMAKE_INSTALL_LIBDIR=.";
          "-DCMAKE_INSTALL_BINDIR=.";
          "-DCMAKE_INSTALL_INCLUDEDIR=include";
          "-DCMAKE_INSTALL_DATAROOTDIR=." ]
    ∧ "-DSGL_BUILD_EXAMPLES=OFF" ∈ rest
    ∧ "-DSGL_BUILD_TESTS=OFF" ∈ rest.
Proof.
  intros (builtin & Hb & ->)%builder_result.
  destruct (builtin_steps_shape _ _ _ _ _ _ Hb) as (rest & -> & Hrest).
  exists rest. split; [by rewrite <- app_assoc|].
  unfold INSTALL_OVERRIDES in Hrest. exact Hrest.
Qed.

Lemma C7_always_included_witness :
  ∃ rest,
    cmake_args_world_result
      = ["--preset"; CMAKE_PRESET linux_globals; "-B"; EXAMPLE_BUILD_DIR]
        ++ rest ++ user_supplied cmake_args_world
    ∧ rest !! 0 = Some ("-DCMAKE_DEFAULT_BUILD_TYPE=" +:+ CMAKE_CONFIG)
    ∧ "-DPython_FIND_REGISTRY:STRING=NEVER" ∈ rest
    ∧ install_overrides rest =
        [ "-DCMAKE_INSTALL_PREFIX=" +:+ EXAMPLE_EXTDIR;
          "-DCMAKE_INSTALL_LIBDIR=.";
          "-DCMAKE_INSTALL_BINDIR=.";
          "-DCMAKE_INSTALL_INCLUDEDIR=include";
          "-DCMAKE_INSTALL_DATAROOTDIR=." ]
    ∧ "-DSGL_BUILD_EXAMPLES=OFF" ∈ rest
    ∧ "-DSGL_BUILD_TESTS=OFF" ∈ rest.
Proof.
  apply (C7_always_included cmake_args_world linux_globals EXAMPLE_BUILD_DIR
           EXAMPLE_EXTDIR (State ∅ [])).
  vm_compute. reflexivity.
Defined.

(** On a plain Linux machine the configuration holds five install-directory
    overrides, so no six distinct ones can be found in it. *)
Lemma C7_six_overrides_counterexample :
  ∃ args,
    (ConfigurationBuilder linux_world linux_globals EXAMPLE_BUILD_DIR EXAMPLE_EXTDIR
       (State ∅ [])).1 = Ok args
    ∧ ¬ ∃ overrides : list string,
          length overrides = 6 ∧ NoDup overrides
          ∧ ∀ o, o ∈ overrides → o ∈ args ∧ is_install_override o = true.
Proof.
  eexists. split; [vm_compute; reflexivity|].
  intros (overrides & Hlen & Hnd & Hall).
  match goal with
  | H : ∀ o, o ∈ _ → o ∈ ?l ∧ _ |- _ =>
      assert (length overrides ≤ length (install_overrides l)) as Hle;
      [|assert (length (install_overrides l) = 5) as Hfive by (vm_compute; reflexivity)]
  end.
  { apply submseteq_length, NoDup_submseteq; [done|].
    intros o Ho. apply list_elem_of_filter. destruct (Hall o Ho). by split. }
  lia.
Qed.

(** ** build_extension: what is logged, and in which order *)

Lemma subprocess_run_cases w argv env s :
  (exit_ok (run_process w argv env (fs s))
   ∧ subprocess_run w argv env s
     = (Ok tt, State (run_process w argv env (fs s)).2
                 (log s ++ [Spawn argv env (fs s)])))
  ∨ (¬ exit_ok (run_process w argv env (fs s))
     ∧ ∃ e, subprocess_run w argv env s
            = (Raise e, State (run_process w argv env (fs s)).2
                          (log s ++ [Spawn argv env (fs s)]))).
Proof.
  unfold subprocess_run, exit_ok.
  destruct (run_process w argv env (fs s)) as [[rc|e] f']; simpl.
  - destruct (Z.eqb_spec rc 0) as [->|Hne]; [by left|].
    right. split; [congruence|eauto].
  - right. split; [done|eauto].
Qed.

Lemma exit_ok_pair r : exit_ok r → r = (Ok 0%Z, r.2).
Proof. unfold exit_ok. destruct r as [r f]; simpl. by intros ->. Qed.

Lemma pipeline_traced w args bd env s :
  ∃ evs ok,
    pipeline_trace w env (configure_cmd args) (build_cmd bd) (install_cmd bd)
      (fs s) evs ok
    ∧ log (BuildPipelineInvoker w args bd env s).2 = log s ++ evs
    ∧ if ok then (BuildPipelineInvoker w args bd env s).1 = Ok tt
      else ∃ e, (BuildPipelineInvoker w args bd env s).1 = Raise e.
Proof.
  unfold BuildPipelineInvoker.
  destruct (subprocess_run_cases w (configure_cmd args) env s)
    as [[Hc Ec]|[Hc [e Ec]]].
  2:{ rewrite (bind_raise _ _ _ _ _ Ec). exists [Spawn (configure_cmd args) env (fs s)], false.
      split; [by constructor|]. split; [done|by eexists]. }
  rewrite (bind_ok _ _ _ _ _ Ec).
  set (s2 := State _ (log s ++ [Spawn (configure_cmd args) env (fs s)])).
  destruct (subprocess_run_cases w (build_cmd bd) env s2)
    as [[Hb Eb]|[Hb [e Eb]]].
  2:{ rewrite (bind_raise _ _ _ _ _ Eb). eexists _, false.
      split; [eapply build_failed; [by apply exit_ok_pair|exact Hb]|].
      split; [|by eexists]. simpl. by rewrite <- app_assoc. }
  rewrite (bind_ok _ _ _ _ _ Eb).
  set (s3 := State _ (log s2 ++ [Spawn (build_cmd bd) env (fs s2)])).
  destruct (subprocess_run_cases w (install_cmd bd) env s3)
    as [[Hi Ei]|[Hi [e Ei]]]; rewrite Ei.
  - eexists _, true.
    split; [eapply all_succeeded; [by apply exit_ok_pair|by apply (exit_ok_pair _ Hb)
                                   |by apply (exit_ok_pair _ Hi)]|].
    split; [|done]. simpl. by rewrite <- !app_assoc.
  - eexists _, false.
    split; [eapply install_failed; [by apply exit_ok_pair|by apply (exit_ok_pair _ Hb)
                                    |exact Hi]|].
    split; [|by eexists]. simpl. by rewrite <- !app_assoc.
Qed.

Lemma prepare_env_state w g s : (prepare_env w g s).2 = s.
Proof. unfold prepare_env, lift, ret. by destruct (_ == _). Qed.

Lemma wipe_build_dir_run w bd s :
  ∃ evs, log (wipe_build_dir w bd s).2 = log s ++ evs
    ∧ (bd ∈ fs s → evs = [Rmtree bd])
    ∧ (bd ∉ fs s → evs = [])
    ∧ ((∃ e, (wipe_build_dir w bd s).1 = Raise e)
       ∨ fs (wipe_build_dir w bd s).2 = wiped w bd (fs s)).
Proof.
  unfold wipe_build_dir, bind, get_fs, os_path_exists, wiped, rmtree, ret.
  case_bool_decide as Hin.
  - exists [Rmtree bd]. destruct (rmtree_error w (fs s) bd); simpl;
      (split; [done|]); (split; [done|]); (split; [done|]); eauto.
  - exists []. simpl. rewrite app_nil_r. repeat split; try done. by right.
Qed.

Lemma builder_state w g bd ext s :
  ∃ evs, (ConfigurationBuilder w g bd ext s).2 = State (fs s) (log s ++ evs)
         ∧ Forall quiet evs.
Proof.
  rewrite builder_split, builtin_steps_run.
  destruct (python_location_args w g _ s).1 as [a1|].
  2:{ exists []. by rewrite app_nil_r, state_eta. }
  destruct (local_slang_args w g a1 s).1 as [a2|].
  2:{ exists []. by rewrite app_nil_r, state_eta. }
  destruct (wsl_path_mapping_frame w g a2 s) as (evs & Hs & Hq & _).
  exists evs. split; [|done].
  by destruct (wsl_path_mapping w g a2 s) as [[a3|e3] s3].
Qed.

Lemma remove_unneeded_log w ext s :
  ∃ evs, log (remove_unneeded w ext s).2 = log s ++ evs ∧ Forall is_Remove evs.
Proof.
  unfold remove_unneeded, for_each, bind, get_fs, os_path_exists, os_remove, ret.
  case_bool_decide.
  - exists [Remove (path_div w ext "slang-rhi.lib")].
    split; [|by repeat constructor].
    by destruct (remove_error _ _ _).
  - exists []. by rewrite app_nil_r.
Qed.

Lemma builder_args_configure w g bd ext s args :
  (ConfigurationBuilder w g bd ext s).1 = Ok args →
  phase_of (configure_cmd args) = Some Configure.
Proof.
  intros (builtin & Hb & ->)%builder_result.
  by destruct (builtin_steps_shape _ _ _ _ _ _ Hb) as (rest & -> & _).
Qed.

Lemma pipeline_trace_ok w env c b i f1 evs :
  pipeline_trace w env c b i f1 evs true →
  ∃ f2 f3, evs = [Spawn c env f1; Spawn b env f2; Spawn i env f3].
Proof. inversion 1; subst. eauto. Qed.

Lemma quiet_no_phase e : quiet e → event_phase e = None.
Proof. by destruct e. Qed.

Lemma is_Remove_no_phase e : is_Remove e → event_phase e = None.
Proof. by destruct e. Qed.

Lemma remove_unneeded_run w ext s :
  remove_unneeded w ext s =
    if bool_decide (unneeded_lib w ext ∈ fs s) then
      match remove_error w (fs s) (unneeded_lib w ext) with
      | Some e => (Raise e, State (fs s) (log s ++ [Remove (unneeded_lib w ext)]))
      | None => (Ok tt, State (fs s ∖ {[unneeded_lib w ext]})
                          (log s ++ [Remove (unneeded_lib w ext)]))
      end
    else (Ok tt, s).
Proof.
  unfold remove_unneeded, for_each, bind, get_fs, os_path_exists, os_remove, ret,
    unneeded_lib.
  case_bool_decide; [|done]. by destruct (remove_error _ _ _).
Qed.

Lemma build_extension_run w g name s :
  build_extension w g name s =
    match (prepare_env w g s).1 with
    | Raise e => (Raise e, s)
    | Ok env =>
        match wipe_build_dir w (build_dir_of w g) s with
        | (Raise e, s1) => (Raise e, s1)
        | (Ok _, s1) =>
            match ConfigurationBuilder w g (build_dir_of w g)
                    (extdir_of w name (fs s)) s1 with
            | (Raise e, s2) => (Raise e, s2)
            | (Ok args, s2) =>
                match BuildPipelineInvoker w args (build_dir_of w g) env s2 with
                | (Raise e, s3) => (Raise e, s3)
                | (Ok _, s3) => remove_unneeded w (extdir_of w name (fs s)) s3
                end
            end
        end
    end.
Proof.
  unfold build_extension, extdir_of.
  rewrite (bind_ok get_fs _ s (fs s) s eq_refl).
  pose proof (prepare_env_state w g s) as Henv.
  destruct (prepare_env w g s) as [[env|e] s0] eqn:Eenv; simpl in Henv; subst s0.
  2:{ by rewrite (bind_raise _ _ _ _ _ Eenv). }
  rewrite (bind_ok _ _ _ _ _ Eenv). cbn [fst].
  unfold bind at 1. destruct (wipe_build_dir w _ s) as [[[]|e] s1]; [|done].
  unfold bind at 1. destruct (ConfigurationBuilder w g _ _ s1) as [[args|e] s2]; [|done].
  unfold bind at 1. by destruct (BuildPipelineInvoker w args _ env s2) as [[[]|e] s3].
Qed.

Lemma remove_unneeded_result w ext s :
  ∃ evs, log (remove_unneeded w ext s).2 = log s ++ evs
         ∧ Forall is_Remove evs
         ∧ ((remove_unneeded w ext s).1 = Ok tt
            ∨ ∃ p e, evs = [Remove p] ∧ (remove_unneeded w ext s).1 = Raise e).
Proof.
  rewrite remove_unneeded_run. case_bool_decide.
  - exists [Remove (unneeded_lib w ext)].
    destruct (remove_error _ _ _) as [e|]; cbn [fst snd log];
      (split; [done|]); (split; [by repeat constructor|]); [right|left]; eauto.
  - exists []. rewrite app_nil_r. split; [done|]. split; [constructor|by left].
Qed.

(** Every run of [build_extension] logs, in this order: the wipe of the
    working directory if it existed, then prints and at most the read-only
    host-path query, then the pipeline's child processes, then the removal of
    unneeded files; the pipeline starts on the wiped disk. *)
Lemma build_extension_outcome w g name s :
  ∃ pre evs post,
    log (build_extension w g name s).2 = log s ++ pre ++ evs ++ post
    ∧ Forall (λ e, event_phase e = None) pre
    ∧ Forall is_Remove post
    ∧ ((evs = [] ∧ post = [] ∧ ∃ e, (build_extension w g name s).1 = Raise e)
       ∨ ∃ args env ok,
           phase_of (configure_cmd args) = Some Configure
           ∧ pipeline_trace w env (configure_cmd args)
               (build_cmd (build_dir_of w g)) (install_cmd (build_dir_of w g))
               (wiped w (build_dir_of w g) (fs s)) evs ok
           ∧ (build_dir_of w g ∈ fs s →
              ∃ mid, pre = Rmtree (build_dir_of w g) :: mid ∧ Forall quiet mid)
           ∧ (build_dir_of w g ∉ fs s → Forall quiet pre)
           ∧ (if ok
              then (build_extension w g name s).1 = Ok tt
                   ∨ ∃ p e, post = [Remove p]
                            ∧ (build_extension w g name s).1 = Raise e
              else post = [] ∧ ∃ e, (build_extension w g name s).1 = Raise e)).
Proof.
  unfold build_extension.
  rewrite (bind_ok get_fs _ s (fs s) s eq_refl).
  set (bd := build_dir_of w g).
  set (ext := path_resolve w (fs s) _).
  (* environment *)
  pose proof (prepare_env_state w g s) as Henv.
  destruct (prepare_env w g s) as [[env|e] s0] eqn:Eenv; simpl in Henv; subst s0.
  2:{ rewrite (bind_raise _ _ _ _ _ Eenv). exists [], [], []. simpl.
      rewrite app_nil_r. repeat split; try done. left. eauto. }
  rewrite (bind_ok _ _ _ _ _ Eenv).
  (* wipe *)
  destruct (wipe_build_dir_run w bd s) as (wev & Hwlog & Hwin & Hwout & Hwfs).
  destruct (wipe_build_dir w bd s) as [[[]|e] s1] eqn:Ew; simpl in *.
  2:{ rewrite (bind_raise _ _ _ _ _ Ew). exists wev, [], []. simpl.
      rewrite app_nil_r. split; [done|]. split.
      - destruct (decide (bd ∈ fs s)) as [Hin|Hout].
        + rewrite (Hwin Hin). by repeat constructor.
        + rewrite (Hwout Hout). constructor.
      - split; [constructor|]. left. eauto. }
  rewrite (bind_ok _ _ _ _ _ Ew).
  destruct Hwfs as [[e [=]]|Hfs1].
  (* configuration *)
  destruct (builder_state w g bd ext s1) as (cev & Hcst & Hcq).
  destruct (ConfigurationBuilder w g bd ext s1) as [[args|e] s2] eqn:Ecb;
    simpl in Hcst; subst s2.
  2:{ rewrite (bind_raise _ _ _ _ _ Ecb). exists (wev ++ cev), [], []. simpl.
      rewrite Hwlog, !app_nil_r, app_assoc. split; [done|]. split.
      - apply Forall_app. split.
        + destruct (decide (bd ∈ fs s)) as [Hin|Hout].
          * rewrite (Hwin Hin). by repeat constructor.
          * rewrite (Hwout Hout). constructor.
        + eapply Forall_impl; [exact Hcq|]. apply quiet_no_phase.
      - split; [constructor|]. left. eauto. }
  rewrite (bind_ok _ _ _ _ _ Ecb).
  assert (phase_of (configure_cmd args) = Some Configure) as Hcfg.
  { eapply builder_args_configure. by rewrite Ecb. }
  set (s2 := State (fs s1) (log s1 ++ cev)).
  (* pipeline *)
  destruct (pipeline_traced w args bd env s2) as (evs & ok & Htr & Hplog & Hpres).
  assert (Forall (λ e, event_phase e = None) (wev ++ cev)) as Hpre.
  { apply Forall_app. split.
    - destruct (decide (bd ∈ fs s)) as [Hin|Hout].
      + rewrite (Hwin Hin). by repeat constructor.
      + rewrite (Hwout Hout). constructor.
    - eapply Forall_impl; [exact Hcq|]. apply quiet_no_phase. }
  assert (bd ∈ fs s → ∃ mid, wev ++ cev = Rmtree bd :: mid ∧ Forall quiet mid)
    as Hin_pre.
  { intros Hin. rewrite (Hwin Hin). by exists cev. }
  assert (bd ∉ fs s → Forall quiet (wev ++ cev)) as Hout_pre.
  { intros Hout. by rewrite (Hwout Hout). }
  destruct (BuildPipelineInvoker w args bd env s2) as [[[]|e] s3] eqn:Ep;
    simpl in Hplog, Hpres.
  - (* the pipeline went through; files are removed *)
    rewrite (bind_ok _ _ _ _ _ Ep).
    destruct (remove_unneeded_result w ext s3) as (rev & Hrlog & Hrq & Hrres).
    exists (wev ++ cev), evs, rev.
    split. { rewrite Hrlog, Hplog. simpl. rewrite Hwlog. by rewrite <- !app_assoc. }
    split; [done|]. split; [done|].
    right. exists args, env, ok. simpl in Htr. rewrite Hfs1 in Htr.
    split; [done|]. split; [done|]. split; [done|]. split; [done|].
    destruct ok; [done|]. by destruct Hpres.
  - rewrite (bind_raise _ _ _ _ _ Ep).
    exists (wev ++ cev), evs, [].
    split. { simpl. rewrite Hplog. simpl. rewrite Hwlog, app_nil_r.
             by rewrite <- !app_assoc. }
    split; [done|]. split; [constructor|].
    right. exists args, env, ok. simpl in Htr. rewrite Hfs1 in Htr.
    split; [done|]. split; [done|]. split; [done|]. split; [done|].
    destruct ok; [done|]. split; [done|]. eauto.
Qed.

Lemma phases_none l : Forall (λ e, event_phase e = None) l → phases l = [].
Proof.
  unfold phases. induction 1 as [|e l He _ IH]; [done|].
  cbn. rewrite He. exact IH.
Qed.

Lemma phases_app l1 l2 : phases (l1 ++ l2) = phases l1 ++ phases l2.
Proof. apply omap_app. Qed.

Lemma phases_removes l : Forall is_Remove l → phases l = [].
Proof.
  intros H. apply phases_none. eapply Forall_impl; [exact H|].
  apply is_Remove_no_phase.
Qed.

Lemma no_phase_not_in l argv env before ph :
  Forall (λ e, event_phase e = None) l →
  Spawn argv env before ∈ l → phase_of argv = Some ph → False.
Proof.
  intros Hall Hin Hph.
  pose proof (proj1 (Forall_forall _ _) Hall _ Hin) as H. simpl in H. congruence.
Qed.

Lemma phases_spawn argv env f l ph :
  phase_of argv = Some ph → phases (Spawn argv env f :: l) = ph :: phases l.
Proof. intros H. unfold phases. cbn. by rewrite H. Qed.

Lemma phase_of_build bd : phase_of (build_cmd bd) = Some Build.
Proof. reflexivity. Qed.

Lemma phase_of_install bd : phase_of (install_cmd bd) = Some Install.
Proof. reflexivity. Qed.

Lemma wipe_build_dir_ok w g s :
  wipe_succeeds w g s →
  wipe_build_dir w (build_dir_of w g) s = (Ok tt, after_wipe w g s).
Proof.
  intros Hfree. unfold wipe_build_dir, after_wipe, wiped, bind, get_fs, os_path_exists.
  case_bool_decide as Hin.
  - destruct Hfree as [?|Hnone]; [done|]. unfold rmtree. by rewrite Hnone.
  - unfold ret. rewrite app_nil_r. by destruct s.
Qed.

(** Once the environment is prepared, the wipe went through and the
    configuration is assembled, the configure child is started on the wiped
    disk; only prints and the host-path query precede it. *)
Lemma configure_reached w g name s env args :
  (prepare_env w g s).1 = Ok env →
  wipe_succeeds w g s →
  (ConfigurationBuilder w g (build_dir_of w g) (extdir_of w name (fs s))
     (after_wipe w g s)).1 = Ok args →
  ∃ mid rest,
    log (build_extension w g name s).2
    = log (after_wipe w g s)
      ++ mid ++ Spawn (configure_cmd args) env (wiped w (build_dir_of w g) (fs s))
                  :: rest
    ∧ Forall quiet mid.
Proof.
  intros Henv Hfree Hcb.
  rewrite build_extension_run, Henv, (wipe_build_dir_ok _ _ _ Hfree).
  destruct (builder_state w g (build_dir_of w g) (extdir_of w name (fs s))
              (after_wipe w g s)) as (mid & Hst & Hquiet).
  destruct (ConfigurationBuilder w g _ _ (after_wipe w g s)) as [[a|e] s2];
    cbn [fst snd] in Hcb, Hst; [|done].
  injection Hcb as ->. subst s2. exists mid.
  set (s2 := State _ _).
  destruct (pipeline_traced w args (build_dir_of w g) env s2)
    as (pev & ok & Htr & Hplog & _).
  assert (∃ rest, pev = Spawn (configure_cmd args) env
                          (wiped w (build_dir_of w g) (fs s)) :: rest)
    as [rest ->].
  { inversion Htr; subst; by eexists. }
  destruct (BuildPipelineInvoker w args _ env s2) as [[[]|e] s3];
    cbn [snd] in Hplog.
  - destruct (remove_unneeded_log w (extdir_of w name (fs s)) s3)
      as (rev & Hrlog & _).
    exists (rest ++ rev). split; [|done].
    rewrite Hrlog, Hplog. subst s2. cbn [log]. by rewrite <- !app_assoc.
  - exists rest. split; [|done].
    cbn [snd]. rewrite Hplog. subst s2. cbn [log]. by rewrite <- !app_assoc.
Qed.

(** Within the pipeline, a phase whose child exits with status zero is
    followed by the next phase, started on the disk that child left; after
    the last one the pipeline has succeeded. *)
Lemma pipeline_trace_progress w env c b i f1 evs ok argv env' before ph :
  pipeline_trace w env c b i f1 evs ok →
  phase_of c = Some Configure → phase_of b = Some Build →
  phase_of i = Some Install →
  Spawn argv env' before ∈ evs → phase_of argv = Some ph →
  exit_ok (run_process w argv env' before) →
  match ph with
  | Configure => Spawn b env' (run_process w argv env' before).2 ∈ evs
  | Build => Spawn i env' (run_process w argv env' before).2 ∈ evs
  | Install => ok = true
  end.
Proof.
  intros Htr Hc Hb Hi Hin Hph Hok.
  inversion Htr as [Hcf|f2 Hcr Hbf|f2 f3 Hcr Hbr Hif|f2 f3 f4 Hcr Hbr Hir]; subst;
    repeat (apply elem_of_cons in Hin as [[= -> -> ->]|Hin]);
    try (by apply elem_of_nil in Hin);
    first [ rewrite Hc in Hph | rewrite Hb in Hph | rewrite Hi in Hph ];
    injection Hph as <-;
    try done;
    rewrite ?Hcr, ?Hbr; cbn [snd];
    first [ apply list_elem_of_further, list_elem_of_here
          | apply list_elem_of_further, list_elem_of_further, list_elem_of_here ].
Qed.

(** C2. The pipeline phases a build invocation starts are, in this order,
    configure, build, install, each at most once.  Configure is started as
    soon as the environment is prepared, the working directory wiped and the
    configuration assembled.  A phase whose child exits with status zero is
    followed by the next phase, started on the disk that child left; after
    install nothing of the pipeline fails any more (only the removal of the
    unneeded file can).  A phase whose child does not exit with status zero
    is the last phase started and the invocation ends with an exception:
    after a failed configure phase the phases started are configure alone.
    An invocation that returns normally has started all three. *)
Theorem C2_pipeline_phases (w : World) (g : globals) (ext_name : string) (s : state) :
  ∃ new,
    log (build_extension w g ext_name s).2 = log s ++ new
    ∧ (phases new = [] ∨ phases new = [Configure]
       ∨ phases new = [Configure; Build]
       ∨ phases new = [Configure; Build; Install])
    ∧ (∀ env args,
         (prepare_env w g s).1 = Ok env →
         wipe_succeeds w g s →
         (ConfigurationBuilder w g (build_dir_of w g) (extdir_of w ext_name (fs s))
            (after_wipe w g s)).1 = Ok args →
         phase_of (configure_cmd args) = Some Configure
         ∧ Spawn (configure_cmd args) env (wiped w (build_dir_of w g) (fs s)) ∈ new)
    ∧ (∀ argv env before ph,
         Spawn argv env before ∈ new → phase_of argv = Some ph →
         exit_ok (run_process w argv env before) →
         match ph with
         | Configure =>
             Spawn (build_cmd (build_dir_of w g)) env
               (run_process w argv env before).2 ∈ new
         | Build =>
             Spawn (install_cmd (build_dir_of w g)) env
               (run_process w argv env before).2 ∈ new
         | Install =>
             phases new = [Configure; Build; Install]
             ∧ ((build_extension w g ext_name s).1 = Ok tt
                ∨ ∃ p e, Remove p ∈ new
                         ∧ (build_extension w g ext_name s).1 = Raise e)
         end)
    ∧ (∀ argv env before ph,
         Spawn argv env before ∈ new → phase_of argv = Some ph →
         ¬ exit_ok (run_process w argv env before) →
         phases new = phases_upto ph
         ∧ ∃ e, (build_extension w g ext_name s).1 = Raise e)
    ∧ ((build_extension w g ext_name s).1 = Ok tt →
       phases new = [Configure; Build; Install]).
Proof.
  destruct (build_extension_outcome w g ext_name s)
    as (pre & evs & post & Hlog & Hpre & Hpost & Hcases).
  exists (pre ++ evs ++ post). split; [done|].
  assert (∀ argv env' before ph,
            Spawn argv env' before ∈ pre ++ evs ++ post →
            phase_of argv = Some ph → Spawn argv env' before ∈ evs) as Hin_evs.
  { intros argv env' before ph Hin Hph.
    apply elem_of_app in Hin as [Hin|Hin].
    { exfalso. eapply no_phase_not_in; eauto. }
    apply elem_of_app in Hin as [Hin|Hin]; [done|].
    exfalso. by apply (proj1 (Forall_forall _ _) Hpost) in Hin. }
  assert (∀ env args,
            (prepare_env w g s).1 = Ok env →
            wipe_succeeds w g s →
            (ConfigurationBuilder w g (build_dir_of w g) (extdir_of w ext_name (fs s))
               (after_wipe w g s)).1 = Ok args →
            phase_of (configure_cmd args) = Some Configure
            ∧ Spawn (configure_cmd args) env (wiped w (build_dir_of w g) (fs s))
                ∈ pre ++ evs ++ post) as Hreach.
  { intros env args Henv Hfree Hcb.
    split; [by eapply builder_args_configure|].
    destruct (configure_reached w g ext_name s env args Henv Hfree Hcb)
      as (mid & rest & Hrun & _).
    rewrite Hlog in Hrun. unfold after_wipe in Hrun. cbn [log] in Hrun.
    rewrite <- !app_assoc in Hrun. apply app_inv_head in Hrun. rewrite Hrun.
    rewrite !elem_of_app. right. right. apply list_elem_of_here. }
  rewrite !phases_app, (phases_none _ Hpre), (phases_removes _ Hpost), app_nil_r.
  cbn [app].
  destruct Hcases as [(-> & -> & e & He)|(args & env & ok & Hcfg & Htr & _ & _ & Hok)].
  { split; [by left|]. split; [done|]. split; [|split].
    - intros argv env before ph Hin Hph _. exfalso.
      rewrite !app_nil_r in Hin. eapply no_phase_not_in; eauto.
    - intros argv env before ph Hin Hph _. exfalso.
      rewrite !app_nil_r in Hin. eapply no_phase_not_in; eauto.
    - rewrite He. done. }
  assert (∀ argv env' before ph,
            Spawn argv env' before ∈ pre ++ evs ++ post → phase_of argv = Some ph →
            exit_ok (run_process w argv env' before) →
            match ph with
            | Configure =>
                Spawn (build_cmd (build_dir_of w g)) env'
                  (run_process w argv env' before).2 ∈ pre ++ evs ++ post
            | Build =>
                Spawn (install_cmd (build_dir_of w g)) env'
                  (run_process w argv env' before).2 ∈ pre ++ evs ++ post
            | Install =>
                ok = true
            end) as Hprogress.
  { intros argv env' before ph Hin Hph Hexit.
    apply (Hin_evs _ _ _ _ Hin) in Hph as Hin'.
    pose proof (pipeline_trace_progress _ _ _ _ _ _ _ _ _ _ _ _ Htr Hcfg
                  (phase_of_build _) (phase_of_install _) Hin' Hph Hexit) as Hnext.
    destruct ph; [| |done]; rewrite !elem_of_app; auto. }
  inversion Htr as [Hc|f2 Hc Hb|f2 f3 Hc Hb Hi|f2 f3 f4 Hc Hb Hi]; subst;
    rewrite ?(phases_spawn _ _ _ _ _ Hcfg), ?(phases_spawn _ _ _ _ _ (phase_of_build _)),
      ?(phases_spawn _ _ _ _ _ (phase_of_install _)); change (phases []) with (@nil phase).
  - split; [auto|]. split; [done|]. split.
    { intros argv env' before ph Hin Hph Hexit.
      pose proof (Hprogress _ _ _ _ Hin Hph Hexit) as Hnext.
      by destruct ph. }
    destruct Hok as [-> [e He]]. split; [|by rewrite He].
    intros argv env' before ph Hin Hph Hfail.
    apply (Hin_evs _ _ _ _ Hin) in Hph as Hin'.
    apply list_elem_of_singleton in Hin' as [= -> -> ->].
    rewrite Hcfg in Hph. injection Hph as <-. split; [done|eauto].
  - split; [auto|]. split; [done|]. split.
    { intros argv env' before ph Hin Hph Hexit.
      pose proof (Hprogress _ _ _ _ Hin Hph Hexit) as Hnext.
      by destruct ph. }
    destruct Hok as [-> [e He]]. split; [|by rewrite He].
    intros argv env' before ph Hin Hph Hfail.
    apply (Hin_evs _ _ _ _ Hin) in Hph as Hin'.
    apply elem_of_cons in Hin' as [[= -> -> ->]|Hin'].
    { exfalso. apply Hfail. unfold exit_ok. by rewrite Hc. }
    apply list_elem_of_singleton in Hin' as [= -> -> ->].
    injection Hph as <-. split; [done|eauto].
  - split; [auto|]. split; [done|]. split.
    { intros argv env' before ph Hin Hph Hexit.
      pose proof (Hprogress _ _ _ _ Hin Hph Hexit) as Hnext.
      by destruct ph. }
    destruct Hok as [-> [e He]]. split; [|by rewrite He].
    intros argv env' before ph Hin Hph Hfail.
    apply (Hin_evs _ _ _ _ Hin) in Hph as Hin'.
    apply elem_of_cons in Hin' as [[= -> -> ->]|Hin'].
    { exfalso. apply Hfail. unfold exit_ok. by rewrite Hc. }
    apply elem_of_cons in Hin' as [[= -> -> ->]|Hin'].
    { exfalso. apply Hfail. unfold exit_ok. by rewrite Hb. }
    apply list_elem_of_singleton in Hin' as [= -> -> ->].
    injection Hph as <-. split; [done|eauto].
  - split; [auto|]. split; [done|]. split.
    { intros argv env' before ph Hin Hph Hexit.
      pose proof (Hprogress _ _ _ _ Hin Hph Hexit) as Hnext.
      destruct ph; [done|done|]. split; [done|].
      destruct Hok as [Hres|(p & e & -> & Hres)]; [by left|].
      right. exists p, e. split; [|done].
      rewrite !elem_of_app. right. right. apply list_elem_of_here. }
    split; [|done].
    intros argv env' before ph Hin Hph Hfail.
    apply (Hin_evs _ _ _ _ Hin) in Hph as Hin'.
    apply elem_of_cons in Hin' as [[= -> -> ->]|Hin'].
    { exfalso. apply Hfail. unfold exit_ok. by rewrite Hc. }
    apply elem_of_cons in Hin' as [[= -> -> ->]|Hin'].
    { exfalso. apply Hfail. unfold exit_ok. by rewrite Hb. }
    apply list_elem_of_singleton in Hin' as [= -> -> ->].
    exfalso. apply Hfail. unfold exit_ok. by rewrite Hi.
Qed.

Lemma C2_pipeline_phases_witness :
  phases (log (build_extension linux_world linux_globals "slangpy.slangpy_ext"
                 (State stale_disk [])).2)
  = [Configure; Build; Install]
  ∧ phases (log (build_extension other_linux_world linux_globals
                   "slangpy.slangpy_ext" (State ∅ [])).2)
    = [Configure]
  ∧ ∃ e, (build_extension other_linux_world linux_globals "slangpy.slangpy_ext"
            (State ∅ [])).1 = Raise e.
Proof.
  split.
  - destruct (C2_pipeline_phases linux_world linux_globals "slangpy.slangpy_ext"
                (State stale_disk []))
      as (new & Hlog & _ & Hreach & Hnext & _).
    cbn [log app] in Hlog. rewrite Hlog.
    destruct (Hreach ∅ LINUX_CMAKE_ARGS) as [Hcfg Hconfigure];
      [ reflexivity | right; reflexivity | vm_compute; reflexivity | ].
    pose proof (Hnext _ _ _ Configure Hconfigure Hcfg eq_refl) as Hbuild.
    pose proof (Hnext _ _ _ Build Hbuild eq_refl eq_refl) as Hinstall.
    exact (proj1 (Hnext _ _ _ Install Hinstall eq_refl eq_refl)).
  - destruct (C2_pipeline_phases other_linux_world linux_globals
                "slangpy.slangpy_ext" (State ∅ []))
      as (new & Hlog & _ & Hreach & _ & Hfail & _).
    cbn [log app] in Hlog. rewrite Hlog.
    destruct (Hreach {[ "HOME" := "/root" ]} LINUX_CMAKE_ARGS) as [Hcfg Hconfigure];
      [ reflexivity | left; apply not_elem_of_empty | vm_compute; reflexivity | ].
    apply (Hfail _ _ _ Configure Hconfigure Hcfg).
    vm_compute. discriminate.
Defined.

(** ** The working directory is wiped before configuring *)

Lemma not_in_wiped w dir f : dir ∉ wiped w dir f.
Proof.
  unfold wiped, without_tree. case_bool_decide as Hin; [|done].
  intros [Hno _]%elem_of_filter. apply Hno. by left.
Qed.

Lemma inside_not_in_wiped w dir f p :
  dir ∈ f → path_inside w dir p = true → p ∉ wiped w dir f.
Proof.
  intros Hin Hp. unfold wiped, without_tree. rewrite bool_decide_eq_true_2 by done.
  intros [Hno _]%elem_of_filter. apply Hno. right. by rewrite Hp.
Qed.

Lemma pipeline_trace_head w env c b i f1 evs ok :
  pipeline_trace w env c b i f1 evs ok →
  ∃ rest, evs = Spawn c env f1 :: rest
          ∧ ∀ e, e ∈ rest →
                 ∃ f, e = Spawn b env f ∨ e = Spawn i env f.
Proof.
  inversion 1; subst; eexists; (split; [done|]); intros e He;
    repeat (apply elem_of_cons in He as [->|He]; [eauto|]);
    by apply elem_of_nil in He.
Qed.

(** C5. In every build invocation with the environment prepared, an
    existing working directory is removed first: the removal is the first
    thing logged.  If the removal goes through (or there was nothing to
    remove) and the configuration is assembled, the configure phase is
    started, on the disk the invocation found minus the working directory
    and everything below it; only prints and the read-only host-path query
    lie between the removal and the start of configure.  Conversely, whenever
    a configure phase starts, it starts on that disk, with the working
    directory absent. *)
Theorem C5_wipe_before_configure (w : World) (g : globals) (ext_name : string)
    (s : state) :
  ∃ new,
    log (build_extension w g ext_name s).2 = log s ++ new
    ∧ (∀ env, (prepare_env w g s).1 = Ok env → build_dir_of w g ∈ fs s →
         ∃ rest, new = Rmtree (build_dir_of w g) :: rest)
    ∧ (∀ env args,
         (prepare_env w g s).1 = Ok env →
         wipe_succeeds w g s →
         (ConfigurationBuilder w g (build_dir_of w g) (extdir_of w ext_name (fs s))
            (after_wipe w g s)).1 = Ok args →
         phase_of (configure_cmd args) = Some Configure
         ∧ (build_dir_of w g ∉ wiped w (build_dir_of w g) (fs s))
         ∧ (build_dir_of w g ∈ fs s →
            ∀ p, path_inside w (build_dir_of w g) p = true →
                 p ∉ wiped w (build_dir_of w g) (fs s))
         ∧ ∃ mid post,
             new = (if bool_decide (build_dir_of w g ∈ fs s)
                    then [Rmtree (build_dir_of w g)] else [])
                   ++ mid
                   ++ Spawn (configure_cmd args) env
                        (wiped w (build_dir_of w g) (fs s)) :: post
             ∧ Forall quiet mid)
    ∧ ∀ argv env before,
        Spawn argv env before ∈ new → phase_of argv = Some Configure →
        (build_dir_of w g ∉ before)
        ∧ before = wiped w (build_dir_of w g) (fs s)
        ∧ (build_dir_of w g ∈ fs s →
           (∀ p, path_inside w (build_dir_of w g) p = true → p ∉ before)
           ∧ ∃ mid post,
               new = Rmtree (build_dir_of w g)
                       :: (mid ++ Spawn argv env before :: post)
               ∧ Forall quiet mid).
Proof.
  destruct (build_extension_outcome w g ext_name s)
    as (pre & evs & post & Hlog & Hpre & Hpost & Hcases).
  exists (pre ++ evs ++ post). split; [done|].
  split.
  { intros env Henv Hin.
    assert (∃ rest, log (build_extension w g ext_name s).2
                    = log s ++ Rmtree (build_dir_of w g) :: rest) as [rest Hrun].
    { rewrite build_extension_run, Henv.
      destruct (wipe_build_dir_run w (build_dir_of w g) s)
        as (wev & Hwlog & Hwin & _ & _).
      rewrite (Hwin Hin) in Hwlog.
      destruct (wipe_build_dir w (build_dir_of w g) s) as [[[]|e] s1];
        cbn [snd] in Hwlog; [|by exists []].
      destruct (builder_state w g (build_dir_of w g) (extdir_of w ext_name (fs s)) s1)
        as (cev & Hcst & _).
      destruct (ConfigurationBuilder w g _ _ s1) as [[args|e] s2];
        cbn [snd] in Hcst; subst s2.
      2:{ exists cev. cbn [snd log]. by rewrite Hwlog, <- app_assoc. }
      set (s2 := State _ _).
      destruct (pipeline_traced w args (build_dir_of w g) env s2)
        as (pev & ok & _ & Hplog & _).
      destruct (BuildPipelineInvoker w args _ env s2) as [[[]|e] s3];
        cbn [snd] in Hplog.
      - destruct (remove_unneeded_log w (extdir_of w ext_name (fs s)) s3)
          as (rev & Hrlog & _).
        exists (cev ++ pev ++ rev). rewrite Hrlog, Hplog. subst s2. cbn [log].
        rewrite Hwlog. by rewrite <- !app_assoc.
      - exists (cev ++ pev). cbn [snd]. rewrite Hplog. subst s2. cbn [log].
        rewrite Hwlog. by rewrite <- !app_assoc. }
    rewrite Hlog in Hrun. apply app_inv_head in Hrun. by exists rest. }
  split.
  { intros env args Henv Hfree Hcb.
    split; [by eapply builder_args_configure|].
    split; [apply not_in_wiped|].
    split; [intros Hin p Hp; by apply inside_not_in_wiped|].
    destruct (configure_reached w g ext_name s env args Henv Hfree Hcb)
      as (mid & rest & Hrun & Hmid).
    rewrite Hlog in Hrun. unfold after_wipe in Hrun. cbn [log] in Hrun.
    rewrite <- !app_assoc in Hrun. apply app_inv_head in Hrun.
    by exists mid, rest. }
  intros argv env before Hin Hph.
  assert (Spawn argv env before ∈ evs) as Hin_evs.
  { apply elem_of_app in Hin as [Hin|Hin].
    { exfalso. eapply no_phase_not_in; eauto. }
    apply elem_of_app in Hin as [Hin|Hin]; [done|].
    exfalso. by apply (proj1 (Forall_forall _ _) Hpost) in Hin. }
  destruct Hcases as [(-> & _)|(args & env' & ok & Hcfg & Htr & Hwiped & _ & _)].
  { by apply elem_of_nil in Hin_evs. }
  destruct (pipeline_trace_head _ _ _ _ _ _ _ _ Htr) as (rest & -> & Hrest).
  apply elem_of_cons in Hin_evs as [[= -> -> ->]|Hin_rest].
  2:{ exfalso. destruct (Hrest _ Hin_rest) as [f [[= -> _ _]|[= -> _ _]]];
        by rewrite ?phase_of_build, ?phase_of_install in Hph. }
  split; [apply not_in_wiped|]. split; [done|].
  intros Hexists. split.
  { intros p Hp. by apply inside_not_in_wiped. }
  destruct (Hwiped Hexists) as (mid & -> & Hmid).
  exists mid, (rest ++ post). split; [reflexivity|done].
Qed.

Lemma C5_wipe_before_configure_witness :
  ∃ mid post,
    log (build_extension linux_world linux_globals "slangpy.slangpy_ext"
           (State stale_disk [])).2
    = [Rmtree "/src/slangpy/build/pip"]
      ++ mid
      ++ Spawn (configure_cmd LINUX_CMAKE_ARGS) ∅ {[ "/src/slangpy/setup.py" ]} :: post
    ∧ Forall quiet mid
    ∧ ("/src/slangpy/build/pip/CMakeCache.txt"
         ∉ wiped linux_world (build_dir_of linux_world linux_globals) stale_disk).
Proof.
  destruct (C5_wipe_before_configure linux_world linux_globals
              "slangpy.slangpy_ext" (State stale_disk []))
    as (new & Hlog & _ & Hreach & _).
  destruct (Hreach ∅ LINUX_CMAKE_ARGS)
    as (_ & _ & Hinside & mid & post & Hnew & Hmid);
    [ reflexivity | right; reflexivity | vm_compute; reflexivity | ].
  exists mid, post. split; [|split; [exact Hmid|]].
  - rewrite Hlog, Hnew. reflexivity.
  - apply Hinside; [|reflexivity].
    refine (bool_decide_unpack _ _). vm_compute. exact I.
Defined.

(** ** VersionExtractor *)

Example version_plain :
  version_of ("#define SGL_VERSION_MAJOR 1" +:+ nl +:+
              "#define SGL_VERSION_MINOR 2" +:+ nl +:+
              "#define SGL_VERSION_PATCH 3" +:+ nl) = Ok "1.2.3".
Proof. vm_compute. reflexivity. Qed.

Example version_any_order :
  version_of ("// generated" +:+ nl +:+
              "#define SGL_VERSION_PATCH 3" +:+ nl +:+ nl +:+
              "  #  define   SGL_VERSION_MAJOR   1" +:+ nl +:+
              "int x;" +:+ nl +:+
              "#define SGL_VERSION_MINOR 2") = Ok "1.2.3".
Proof. vm_compute. reflexivity. Qed.

Example version_values_verbatim :
  version_of ("#define SGL_VERSION_MAJOR 1 // major" +:+ nl +:+
              "#define SGL_VERSION_MINOR two" +:+ nl +:+
              "#define SGL_VERSION_PATCH 3" +:+ nl) = Ok "1 // major.two.3".
Proof. vm_compute. reflexivity. Qed.

Example version_missing_patch :
  version_of ("#define SGL_VERSION_MAJOR 1" +:+ nl +:+
              "#define SGL_VERSION_MINOR 2" +:+ nl) = Raise (KeyError "PATCH").
Proof. vm_compute. reflexivity. Qed.

Lemma foldl_insert_lookup (pairs : list (string * string)) (m : gmap string string) k :
  foldl (λ m kv, <[kv.1 := kv.2]> m) m pairs !! k
  = match last_value k pairs with Some v => Some v | None => m !! k end.
Proof.
  revert m. induction pairs as [|[k' v] pairs IH]; intros m; simpl; [done|].
  rewrite IH. destruct (last_value k pairs) as [v'|]; [done|].
  destruct (String.eqb_spec k' k) as [->|Hne].
  - by rewrite lookup_insert_eq.
  - by rewrite lookup_insert_ne.
Qed.

Lemma dict_lookup_last pairs k : dict pairs !! k = last_value k pairs.
Proof.
  unfold dict. rewrite foldl_insert_lookup, lookup_empty.
  by destruct (last_value k pairs).
Qed.

Lemma last_value_filter_keys k pairs :
  version_key k = true →
  last_value k (filter (λ kv, version_key kv.1 = true) pairs) = last_value k pairs.
Proof.
  intros Hk. induction pairs as [|[k' v] pairs IH]; [done|].
  destruct (version_key k') eqn:Hk'.
  - rewrite filter_cons_True by done. simpl. by rewrite IH.
  - rewrite filter_cons_False by (simpl; congruence). simpl. rewrite IH.
    destruct (last_value k pairs); [done|].
    destruct (String.eqb_spec k' k) as [->|]; [congruence|done].
Qed.

Lemma format_version_lookup (m1 m2 : gmap string string) :
  m1 !! "MAJOR" = m2 !! "MAJOR" → m1 !! "MINOR" = m2 !! "MINOR" →
  m1 !! "PATCH" = m2 !! "PATCH" → format_version m1 = format_version m2.
Proof. unfold format_version. by intros -> -> ->. Qed.

Lemma version_of_last_values blob major minor patch :
  last_value "MAJOR" (directives blob) = Some major →
  last_value "MINOR" (directives blob) = Some minor →
  last_value "PATCH" (directives blob) = Some patch →
  version_of blob = Ok (major +:+ "." +:+ minor +:+ "." +:+ patch).
Proof.
  intros HM Hm Hp. unfold version_of, version_matches. fold (directives blob).
  unfold format_version. by rewrite !dict_lookup_last, HM, Hm, Hp.
Qed.

(** C9. The version string is built from the value of the last directive,
    in text order, of each of the suffixes MAJOR, MINOR and PATCH: whenever
    each of the three has a directive the extraction succeeds, however many
    directives share a suffix.  Directives with any other suffix do not
    matter: dropping them from what [findall] reports gives the same
    result. *)
Theorem C9_last_directive_wins (blob : string) :
  (∀ major minor patch,
     last_value "MAJOR" (directives blob) = Some major →
     last_value "MINOR" (directives blob) = Some minor →
     last_value "PATCH" (directives blob) = Some patch →
     version_of blob = Ok (major +:+ "." +:+ minor +:+ "." +:+ patch))
  ∧ version_of blob
    = format_version
        (dict (filter (λ kv, version_key kv.1 = true) (directives blob))).
Proof.
  split; [intros major minor patch; apply version_of_last_values|].
  unfold version_of, version_matches. fold (directives blob).
  apply format_version_lookup; rewrite !dict_lookup_last;
    by rewrite last_value_filter_keys.
Qed.

Lemma C9_last_directive_wins_witness :
  directives REDEFINED_HEADER
    = [ ("MAJOR", "1"); ("STR", "alpha"); ("MINOR", "2"); ("MAJOR", "9");
        ("PATCH", "3") ]
  ∧ version_of REDEFINED_HEADER = Ok "9.2.3".
Proof.
  split; [vm_compute; reflexivity|].
  apply (proj1 (C9_last_directive_wins REDEFINED_HEADER) "9" "2" "3");
    vm_compute; reflexivity.
Defined.

(** C8, at a header with an include guard.  The guard line defines
    SGL_VERSION_H without a value; the white space the pattern asks for after
    the macro name is then the line feed, the value group takes the whole
    next line, and the MAJOR directive on that line is never reported: the
    extraction raises [KeyError] although the three directives with the
    values 1, 2 and 3 are all there. *)
Theorem C8_guard_swallows_directive :
  directives GUARDED_HEADER
    = [ ("H", "#define SGL_VERSION_MAJOR 1"); ("MINOR", "2"); ("PATCH", "3") ]
  ∧ version_of GUARDED_HEADER = Raise (KeyError "MAJOR").
Proof. split; vm_compute; reflexivity. Qed.

(** ** Headers of plain lines: when the extraction does round-trip *)

(** ** Text lemmas *)

Lemma sapp_cons c s x : String c s +:+ x = String c (s +:+ x).
Proof. reflexivity. Qed.

Lemma sapp_nil_l x : EmptyString +:+ x = x.
Proof. reflexivity. Qed.

Lemma sapp_assoc a b c : (a +:+ b) +:+ c = a +:+ b +:+ c.
Proof. induction a as [|x a IH]; [done|]. by rewrite !sapp_cons, IH. Qed.

Lemma slength_app a b : String.length (a +:+ b) = String.length a + String.length b.
Proof. induction a as [|x a IH]; [done|]. rewrite sapp_cons. simpl. by rewrite IH. Qed.

Lemma sprefix_app l x : String.prefix l (l +:+ x) = true.
Proof.
  induction l as [|c l IH]; [by destruct x|].
  rewrite sapp_cons. simpl. by destruct (ascii_dec c c).
Qed.

Lemma sprefix_head_ne a l c x : a ≠ c → String.prefix (String a l) (String c x) = false.
Proof. intros H. simpl. by destruct (ascii_dec a c). Qed.

Lemma sdrop_app u x : Re.sdrop (String.length u) (u +:+ x) = x.
Proof. induction u as [|c u IH]; [by destruct x|]. by rewrite sapp_cons. Qed.

Lemma stake_app u x : Re.stake (String.length u) (u +:+ x) = u.
Proof.
  induction u as [|c u IH]; [by destruct x|].
  rewrite sapp_cons. simpl. by rewrite IH.
Qed.

Lemma stake_sdrop n s : Re.stake n s +:+ Re.sdrop n s = s.
Proof.
  revert s. induction n as [|n IH]; intros [|c s]; try done.
  simpl. by rewrite sapp_cons, IH.
Qed.

Lemma slength_stake n s : n ≤ String.length s → String.length (Re.stake n s) = n.
Proof.
  revert s. induction n as [|n IH]; intros [|c s]; simpl; try done; try lia.
  intros H. rewrite IH; lia.
Qed.

Lemma span_le cls s : Re.span cls s ≤ String.length s.
Proof. induction s as [|c s IH]; simpl; [done|]. destruct (cls c); lia. Qed.

Lemma span_app_all cls u x :
  all_chars cls u = true → Re.span cls (u +:+ x) = String.length u + Re.span cls x.
Proof.
  induction u as [|c u IH]; [done|].
  rewrite sapp_cons. simpl. intros [-> Hu]%andb_true_iff. by rewrite IH.
Qed.

Lemma last_char_app prev a b :
  Re.last_char prev (a +:+ b) = Re.last_char (Re.last_char prev a) b.
Proof.
  revert prev. induction a as [|c a IH]; intros prev; [done|].
  rewrite sapp_cons. simpl. apply IH.
Qed.

Lemma last_char_nonempty p1 p2 u :
  u ≠ EmptyString → Re.last_char p1 u = Re.last_char p2 u.
Proof. by destruct u. Qed.

Lemma last_char_no_newline prev u :
  Re.at_bol prev = false → all_chars Re.cls_dot u = true →
  Re.at_bol (Re.last_char prev u) = false.
Proof.
  revert prev. induction u as [|c u IH]; intros prev Hp; [done|].
  simpl. intros [Hc Hu]%andb_true_iff. apply IH; [|done].
  simpl. unfold Re.cls_dot in Hc. by destruct (Ascii.eqb c Re.newline).
Qed.

(** ** Backtracking lemmas *)

Lemma backtrack_first {A} lo k (f : nat → option A) r :
  lo ≤ k → f k = Some r → Re.backtrack lo k f = Some r.
Proof.
  intros Hle Hf. destruct k; simpl.
  - destruct (Nat.ltb_spec 0 lo); [lia|]. by rewrite Hf.
  - destruct (Nat.ltb_spec (S k) lo); [lia|]. by rewrite Hf.
Qed.

Lemma backtrack_none {A} lo k (f : nat → option A) :
  (∀ j, j ≤ k → f j = None) → Re.backtrack lo k f = None.
Proof.
  induction k as [|k IH]; intros H; simpl.
  - destruct (0 <? lo); [done|]. by rewrite H.
  - destruct (S k <? lo); [done|]. rewrite H by lia. apply IH. intros j Hj.
    apply H. lia.
Qed.

Lemma backtrack_shift {A} n m (f : nat → option A) :
  (∀ j, j < n → f j = None) →
  Re.backtrack 0 (n + m) f = Re.backtrack 0 m (λ j, f (n + j)).
Proof.
  intros Hlow. induction m as [|m IH].
  - rewrite Nat.add_0_r. simpl. destruct (f (n + 0)) as [r|] eqn:E;
      rewrite Nat.add_0_r in E.
    + by apply backtrack_first; [lia|].
    + apply backtrack_none. intros j Hj.
      destruct (decide (j = n)) as [->|]; [done|]. apply Hlow. lia.
  - rewrite Nat.add_succ_r. simpl. rewrite <- Nat.add_succ_r.
    destruct (f (n + S m)); [done|]. exact IH.
Qed.

Lemma backtrack_some {A} lo k (f : nat → option A) r :
  Re.backtrack lo k f = Some r → ∃ j, lo ≤ j ≤ k ∧ f j = Some r.
Proof.
  induction k as [|k IH]; simpl.
  - destruct (Nat.ltb_spec 0 lo); [done|].
    destruct (f 0) eqn:E; [|done]. intros [= <-]. exists 0. split; [lia|done].
  - destruct (Nat.ltb_spec (S k) lo); [done|].
    destruct (f (S k)) eqn:E.
    + intros [= <-]. exists (S k). split; [lia|done].
    + intros (j & Hj & Hf)%IH. exists j. split; [lia|done].
Qed.

Lemma backtrack_ext {A} lo k (f g : nat → option A) :
  (∀ j, f j = g j) → Re.backtrack lo k f = Re.backtrack lo k g.
Proof.
  intros H. induction k as [|k IH]; simpl; rewrite H; [done|].
  by rewrite IH.
Qed.

(** ** Matching lemmas *)

Lemma match_here_prev p prev prev' s :
  no_bol p = true → Re.match_here p prev s = Re.match_here p prev' s.
Proof.
  revert prev prev' s. induction p as [|n p IH]; intros prev prev' s Hp; [done|].
  destruct n as [| |l|cap lo cls]; simpl in *; try done.
  - destruct (Re.at_eol s); [|done]. by apply IH.
  - destruct (String.prefix l s); [|done]. by apply IH.
  - apply backtrack_ext. intros k.
    by rewrite (IH _ (Re.last_char prev' (Re.stake k s))).
Qed.

Lemma sprefix_split l s :
  String.prefix l s = true → s = l +:+ Re.sdrop (String.length l) s.
Proof.
  revert s. induction l as [|a l IH]; intros s; [by destruct s|].
  destruct s as [|c s]; [done|]. simpl.
  destruct (ascii_dec a c) as [->|]; [|done].
  intros H. rewrite sapp_cons. f_equal. by apply IH.
Qed.

(** A match takes a prefix of the text, of at least [min_len] characters. *)
Lemma match_here_suffix p prev s gs rest :
  Re.match_here p prev s = Some (gs, rest) →
  ∃ u, s = u +:+ rest ∧ min_len p ≤ String.length u.
Proof.
  revert prev s gs rest.
  induction p as [|n p IH]; intros prev s gs rest; simpl.
  { intros [= <- <-]. by exists EmptyString. }
  destruct n as [| |l|cap lo cls].
  - destruct (Re.at_bol prev); [apply IH|done].
  - destruct (Re.at_eol s); [apply IH|done].
  - destruct (String.prefix l s) eqn:Hl; [|done].
    intros (u & Hu & Hlen)%IH. exists (l +:+ u). split.
    + rewrite sapp_assoc, <- Hu. by apply sprefix_split.
    + rewrite slength_app. lia.
  - intros (j & Hj & Hf)%backtrack_some.
    destruct (Re.match_here p _ (Re.sdrop j s)) as [[gs' rest']|] eqn:E; [|done].
    injection Hf as _ <-.
    apply IH in E as (u & Hu & Hlen).
    exists (Re.stake j s +:+ u). split.
    + by rewrite sapp_assoc, <- Hu, stake_sdrop.
    + pose proof (span_le cls s). rewrite slength_app, slength_stake; lia.
Qed.

Lemma match_lit l p prev x :
  Re.match_here (Re.Lit l :: p) prev (l +:+ x)
  = Re.match_here p (Re.last_char prev l) x.
Proof. simpl. by rewrite sprefix_app, sdrop_app. Qed.

(** The greedy attempt of a repetition succeeds at once. *)
Lemma match_many_greedy cap lo cls p prev u x gs rest :
  Re.span cls (u +:+ x) = String.length u → lo ≤ String.length u →
  Re.match_here p (Re.last_char prev u) x = Some (gs, rest) →
  Re.match_here (Re.Many cap lo cls :: p) prev (u +:+ x)
  = Some (if cap then u :: gs else gs, rest).
Proof.
  intros Hspan Hlo Hrest. simpl. rewrite Hspan.
  apply backtrack_first; [done|]. by rewrite stake_app, sdrop_app, Hrest.
Qed.

Lemma match_version_regex prev s :
  Re.match_here VERSION_REGEX prev s
  = if Re.at_bol prev then Re.match_here AFTER_BOL None s else None.
Proof.
  change (Re.match_here VERSION_REGEX prev s)
    with (if Re.at_bol prev then Re.match_here AFTER_BOL prev s else None).
  destruct (Re.at_bol prev); [|done]. by apply match_here_prev.
Qed.

Lemma upper_not_space c : Re.cls_upper c = true → isspace c = false.
Proof.
  unfold Re.cls_upper, isspace.
  destruct (N_of_ascii c) as [|n]; [done|].
  intros [H1 H2]%andb_true_iff. apply N.leb_le in H1, H2.
  repeat (apply orb_false_iff; split); try apply andb_false_iff;
    rewrite ?N.leb_gt, ?N.eqb_neq; lia.
Qed.

Lemma match_directive k v x :
  well_formed (Directive k v) = true →
  Re.match_here AFTER_BOL None (render (Directive k v) +:+ nl +:+ x)
  = Some ([k; v], nl +:+ x).
Proof.
  intros H. cbn [well_formed] in H.
  rewrite !andb_true_iff, negb_true_iff in H. destruct H as [[[Hk Hk0] Hv] Hv0].
  destruct v as [|c v]; [done|]. cbn [starts_nonspace] in Hv0.
  apply negb_true_iff in Hv0. unfold render.
  change ("#define SGL_VERSION_" +:+ k +:+ " " +:+ String c v)
    with ("#" +:+ "define" +:+ " " +:+ "SGL_VERSION_" +:+ k +:+ " " +:+ String c v).
  rewrite !sapp_assoc.
  unfold AFTER_BOL, VERSION_REGEX, tail.
  (* optional blanks, hash sign, optional blanks, the word define *)
  rewrite <- (sapp_nil_l ("#" +:+ _)).
  erewrite (match_many_greedy false 0 _ _ _ EmptyString); [reflexivity|done|done|].
  rewrite match_lit.
  rewrite <- (sapp_nil_l ("define" +:+ _)).
  erewrite (match_many_greedy false 0 _ _ _ EmptyString); [reflexivity|done|done|].
  rewrite match_lit.
  (* one blank, the macro prefix *)
  erewrite (match_many_greedy false 1 _ _ _ " "); [reflexivity|done|done|].
  rewrite match_lit.
  (* the suffix *)
  erewrite (match_many_greedy true 1 _ _ _ k); [reflexivity| | |].
  { rewrite span_app_all by done. simpl. lia. }
  { destruct k; [done|simpl; lia]. }
  (* one blank *)
  erewrite (match_many_greedy false 1 _ _ _ " "); [reflexivity| |done|].
  { rewrite !sapp_cons. simpl. unfold Re.cls_space. by rewrite Hv0. }
  (* the value, up to the line end *)
  erewrite (match_many_greedy true 0 _ _ _ (String c v)); [reflexivity| |simpl; lia|].
  { rewrite span_app_all by done. simpl. lia. }
  reflexivity.
Qed.

Lemma sdrop_add n m s : Re.sdrop (n + m) s = Re.sdrop m (Re.sdrop n s).
Proof.
  revert s. induction n as [|n IH]; intros s; [done|].
  destruct s as [|c s]; simpl; [by destruct m|]. apply IH.
Qed.

Lemma sdrop_blank_head j w y :
  all_chars isspace w = true → j < String.length w →
  ∃ c z, Re.sdrop j (w +:+ y) = String c z ∧ isspace c = true.
Proof.
  revert j. induction w as [|a w IH]; intros j; simpl; [lia|].
  intros [Ha Hw]%andb_true_iff Hj. rewrite sapp_cons.
  destruct j as [|j]; simpl; [eauto|]. apply IH; [done|lia].
Qed.

(** Leading white space, line feeds included, is taken by the first
    repetition of the pattern and changes nothing else. *)
Lemma match_skip_blanks w y :
  all_chars isspace w = true →
  Re.match_here AFTER_BOL None (w +:+ y) = Re.match_here AFTER_BOL None y.
Proof.
  intros Hw. unfold AFTER_BOL, VERSION_REGEX, tail.
  set (p := Re.Lit "#" :: _).
  cbn [Re.match_here]. fold (Re.match_here p).
  rewrite (span_app_all Re.cls_space w y Hw).
  rewrite backtrack_shift.
  - apply backtrack_ext. intros j.
    rewrite sdrop_add, sdrop_app.
    by rewrite (match_here_prev p _ (Re.last_char None (Re.stake j y))).
  - intros j Hj.
    destruct (sdrop_blank_head j w y Hw Hj) as (c & z & -> & Hc).
    subst p. cbn [Re.match_here].
    rewrite sprefix_head_ne; [done|]. intros <-. done.
Qed.

Lemma match_not_hash c y :
  isspace c = false → c ≠ "#"%char →
  Re.match_here AFTER_BOL None (String c y) = None.
Proof.
  intros Hc Hne. unfold AFTER_BOL, VERSION_REGEX, tail.
  cbn [Re.match_here Re.span]. unfold Re.cls_space at 1. rewrite Hc.
  cbn [Re.backtrack Nat.ltb Nat.leb Re.sdrop].
  by rewrite sprefix_head_ne.
Qed.

Lemma match_hash_not_define d y :
  isspace d = false → d ≠ "d"%char →
  Re.match_here AFTER_BOL None (String "#" (String d y)) = None.
Proof.
  intros Hd Hne. unfold AFTER_BOL, VERSION_REGEX, tail.
  cbn [Re.match_here Re.span]. unfold Re.cls_space at 1.
  change (isspace "#") with false.
  cbn [Re.backtrack Nat.ltb Nat.leb Re.sdrop Re.stake String.prefix String.length].
  destruct (ascii_dec "#" "#"); [|done].
  cbn [Re.span]. unfold Re.cls_space at 1. rewrite Hd.
  cbn [Re.backtrack Nat.ltb Nat.leb Re.sdrop].
  by rewrite sprefix_head_ne.
Qed.

Lemma match_empty : Re.match_here AFTER_BOL None EmptyString = None.
Proof. reflexivity. Qed.

Lemma lstrip_split t :
  ∃ w, t = w +:+ lstrip t ∧ all_chars isspace w = true.
Proof.
  induction t as [|c t (w & Ht & Hw)]; [by exists EmptyString|].
  simpl. destruct (isspace c) eqn:Hc.
  - exists (String c w). rewrite sapp_cons, <- Ht. simpl. by rewrite Hc, Hw.
  - by exists EmptyString.
Qed.

Lemma nl_blank : all_chars isspace nl = true.
Proof. reflexivity. Qed.

(** At the start of a line that is not a directive, the pattern matches
    exactly if it matches at the start of the next line. *)
Lemma match_plain_line t x :
  plain_text t = true →
  Re.match_here AFTER_BOL None (t +:+ nl +:+ x)
  = if lstrip t == EmptyString then Re.match_here AFTER_BOL None x else None.
Proof.
  unfold plain_text. destruct (lstrip_split t) as (w & Ht & Hw).
  rewrite Ht at 2. rewrite sapp_assoc, (match_skip_blanks _ _ Hw).
  destruct (lstrip t) as [|c y] eqn:Hy.
  - intros _. simpl. rewrite sapp_nil_l. apply (match_skip_blanks nl x nl_blank).
  - assert (isspace c = false) as Hc.
    { clear -Hy. induction t as [|a t IH]; [done|]. simpl in Hy.
      destruct (isspace a) eqn:Ha; [by apply IH|]. by injection Hy as -> _. }
    cbn [String.eqb]. rewrite sapp_cons.
    destruct (Ascii.eqb_spec c "#") as [->|Hne].
    + destruct y as [|d y]; [done|].
      rewrite andb_true_iff, !negb_true_iff. intros [Hd Hdd].
      rewrite sapp_cons. apply match_hash_not_define; [done|].
      intros ->. done.
    + intros _. by apply match_not_hash.
Qed.

(** ** Scanning lemmas *)

Lemma scan_zero p prev s :
  Re.scan p prev s 0 =
    match Re.match_here p prev s with
    | Some (gs, rest) =>
        gs :: match s with
              | EmptyString => []
              | String c s' =>
                  Re.scan p (Some c) s' (pred (String.length s - String.length rest))
              end
    | None =>
        match s with
        | EmptyString => []
        | String c s' => Re.scan p (Some c) s' 0
        end
    end.
Proof. by destruct s. Qed.

Lemma scan_skip p u prev rest :
  Re.scan p prev (u +:+ rest) (String.length u)
  = Re.scan p (Re.last_char prev u) rest 0.
Proof.
  revert prev. induction u as [|c u IH]; intros prev; [done|].
  rewrite sapp_cons. simpl. apply IH.
Qed.

Lemma scan_hit p prev u rest gs :
  u ≠ EmptyString →
  Re.match_here p prev (u +:+ rest) = Some (gs, rest) →
  Re.scan p prev (u +:+ rest) 0 = gs :: Re.scan p (Re.last_char prev u) rest 0.
Proof.
  intros Hu Hm. rewrite scan_zero, Hm.
  destruct u as [|c u]; [done|]. rewrite sapp_cons.
  apply (f_equal (cons gs)).
  cbn [String.length]. rewrite slength_app.
  replace (pred (S (String.length u + String.length rest) - String.length rest))
    with (String.length u) by lia.
  apply (scan_skip p u (Some c) rest).
Qed.

Lemma scan_miss p prev c s :
  Re.match_here p prev (String c s) = None →
  Re.scan p prev (String c s) 0 = Re.scan p (Some c) s 0.
Proof. intros Hm. by rewrite scan_zero, Hm. Qed.

Lemma match_mid_line prev s :
  Re.at_bol prev = false → Re.match_here VERSION_REGEX prev s = None.
Proof. intros H. by rewrite match_version_regex, H. Qed.

(** Inside a line, and on its line feed, nothing matches. *)
Lemma scan_line_rest u prev x :
  Re.at_bol prev = false → all_chars Re.cls_dot u = true →
  Re.scan VERSION_REGEX prev (u +:+ nl +:+ x) 0
  = Re.scan VERSION_REGEX (Some Re.newline) x 0.
Proof.
  revert prev. induction u as [|c u IH]; intros prev Hprev Hu.
  - change (EmptyString +:+ nl +:+ x) with (String Re.newline x).
    by rewrite scan_miss by by apply match_mid_line.
  - rewrite sapp_cons, scan_miss by by apply match_mid_line.
    simpl in Hu. apply andb_true_iff in Hu as [Hc Hu].
    apply IH; [|done]. simpl. unfold Re.cls_dot in Hc.
    by destruct (Ascii.eqb c Re.newline).
Qed.

Lemma last_char_in_line prev u :
  u ≠ EmptyString → all_chars Re.cls_dot u = true →
  Re.at_bol (Re.last_char prev u) = false.
Proof.
  destruct u as [|c u]; [done|]. intros _ [Hc Hu]%andb_true_iff.
  simpl. apply last_char_no_newline; [|done].
  simpl. unfold Re.cls_dot in Hc. by destruct (Ascii.eqb c Re.newline).
Qed.

Lemma scan_directive k v prev x :
  Re.at_bol prev = true → well_formed (Directive k v) = true →
  Re.scan VERSION_REGEX prev (render (Directive k v) +:+ nl +:+ x) 0
  = [k; v] :: Re.scan VERSION_REGEX (Some Re.newline) x 0.
Proof.
  intros Hprev Hwf.
  rewrite (scan_hit _ _ _ _ [k; v]).
  - f_equal. rewrite <- (sapp_nil_l (nl +:+ x)).
    apply scan_line_rest; [|done].
    cbn [well_formed] in Hwf. rewrite !andb_true_iff in Hwf.
    destruct Hwf as [[_ Hv] Hv0]. unfold render.
    rewrite <- !sapp_assoc, last_char_app.
    apply last_char_in_line; [by destruct v|done].
  - by unfold render.
  - rewrite match_version_regex, Hprev. by apply match_directive.
Qed.

Lemma scan_plain t prev x :
  Re.at_bol prev = true → well_formed (Other t) = true →
  Re.scan VERSION_REGEX prev (t +:+ nl +:+ x) 0
  = Re.scan VERSION_REGEX (Some Re.newline) x 0.
Proof.
  intros Hprev [Hline Hplain]%andb_true_iff.
  pose proof (match_plain_line t x Hplain) as Hm.
  assert (Re.scan VERSION_REGEX prev (t +:+ nl +:+ x) 0
          = match Re.match_here VERSION_REGEX prev (t +:+ nl +:+ x) with
            | Some _ => Re.scan VERSION_REGEX prev (t +:+ nl +:+ x) 0
            | None => Re.scan VERSION_REGEX (Some Re.newline) x 0
            end) as Hnone.
  { destruct (Re.match_here VERSION_REGEX prev (t +:+ nl +:+ x)) eqn:E; [done|].
    destruct t as [|c t].
    - change (EmptyString +:+ nl +:+ x) with (String Re.newline x) in *.
      by apply scan_miss.
    - rewrite sapp_cons in *. rewrite (scan_miss _ _ _ _ E).
      simpl in Hline. apply andb_true_iff in Hline as [Hc Hline].
      apply scan_line_rest; [|done]. simpl. unfold Re.cls_dot in Hc.
      by destruct (Ascii.eqb c Re.newline). }
  rewrite Hnone. rewrite match_version_regex, Hprev, Hm.
  destruct (lstrip t == EmptyString); [|done].
  destruct (Re.match_here AFTER_BOL None x) as [[gs rest]|] eqn:Ex; [|done].
  destruct (match_here_suffix _ _ _ _ _ Ex) as (u & -> & Hlen).
  assert (u ≠ EmptyString) as Hu.
  { intros ->. vm_compute in Hlen. lia. }
  rewrite (scan_hit _ (Some Re.newline) u rest gs Hu)
    by (rewrite match_version_regex; exact Ex).
  rewrite <- !sapp_assoc.
  rewrite (scan_hit _ prev _ rest gs).
  - f_equal. f_equal. rewrite last_char_app. by apply last_char_nonempty.
  - intros H. apply (f_equal String.length) in H.
    rewrite !slength_app in H. simpl in H. lia.
  - rewrite !sapp_assoc, match_version_regex, Hprev. by rewrite Hm.
Qed.

Lemma scan_lines ls prev :
  Re.at_bol prev = true → Forall (λ l, well_formed l = true) ls →
  Re.scan VERSION_REGEX prev (unlines (render <$> ls)) 0
  = (λ kv, [kv.1; kv.2]) <$> omap directive_of ls.
Proof.
  intros Hprev Hall. revert prev Hprev.
  induction Hall as [|l ls Hl _ IH]; intros prev Hprev.
  - by rewrite scan_zero, match_version_regex, Hprev.
  - cbn [fmap list_fmap unlines]. destruct l as [k v|t].
    + rewrite scan_directive by done. cbn. f_equal. by apply IH.
    + cbn [render]. rewrite scan_plain by done. cbn. by apply IH.
Qed.

Lemma as_pairs_of_pairs (l : list (string * string)) :
  Re.as_pairs ((λ kv, [kv.1; kv.2]) <$> l) = l.
Proof.
  unfold Re.as_pairs. induction l as [|[k v] l IH]; [done|].
  cbn. by rewrite IH.
Qed.

(** X4. In a header made of plain directives and of lines on which the pattern
    cannot begin, [findall] reports exactly the directives, in order. *)
Theorem directives_of_lines (ls : list line) :
  Forall (λ l, well_formed l = true) ls →
  directives (unlines (render <$> ls)) = omap directive_of ls.
Proof.
  intros Hall. unfold directives, Re.findall.
  rewrite scan_lines by done. apply as_pairs_of_pairs.
Qed.

(** X5. For such a header the version is read off the lines: the last directive
    of each of the three suffixes gives its component. *)
Theorem version_of_lines (ls : list line) (major minor patch : string) :
  Forall (λ l, well_formed l = true) ls →
  last_value "MAJOR" (omap directive_of ls) = Some major →
  last_value "MINOR" (omap directive_of ls) = Some minor →
  last_value "PATCH" (omap directive_of ls) = Some patch →
  version_of (unlines (render <$> ls))
  = Ok (major +:+ "." +:+ minor +:+ "." +:+ patch).
Proof.
  intros Hall HM Hm Hp.
  assert (directives (unlines (render <$> ls)) = omap directive_of ls) as Hd.
  { unfold directives, Re.findall. rewrite scan_lines by done.
    apply as_pairs_of_pairs. }
  apply version_of_last_values; by rewrite Hd.
Qed.

Example version_of_lines_123 :
  version_of
    (unlines (render <$>
      [ Other "// generated"; Directive "PATCH" "3"; Other EmptyString;
        Other "#pragma once"; Directive "MAJOR" "1"; Other "  int x;";
        Directive "MINOR" "2" ]))
  = Ok "1.2.3".
Proof.
  apply (version_of_lines _ "1" "2" "3"); [|reflexivity..].
  repeat constructor.
Defined.

Example directives_of_lines_123 :
  directives
    (unlines (render <$>
      [ Other "// generated"; Directive "PATCH" "3"; Other EmptyString;
        Other "#pragma once"; Directive "MAJOR" "1"; Other "  int x;";
        Directive "MINOR" "2" ]))
  = [("PATCH", "3"); ("MAJOR", "1"); ("MINOR", "2")].
Proof.
  apply (directives_of_lines
           [ Other "// generated"; Directive "PATCH" "3"; Other EmptyString;
             Other "#pragma once"; Directive "MAJOR" "1"; Other "  int x;";
             Directive "MINOR" "2" ]).
  repeat constructor.
Defined.

(** The guard line of [GUARDED_HEADER] is not such a line. *)
Example guard_line_not_plain :
  well_formed (Other "#define SGL_VERSION_H") = false.
Proof. reflexivity. Qed.

(** ** Whole runs *)

(** On a Linux machine with no Android ABI set: the version is printed,
    the preset is the Linux one, the Python root hint is passed and no
    Android-only key is, and the three phases run in order. *)
Example linux_end_to_end :
  (setup_py linux_world (State ∅ [])).1 = Ok tt
  ∧ head (log (setup_py linux_world (State ∅ [])).2) = Some (Stdout "version=0.40.0")
  ∧ phases (log (setup_py linux_world (State ∅ [])).2) = [Configure; Build; Install]
  ∧ (ConfigurationBuilder linux_world linux_globals EXAMPLE_BUILD_DIR EXAMPLE_EXTDIR
       (State ∅ [])).1 = Ok LINUX_CMAKE_ARGS.
Proof. repeat split; vm_compute; reflexivity. Qed.

(** With NO_CMAKE_BUILD set to 1 nothing is spawned. *)
Example skip_native_build :
  phases (log (setup_py (flags_world "1" "0") (State ∅ [])).2) = []
  ∧ phases (log (setup_py (flags_world "yes" "0") (State ∅ [])).2)
    = [Configure; Build; Install].
Proof. split; vm_compute; reflexivity. Qed.

(** Under the compatibility layer, a host path that differs from the source
    path adds the two remap flags; a failing query adds none. *)
Example wsl_remap_flags :
  (wsl_path_mapping (wsl_world (Some (Ok ("C:/src/slangpy" +:+ nl)))) linux_globals
     [] wsl_state).1
  = Ok [ "-DCMAKE_C_FLAGS=-fdebug-prefix-map=/src/slangpy=C:/src/slangpy";
         "-DCMAKE_CXX_FLAGS=-fdebug-prefix-map=/src/slangpy=C:/src/slangpy" ]
  ∧ (wsl_path_mapping (wsl_world (Some (Raise UnicodeDecodeError))) linux_globals
       [] wsl_state).1 = Ok [].
Proof. split; vm_compute; reflexivity. Qed.

(** An Android build: explicit interpreter paths instead of the root hint,
    and the local Slang tree. *)
Example android_configuration :
  (ConfigurationBuilder
     (posix_world "android" "aarch64"
        {[ "ANDROID_ABI" := "arm64-v8a";
           "CMAKE_TOOLCHAIN_FILE" := "/ndk/build/cmake/android.toolchain.cmake" ]}
        None child_ok)
     (Globals "/src/slangpy" "android" "android-arm64" None false false)
     EXAMPLE_BUILD_DIR EXAMPLE_EXTDIR (State ∅ [])).1
  = Ok [ "--preset"; "android-arm64"; "-B"; "/src/slangpy/build/pip";
         "-DCMAKE_DEFAULT_BUILD_TYPE=RelWithDebInfo";
         "-DPython_FIND_REGISTRY:STRING=NEVER";
         "-DCMAKE_INSTALL_PREFIX=/src/slangpy/build/lib/slangpy";
         "-DCMAKE_INSTALL_LIBDIR=."; "-DCMAKE_INSTALL_BINDIR=.";
         "-DCMAKE_INSTALL_INCLUDEDIR=include"; "-DCMAKE_INSTALL_DATAROOTDIR=.";
         "-DSGL_BUILD_EXAMPLES=OFF"; "-DSGL_BUILD_TESTS=OFF";
         "-DPython_INCLUDE_DIR=/ndk/build/cmake/python/prefix/include/python3.11";
         "-DPython_LIBRARY=/ndk/build/cmake/python/prefix/lib/libpython3.11.so";
         "-DSGL_LOCAL_SLANG=ON";
         "-DSGL_LOCAL_SLANG_DIR=/src/slang";
         "-DSGL_LOCAL_SLANG_BUILD_DIR=build-android-arm64-v8a/RelWithDebInfo" ].
Proof. vm_compute. reflexivity. Qed.

(** * Further properties *)

(** ** VersionExtractor: missing directives *)

Lemma last_value_none k (pairs : list (string * string)) :
  last_value k pairs = None ↔ k ∉ pairs.*1.
Proof.
  induction pairs as [|[k' v] pairs IH]; simpl.
  - split; [intros _; apply not_elem_of_nil|done].
  - rewrite not_elem_of_cons. destruct (last_value k pairs) as [v'|].
    + split; [done|]. intros [_ H]. by apply IH in H.
    + destruct (String.eqb_spec k' k) as [->|Hne].
      * split; [done|]. by intros [? _].
      * split; [|done]. intros _. split; [congruence|]. by apply IH.
Qed.

Lemma last_value_some k (pairs : list (string * string)) :
  is_Some (last_value k pairs) ↔ k ∈ pairs.*1.
Proof.
  destruct (last_value k pairs) as [v|] eqn:E.
  - split; [|by eexists]. intros _.
    destruct (decide (k ∈ pairs.*1)) as [|Hn]; [done|].
    apply last_value_none in Hn. congruence.
  - split; [by intros [? [=]]|]. intros Hin. by apply last_value_none in E.
Qed.

(** X1. The extraction succeeds exactly when [findall] reports a directive for
    each of MAJOR, MINOR and PATCH; otherwise it raises [KeyError] for the
    first of the three, in this order, that has none. *)
Theorem version_needs_all_three (blob : string) :
  (is_Ok_version blob ↔
     "MAJOR" ∈ suffixes blob ∧ "MINOR" ∈ suffixes blob ∧ "PATCH" ∈ suffixes blob)
  ∧ ("MAJOR" ∉ suffixes blob → version_of blob = Raise (KeyError "MAJOR"))
  ∧ ("MAJOR" ∈ suffixes blob → "MINOR" ∉ suffixes blob →
     version_of blob = Raise (KeyError "MINOR"))
  ∧ ("MAJOR" ∈ suffixes blob → "MINOR" ∈ suffixes blob → "PATCH" ∉ suffixes blob →
     version_of blob = Raise (KeyError "PATCH")).
Proof.
  unfold is_Ok_version, suffixes, version_of, version_matches.
  fold (directives blob). unfold format_version.
  rewrite !dict_lookup_last, <- !last_value_some.
  destruct (last_value "MAJOR" (directives blob)) as [vM|];
    destruct (last_value "MINOR" (directives blob)) as [vm|];
    destruct (last_value "PATCH" (directives blob)) as [vp|];
    rewrite ?is_Some_alt; split_and!; try done; try tauto;
    try (by intros [? [=]]);
    first [ by (split; [intros [? [=]]|tauto]) | by (split; [|eexists]) ].
Qed.

Lemma version_needs_all_three_witness :
  version_of ("#define SGL_VERSION_MAJOR 1" +:+ nl +:+
              "#define SGL_VERSION_MINOR 2" +:+ nl) = Raise (KeyError "PATCH").
Proof.
  apply (proj2 (proj2 (proj2 (version_needs_all_three _)))); decide_now.
Defined.

(** ** VersionExtractor: what a reported directive looks like *)

Lemma all_chars_stake cls j s :
  j ≤ Re.span cls s → all_chars cls (Re.stake j s) = true.
Proof.
  revert s. induction j as [|j IH]; intros s; [by destruct s|].
  destruct s as [|c s]; simpl; [lia|].
  destruct (cls c); [|lia]. intros H. rewrite IH; [done|lia].
Qed.

Lemma all_chars_app cls a b :
  all_chars cls (a +:+ b) = all_chars cls a && all_chars cls b.
Proof.
  induction a as [|c a IH]; [done|].
  rewrite sapp_cons. simpl. by rewrite IH, andb_assoc.
Qed.

(** The groups of a match fit the capturing repetitions of the pattern, one
    for one. *)
Lemma match_here_groups p prev s gs rest :
  Re.match_here p prev s = Some (gs, rest) → Forall2 fits gs (captures p).
Proof.
  revert prev s gs rest.
  induction p as [|n p IH]; intros prev s gs rest; simpl.
  { intros [= <- _]. constructor. }
  destruct n as [| |l|cap lo cls].
  - destruct (Re.at_bol prev); [apply IH|done].
  - destruct (Re.at_eol s); [apply IH|done].
  - destruct (String.prefix l s); [apply IH|done].
  - intros (j & Hj & Hf)%backtrack_some.
    destruct (Re.match_here p _ (Re.sdrop j s)) as [[gs' rest']|] eqn:E; [|done].
    apply IH in E. destruct cap; injection Hf as <- _; [|done].
    constructor; [|done]. split; simpl.
    + pose proof (span_le cls s). rewrite slength_stake; lia.
    + apply all_chars_stake. lia.
Qed.

Lemma scan_forall (P : list string → Prop) p :
  (∀ prev s gs rest, Re.match_here p prev s = Some (gs, rest) → P gs) →
  ∀ s prev skip, Forall P (Re.scan p prev s skip).
Proof.
  intros HP s. induction s as [|c s IH]; intros prev skip.
  - destruct skip; [|constructor]. rewrite scan_zero.
    destruct (Re.match_here p prev EmptyString) as [[gs rest]|] eqn:E;
      [|constructor].
    constructor; [by eapply HP|constructor].
  - destruct skip as [|k]; [|apply IH]. rewrite scan_zero.
    destruct (Re.match_here p prev (String c s)) as [[gs rest]|] eqn:E;
      [|apply IH].
    constructor; [by eapply HP|apply IH].
Qed.

Lemma elem_of_as_pairs k v ms :
  (k, v) ∈ Re.as_pairs ms → [k; v] ∈ ms.
Proof.
  unfold Re.as_pairs. intros (gs & Hin & Hgs)%list_elem_of_omap.
  destruct gs as [|a [|b [|? ?]]]; try done. by injection Hgs as -> ->.
Qed.

Lemma last_value_elem k v (pairs : list (string * string)) :
  last_value k pairs = Some v → (k, v) ∈ pairs.
Proof.
  induction pairs as [|[k' v'] pairs IH]; simpl; [done|].
  destruct (last_value k pairs) as [x|].
  - intros [= ->]. apply list_elem_of_further. by apply IH.
  - destruct (String.eqb_spec k' k) as [->|]; [|done].
    intros [= ->]. apply list_elem_of_here.
Qed.

(** X2. Whatever the text, a reported directive has a non-empty suffix made of
    capitals only and a value without a line feed, and [findall] drops no
    match when its tuples become pairs; so a version that is returned is a
    single line. *)
Theorem directive_shape (blob : string) :
  (∀ k v, (k, v) ∈ directives blob →
     k ≠ EmptyString ∧ all_chars Re.cls_upper k = true
     ∧ all_chars Re.cls_dot v = true)
  ∧ length (directives blob) = length (Re.findall VERSION_REGEX blob)
  ∧ ∀ version, version_of blob = Ok version →
      all_chars Re.cls_dot version = true.
Proof.
  assert (Forall (λ gs, Forall2 fits gs (captures VERSION_REGEX))
            (Re.findall VERSION_REGEX blob)) as Hall.
  { apply scan_forall. intros prev s gs rest. apply match_here_groups. }
  assert (∀ k v, (k, v) ∈ directives blob →
            k ≠ EmptyString ∧ all_chars Re.cls_upper k = true
            ∧ all_chars Re.cls_dot v = true) as Hshape.
  { intros k v Hin%elem_of_as_pairs.
    pose proof (proj1 (Forall_forall _ _) Hall _ Hin) as Hfit.
    cbn [captures VERSION_REGEX] in Hfit.
    inversion Hfit as [|? ? ? ? [Hk1 Hk2] Hrest]; subst.
    inversion Hrest as [|? ? ? ? [_ Hv] _]; subst.
    split; [|done]. intros ->. simpl in Hk1. lia. }
  split; [exact Hshape|]. split.
  - unfold directives. induction Hall as [|gs ms Hgs _ IH]; [done|].
    cbn [captures VERSION_REGEX] in Hgs.
    inversion Hgs as [|? ? ? ? _ Hrest]; subst.
    inversion Hrest as [|? ? ? ? _ Hnil]; subst. inversion Hnil; subst.
    unfold Re.as_pairs in *. cbn. by rewrite IH.
  - intros version.
    unfold version_of, version_matches. fold (directives blob).
    unfold format_version. rewrite !dict_lookup_last.
    destruct (last_value "MAJOR" _) as [vM|] eqn:EM; [|done].
    destruct (last_value "MINOR" _) as [vm|] eqn:Em; [|done].
    destruct (last_value "PATCH" _) as [vp|] eqn:Ep; [|done].
    intros [= <-]. rewrite !all_chars_app.
    apply last_value_elem, Hshape in EM as (_ & _ & ->).
    apply last_value_elem, Hshape in Em as (_ & _ & ->).
    by apply last_value_elem, Hshape in Ep as (_ & _ & ->).
Qed.

Lemma directive_shape_witness :
  "H" ≠ EmptyString ∧ all_chars Re.cls_upper "H" = true
  ∧ all_chars Re.cls_dot "#define SGL_VERSION_MAJOR 1" = true.
Proof.
  apply (proj1 (directive_shape GUARDED_HEADER) "H" "#define SGL_VERSION_MAJOR 1").
  decide_now.
Defined.

(** ** VersionExtractor: white space before the text *)

Lemma scan_blanks_no_match w x :
  Re.match_here AFTER_BOL None x = None → all_chars isspace w = true →
  ∀ prev, Re.scan VERSION_REGEX prev (w +:+ x) 0 = Re.scan VERSION_REGEX None x 0.
Proof.
  intros Hx. induction w as [|c w IH]; intros Hw prev.
  - rewrite sapp_nil_l, !scan_zero, !match_version_regex, Hx.
    by destruct (Re.at_bol prev).
  - simpl in Hw. apply andb_true_iff in Hw as [Hc Hw].
    rewrite sapp_cons, scan_miss; [by apply IH|].
    rewrite match_version_regex. destruct (Re.at_bol prev); [|done].
    rewrite <- sapp_cons, match_skip_blanks; [done|]. simpl. by rewrite Hc, Hw.
Qed.

(** X3. White space in front of a text, blank lines and indentation alike, does
    not change the directives reported. *)
Theorem directives_skip_leading_blanks (w x : string) :
  all_chars isspace w = true → directives (w +:+ x) = directives x.
Proof.
  intros Hw. unfold directives, Re.findall. f_equal.
  destruct (Re.match_here AFTER_BOL None x) as [[gs rest]|] eqn:Ex.
  2:{ by apply scan_blanks_no_match. }
  destruct (match_here_suffix _ _ _ _ _ Ex) as (u & -> & Hlen).
  assert (u ≠ EmptyString) as Hu.
  { intros ->. vm_compute in Hlen. lia. }
  rewrite (scan_hit _ None u rest gs Hu)
    by (rewrite match_version_regex; exact Ex).
  rewrite <- sapp_assoc.
  rewrite (scan_hit _ None (w +:+ u) rest gs).
  - f_equal. f_equal. rewrite last_char_app. by apply last_char_nonempty.
  - intros H. apply (f_equal String.length) in H.
    rewrite slength_app in H. destruct u; [done|]. simpl in H. lia.
  - rewrite sapp_assoc, match_version_regex. cbn [Re.at_bol].
    by rewrite match_skip_blanks.
Qed.

Lemma directives_skip_leading_blanks_witness :
  directives (nl +:+ "   " +:+ nl +:+ "  #define SGL_VERSION_MAJOR 1")
  = directives "  #define SGL_VERSION_MAJOR 1".
Proof.
  apply (directives_skip_leading_blanks (nl +:+ "   " +:+ nl)). reflexivity.
Defined.

(** ** build_extension: environment, child processes, clean-up *)

Lemma quiet_calm ev : quiet ev → event_phase ev = None ∧ ¬ is_Remove ev.
Proof. destruct ev; simpl; try done; intros H; split; auto. Qed.

Lemma build_extension_outcome_full w g name s :
  build_outcome w g name s (build_extension w g name s).
Proof.
  rewrite build_extension_run.
  destruct (prepare_env w g s).1 as [env|e] eqn:Eenv.
  2:{ apply (stopped_early _ _ _ _ _ _ []); [by rewrite app_nil_r|constructor]. }
  destruct (wipe_build_dir_run w (build_dir_of w g) s)
    as (wev & Hwlog & Hwin & Hwout & Hwfs).
  assert (Forall (λ ev, event_phase ev = None ∧ ¬ is_Remove ev) wev) as Hwev.
  { destruct (decide (build_dir_of w g ∈ fs s)) as [Hin|Hout].
    - rewrite (Hwin Hin). repeat constructor. by intros [].
    - rewrite (Hwout Hout). constructor. }
  destruct (wipe_build_dir w (build_dir_of w g) s) as [[[]|e] s1] eqn:Ew;
    simpl in Hwlog, Hwfs.
  2:{ by apply (stopped_early _ _ _ _ _ _ wev). }
  destruct Hwfs as [[e [=]]|Hfs1].
  destruct (builder_state w g (build_dir_of w g) (extdir_of w name (fs s)) s1)
    as (cev & Hcst & Hcq).
  assert (Forall (λ ev, event_phase ev = None ∧ ¬ is_Remove ev) (wev ++ cev)) as Hpre.
  { apply Forall_app. split; [done|].
    eapply Forall_impl; [exact Hcq|]. apply quiet_calm. }
  destruct (ConfigurationBuilder w g _ _ s1) as [[args|e] s2] eqn:Ecb;
    simpl in Hcst; subst s2.
  2:{ apply (stopped_early _ _ _ _ _ _ (wev ++ cev)); [|done].
      simpl. by rewrite Hwlog, app_assoc. }
  set (s2 := State (fs s1) (log s1 ++ cev)).
  destruct (pipeline_traced w args (build_dir_of w g) env s2)
    as (pev & ok & Htr & Hplog & Hpres).
  apply (pipeline_ran _ _ _ _ env s2 args (wev ++ cev) pev ok); try done.
  - simpl. by rewrite Hwlog, app_assoc.
  - exists s1. split; [done|]. by rewrite Ecb.
  - destruct (BuildPipelineInvoker w args _ env s2) as [[[]|e] s3] eqn:Ep;
      destruct ok; simpl in *; try done.
    by destruct Hpres as [? [=]].
Qed.

Lemma pipeline_trace_elem w env c b i f1 evs ok argv env' before :
  pipeline_trace w env c b i f1 evs ok → Spawn argv env' before ∈ evs →
  env' = env ∧ (argv = c ∨ argv = b ∨ argv = i).
Proof.
  inversion 1; subst; intros Hin;
    repeat (apply elem_of_cons in Hin as [[= -> -> ->]|Hin]; [by eauto|]);
    by apply elem_of_nil in Hin.
Qed.

Lemma calm_not_phase l argv env before ph :
  Forall (λ ev, event_phase ev = None ∧ ¬ is_Remove ev) l →
  Spawn argv env before ∈ l → phase_of argv = Some ph → False.
Proof.
  intros Hall Hin Hph.
  destruct (proj1 (Forall_forall _ _) Hall _ Hin) as [H _]. simpl in H. congruence.
Qed.

Lemma prepare_env_cases w g s env :
  (prepare_env w g s).1 = Ok env →
  (os_name w ≠ "nt" → env = environ w)
  ∧ (os_name w = "nt" → msvc14_get_vc_env w (MSVC_PLAT_SPEC g) = Ok env).
Proof.
  unfold prepare_env, lift, ret.
  destruct (String.eqb_spec (os_name w) "nt") as [Hnt|Hnt]; simpl; intros H.
  - split; [done|]. by intros _.
  - split; [|done]. intros _. by injection H as <-.
Qed.

(** X14. Every pipeline phase of a build invocation runs with the prepared
    environment: the ambient one, or on Windows the one the toolchain helper
    returned for the platform specifier, in place of the ambient one.  The
    configure child is cmake followed by the list ConfigurationBuilder returned
    on the wiped disk; the build and install children are cmake with the
    working directory and the build-type label. *)
Theorem pipeline_children (w : World) (g : globals) (ext_name : string) (s : state) :
  ∃ new,
    log (build_extension w g ext_name s).2 = log s ++ new
    ∧ ∀ argv env before ph,
        Spawn argv env before ∈ new → phase_of argv = Some ph →
        (prepare_env w g s).1 = Ok env
        ∧ (os_name w ≠ "nt" → env = environ w)
        ∧ (os_name w = "nt" → msvc14_get_vc_env w (MSVC_PLAT_SPEC g) = Ok env)
        ∧ match ph with
          | Configure =>
              ∃ args s1,
                argv = "cmake" :: args
                ∧ fs s1 = wiped w (build_dir_of w g) (fs s)
                ∧ (ConfigurationBuilder w g (build_dir_of w g)
                     (extdir_of w ext_name (fs s)) s1).1 = Ok args
          | Build =>
              argv = ["cmake"; "--build"; build_dir_of w g; "--config"; "RelWithDebInfo"]
          | Install =>
              argv = ["cmake"; "--install"; build_dir_of w g; "--config"; "RelWithDebInfo"]
          end.
Proof.
  destruct (build_extension_outcome_full w g ext_name s)
    as [e s' evs Hlog Hcalm
       |env s2 args pre pev ok r Henv Hfs Hlog Hcalm (s1 & Hs1 & Hcb) Htr Hplog Hr].
  { exists evs. split; [done|]. intros argv env before ph Hin Hph.
    exfalso. eapply calm_not_phase; eauto. }
  assert (phase_of (configure_cmd args) = Some Configure) as Hcfg.
  { eapply builder_args_configure, Hcb. }
  assert (∃ post, log r.2 = log s ++ pre ++ pev ++ post ∧ Forall is_Remove post)
    as (post & Hrlog & Hpost).
  { destruct ok.
    - subst r.
      destruct (remove_unneeded_log w (extdir_of w ext_name (fs s))
                  (BuildPipelineInvoker w args (build_dir_of w g) env s2).2)
        as (rev & Hrev & Hrq).
      exists rev. split; [|done]. by rewrite Hrev, Hplog, Hlog, <- !app_assoc.
    - destruct Hr as [-> _]. exists []. split; [|constructor].
      by rewrite Hplog, Hlog, app_nil_r, <- !app_assoc. }
  exists (pre ++ pev ++ post). split; [done|].
  intros argv env' before ph Hin Hph.
  apply elem_of_app in Hin as [Hin|Hin].
  { exfalso. eapply calm_not_phase; eauto. }
  apply elem_of_app in Hin as [Hin|Hin].
  2:{ exfalso. by apply (proj1 (Forall_forall _ _) Hpost) in Hin. }
  destruct (pipeline_trace_elem _ _ _ _ _ _ _ _ _ _ _ Htr Hin) as [-> Hargv].
  split; [done|]. destruct (prepare_env_cases _ _ _ _ Henv) as [H1 H2].
  split; [done|]. split; [done|].
  destruct Hargv as [->|[->| ->]].
  - rewrite Hcfg in Hph. injection Hph as <-.
    exists args, s1. split; [done|]. split; [congruence|done].
  - rewrite phase_of_build in Hph. by injection Hph as <-.
  - rewrite phase_of_install in Hph. by injection Hph as <-.
Qed.

Lemma pipeline_children_witness :
  ∃ new,
    log (build_extension linux_world linux_globals "slangpy.slangpy_ext"
           (State stale_disk [])).2 = new
    ∧ (prepare_env linux_world linux_globals (State stale_disk [])).1
      = Ok (environ linux_world).
Proof.
  destruct (pipeline_children linux_world linux_globals "slangpy.slangpy_ext"
              (State stale_disk [])) as (new & Hlog & Hchildren).
  exists new. split; [exact Hlog|].
  refine (proj1 (Hchildren (build_cmd EXAMPLE_BUILD_DIR) (environ linux_world)
                   {[ "/src/slangpy/setup.py" ]} Build _ _)).
  - cbn [log app] in Hlog. rewrite <- Hlog. vm_compute.
    do 2 apply list_elem_of_further. apply list_elem_of_here.
  - reflexivity.
Defined.

Lemma subprocess_run_fs w argv env s :
  fs (subprocess_run w argv env s).2 = (run_process w argv env (fs s)).2.
Proof.
  unfold subprocess_run. destruct (run_process w argv env (fs s)) as [[rc|e] f'];
    [by destruct (Z.eqb rc 0)|done].
Qed.

Lemma pipeline_fs_frame w args bd env s :
  (∀ argv env' f, (run_process w argv env' f).2 = f) →
  fs (BuildPipelineInvoker w args bd env s).2 = fs s.
Proof.
  intros Hframe. unfold BuildPipelineInvoker, bind.
  pose proof (subprocess_run_fs w (configure_cmd args) env s) as H1.
  destruct (subprocess_run w (configure_cmd args) env s) as [[[]|e] s1];
    simpl in H1; rewrite Hframe in H1; [|done].
  pose proof (subprocess_run_fs w (build_cmd bd) env s1) as H2.
  destruct (subprocess_run w (build_cmd bd) env s1) as [[[]|e] s2];
    simpl in H2; rewrite Hframe in H2; [|simpl; congruence].
  pose proof (subprocess_run_fs w (install_cmd bd) env s2) as H3.
  rewrite Hframe in H3. congruence.
Qed.

Lemma pipeline_trace_elem_kind w env c b i f1 evs ok ev :
  pipeline_trace w env c b i f1 evs ok → ev ∈ evs → is_Spawn ev.
Proof.
  inversion 1; subst; intros Hin;
    repeat (apply elem_of_cons in Hin as [->|Hin]; [done|]);
    by apply elem_of_nil in Hin.
Qed.

Lemma difference_absent (f : fs_t) p : p ∉ f → f = f ∖ {[p]}.
Proof.
  intros H. apply set_eq. intros x. rewrite elem_of_difference, elem_of_singleton.
  split; [|tauto]. intros Hx. split; [done|]. by intros ->.
Qed.

Lemma not_in_difference (f : fs_t) p : p ∉ f ∖ {[p]}.
Proof. rewrite elem_of_difference, elem_of_singleton. tauto. Qed.

(** X15. ArtifactPostProcessor.  A build invocation that returns normally leaves
    no [slang-rhi.lib] in the install directory; if the child processes leave
    the disk as they find it, the disk at the end is the disk at the start
    minus the working directory tree and that one file.  A removal is only
    ever attempted on that file, and only after all three phases went
    through. *)
Theorem post_processing (w : World) (g : globals) (ext_name : string) (s : state) :
  ∃ new,
    log (build_extension w g ext_name s).2 = log s ++ new
    ∧ ((build_extension w g ext_name s).1 = Ok tt →
       unneeded_lib w (extdir_of w ext_name (fs s))
         ∉ fs (build_extension w g ext_name s).2)
    ∧ ((build_extension w g ext_name s).1 = Ok tt →
       (∀ argv env f, (run_process w argv env f).2 = f) →
       fs (build_extension w g ext_name s).2
       = wiped w (build_dir_of w g) (fs s)
           ∖ {[ unneeded_lib w (extdir_of w ext_name (fs s)) ]})
    ∧ (∀ p, Remove p ∈ new →
         p = unneeded_lib w (extdir_of w ext_name (fs s))
         ∧ phases new = [Configure; Build; Install]).
Proof.
  destruct (build_extension_outcome_full w g ext_name s)
    as [e s' evs Hlog Hcalm
       |env s2 args pre pev ok r Henv Hfs Hlog Hcalm (s1 & Hs1 & Hcb) Htr Hplog Hr].
  { exists evs. split; [done|]. split; [done|]. split; [done|].
    intros p Hin. by destruct (proj1 (Forall_forall _ _) Hcalm _ Hin) as [_ []]. }
  assert (phase_of (configure_cmd args) = Some Configure) as Hcfg.
  { eapply builder_args_configure, Hcb. }
  assert (∀ p, Remove p ∈ pre ++ pev → False) as Hnorm.
  { intros p [Hin|Hin]%elem_of_app.
    - by destruct (proj1 (Forall_forall _ _) Hcalm _ Hin) as [_ []].
    - by apply (pipeline_trace_elem_kind _ _ _ _ _ _ _ _ _ Htr) in Hin. }
  destruct ok.
  2:{ destruct Hr as [-> [e He]]. exists (pre ++ pev).
      split; [by rewrite Hplog, Hlog, <- app_assoc|].
      rewrite He. split; [done|]. split; [done|].
      intros p Hin. by destruct (Hnorm p). }
  subst r. set (s3 := (BuildPipelineInvoker w args _ env s2).2) in *.
  destruct (pipeline_trace_ok _ _ _ _ _ _ _ Htr) as (f2 & f3 & ->).
  assert (phases (pre ++ [Spawn (configure_cmd args) env (fs s2);
                          Spawn (build_cmd (build_dir_of w g)) env f2;
                          Spawn (install_cmd (build_dir_of w g)) env f3])
          = [Configure; Build; Install]) as Hph.
  { rewrite phases_app, (phases_none pre).
    - by rewrite (phases_spawn _ _ _ _ _ Hcfg),
        (phases_spawn _ _ _ _ _ (phase_of_build _)),
        (phases_spawn _ _ _ _ _ (phase_of_install _)).
    - eapply Forall_impl; [exact Hcalm|]. by intros ? [? _]. }
  rewrite remove_unneeded_run.
  set (lib := unneeded_lib w (extdir_of w ext_name (fs s))).
  assert (fs s3 = fs s3 ∖ {[lib]} ∨ lib ∈ fs s3) as Hlib.
  { destruct (decide (lib ∈ fs s3)); [by right|left]. by apply difference_absent. }
  case_bool_decide as Hin.
  - destruct (remove_error w (fs s3) lib) as [e|]; cbn [fst snd fs log].
    + exists ((pre ++ [Spawn (configure_cmd args) env (fs s2);
                       Spawn (build_cmd (build_dir_of w g)) env f2;
                       Spawn (install_cmd (build_dir_of w g)) env f3])
              ++ [Remove lib]).
      split; [by rewrite Hplog, Hlog, <- !app_assoc|].
      split; [done|]. split; [done|].
      intros p [Hp|Hp]%elem_of_app; [by destruct (Hnorm p)|].
      apply list_elem_of_singleton in Hp as [= ->]. split; [done|].
      by rewrite phases_app, Hph.
    + exists ((pre ++ [Spawn (configure_cmd args) env (fs s2);
                       Spawn (build_cmd (build_dir_of w g)) env f2;
                       Spawn (install_cmd (build_dir_of w g)) env f3])
              ++ [Remove lib]).
      split; [by rewrite Hplog, Hlog, <- !app_assoc|].
      split; [intros _; apply not_in_difference|].
      split. { intros _ Hframe. subst s3. by rewrite pipeline_fs_frame, Hfs. }
      intros p [Hp|Hp]%elem_of_app; [by destruct (Hnorm p)|].
      apply list_elem_of_singleton in Hp as [= ->]. split; [done|].
      by rewrite phases_app, Hph.
  - exists (pre ++ [Spawn (configure_cmd args) env (fs s2);
                    Spawn (build_cmd (build_dir_of w g)) env f2;
                    Spawn (install_cmd (build_dir_of w g)) env f3]).
    cbn [fst snd].
    split; [by rewrite Hplog, Hlog, <- !app_assoc|].
    split; [done|].
    split. { intros _ Hframe. destruct Hlib as [Hl|]; [|done]. rewrite Hl.
             subst s3. by rewrite pipeline_fs_frame, Hfs. }
    intros p Hp. by destruct (Hnorm p).
Qed.

Lemma post_processing_witness :
  (unneeded_lib linux_world (extdir_of linux_world "slangpy.slangpy_ext" built_disk)
     ∉ fs (build_extension linux_world linux_globals "slangpy.slangpy_ext"
             (State built_disk [])).2)
  ∧ fs (build_extension linux_world linux_globals "slangpy.slangpy_ext"
          (State built_disk [])).2
    = wiped linux_world (build_dir_of linux_world linux_globals) built_disk
        ∖ {[ unneeded_lib linux_world
               (extdir_of linux_world "slangpy.slangpy_ext" built_disk) ]}.
Proof.
  destruct (post_processing linux_world linux_globals "slangpy.slangpy_ext"
              (State built_disk [])) as (new & _ & Habsent & Hdisk & _).
  split.
  - apply Habsent. vm_compute. reflexivity.
  - apply Hdisk; [vm_compute; reflexivity|]. intros argv env f. reflexivity.
Defined.

(** X7. EnvironmentPreparer.  Off Windows the environment is the ambient one
    and preparing it cannot fail.  On Windows it is whatever the toolchain
    helper returns for the platform specifier; if the helper raises, the
    build invocation raises the same exception in the state it started in:
    nothing wiped, nothing logged, nothing spawned. *)
Theorem environment_preparer (w : World) (g : globals) (ext_name : string) (s : state) :
  (os_name w ≠ "nt" → prepare_env w g s = (Ok (environ w), s))
  ∧ (os_name w = "nt" →
     prepare_env w g s = (msvc14_get_vc_env w (MSVC_PLAT_SPEC g), s)
     ∧ ∀ e, msvc14_get_vc_env w (MSVC_PLAT_SPEC g) = Raise e →
            build_extension w g ext_name s = (Raise e, s)).
Proof.
  split.
  - intros Hne. unfold prepare_env.
    by destruct (String.eqb_spec (os_name w) "nt").
  - intros Hnt.
    assert (prepare_env w g s = (msvc14_get_vc_env w (MSVC_PLAT_SPEC g), s)) as Hp.
    { unfold prepare_env. by rewrite Hnt. }
    split; [done|]. intros e He.
    by rewrite build_extension_run, Hp, He.
Qed.

Lemma environment_preparer_witness :
  build_extension broken_msvc_world windows_globals "slangpy.slangpy_ext"
    (State stale_disk [])
  = (Raise (OSError "vcvarsall.bat not found"), State stale_disk []).
Proof.
  apply (proj2 (environment_preparer broken_msvc_world windows_globals
                  "slangpy.slangpy_ext" (State stale_disk []))); reflexivity.
Defined.

(** ** ConfigurationBuilder: platform-conditional entries *)

Lemma platform_android g : PLATFORM g = "android" → (PLATFORM g == "android") = true.
Proof. intros ->. reflexivity. Qed.

Lemma builder_raise_early w g bd ext s e :
  python_location_args w g (initial_cmake_args g bd ext) s = (Raise e, s) →
  ConfigurationBuilder w g bd ext s = (Raise e, s).
Proof.
  intros H. rewrite builder_split, builtin_steps_run. by rewrite H.
Qed.

(** X9. On Android the builder needs CMAKE_TOOLCHAIN_FILE and one match of each
    of the two globs below the toolchain's Python prefix: without the
    variable (or with an empty one) it raises [AssertionError], without a
    match [IndexError], each time before anything is printed or queried.
    With all three, the list it returns is the thirteen fixed arguments, then
    the first include directory and the first library found, then the three
    local-Slang entries, in this order; no Python root hint is passed. *)
Theorem android_requirements (w : World) (g : globals) (build_dir extdir : string)
    (s : state) :
  PLATFORM g = "android" →
  let toolchain := environ w !! "CMAKE_TOOLCHAIN_FILE" in
  (toolchain = None ∨ toolchain = Some EmptyString →
   ConfigurationBuilder w g build_dir extdir s = (Raise ASSERT_TOOLCHAIN, s))
  ∧ ∀ tf, toolchain = Some tf → tf ≠ EmptyString →
      let python_prefix :=
        path_resolve w (fs s)
          (path_div w (path_div w (path_parent w tf) "python") "prefix") in
      let include_dirs := path_glob w (fs s) python_prefix "include/python3.*" in
      let libs := path_glob w (fs s) python_prefix "lib/libpython3.*.so" in
      (include_dirs = [] →
       ConfigurationBuilder w g build_dir extdir s = (Raise IndexError, s))
      ∧ (include_dirs ≠ [] → libs = [] →
         ConfigurationBuilder w g build_dir extdir s = (Raise IndexError, s))
      ∧ ∀ inc incs lib libs' args,
          include_dirs = inc :: incs → libs = lib :: libs' →
          (ConfigurationBuilder w g build_dir extdir s).1 = Ok args →
          ∃ tail,
            args = initial_cmake_args g build_dir extdir
                   ++ [ "-DPython_INCLUDE_DIR=" +:+ inc;
                        "-DPython_LIBRARY=" +:+ lib;
                        "-DSGL_LOCAL_SLANG=ON";
                        "-DSGL_LOCAL_SLANG_DIR=" +:+
                          path_resolve w (fs s)
                            (path_div w (path_parent w (SOURCE_DIR g)) "slang");
                        "-DSGL_LOCAL_SLANG_BUILD_DIR=build-android-" +:+
                          fmt_opt (environ w !! "ANDROID_ABI") +:+ "/RelWithDebInfo" ]
                   ++ tail.
Proof.
  intros Handroid%platform_android. cbv zeta.
  split.
  { intros Htc. apply builder_raise_early.
    unfold python_location_args, ASSERT_TOOLCHAIN. rewrite Handroid.
    by destruct Htc as [-> | ->]. }
  intros tf Htf Hne. destruct tf as [|c tf]; [done|].
  split; [|split].
  - intros Hinc. apply builder_raise_early.
    unfold python_location_args, bind, get_fs, raise. rewrite Handroid, Htf.
    cbn [truthy]. by rewrite Hinc.
  - intros Hinc Hlibs. apply builder_raise_early.
    unfold python_location_args, bind, get_fs, raise. rewrite Handroid, Htf.
    cbn [truthy]. rewrite Hlibs.
    by destruct (path_glob w (fs s) _ "include/python3.*").
  - intros inc incs lib libs' args Hinc Hlibs (builtin & Hb & ->)%builder_result.
    rewrite builtin_steps_run in Hb.
    assert ((python_location_args w g (initial_cmake_args g build_dir extdir) s).1
            = Ok (initial_cmake_args g build_dir extdir
                  ++ ["-DPython_INCLUDE_DIR=" +:+ inc; "-DPython_LIBRARY=" +:+ lib]))
      as Hpy.
    { unfold python_location_args, bind, get_fs, raise, ret.
      rewrite Handroid, Htf. cbn [truthy]. rewrite Hinc, Hlibs. cbn [fst].
      by rewrite <- app_assoc. }
    rewrite Hpy, local_slang_args_run, Handroid in Hb. cbn [fst] in Hb.
    match type of Hb with
    | context [wsl_path_mapping w g ?a s] =>
        destruct (wsl_path_mapping_frame w g a s) as (new & _ & _ & Hwsl);
        destruct (wsl_path_mapping w g a s) as [[a3|e3] s3]
    end; cbn [fst] in *; [|done].
    injection Hb as <-.
    assert (∃ t, release_wheel_args g a3 = a3 ++ t) as [t ->].
    { unfold release_wheel_args. destruct (BUILD_RELEASE_WHEEL g); [by eexists|].
      exists []. by rewrite app_nil_r. }
    destruct Hwsl as [[= ->]|[(dst & [= ->])|(e & [=])]].
    + exists (t ++ user_supplied w). by rewrite <- !app_assoc.
    + exists (remap_flags (SOURCE_DIR g) dst ++ t ++ user_supplied w).
      by rewrite <- !app_assoc.
Qed.

Lemma android_requirements_witness :
  ConfigurationBuilder (android_world ∅) android_globals
    EXAMPLE_BUILD_DIR EXAMPLE_EXTDIR (State stale_disk [])
  = (Raise ASSERT_TOOLCHAIN, State stale_disk []).
Proof.
  destruct (android_requirements (android_world ∅) android_globals
              EXAMPLE_BUILD_DIR EXAMPLE_EXTDIR (State stale_disk []) eq_refl)
    as [Hmissing _].
  apply Hmissing. left. reflexivity.
Defined.

Lemma not_android g : PLATFORM g ≠ "android" → (PLATFORM g == "android") = false.
Proof. intros H. by destruct (String.eqb_spec (PLATFORM g) "android"). Qed.

Lemma release_wheel_args_app g a :
  release_wheel_args g a
  = a ++ (if BUILD_RELEASE_WHEEL g
          then ["-DSGL_PROJECT_DIR="; "-DSGL_SLANG_DEBUG_INFO=OFF"] else []).
Proof.
  unfold release_wheel_args. destruct (BUILD_RELEASE_WHEEL g); [done|].
  by rewrite app_nil_r.
Qed.

Lemma android_only_remap src dst a :
  a ∈ remap_flags src dst → android_only a = false.
Proof.
  unfold remap_flags. cbn [map].
  intros [->|[->|[]%elem_of_nil]%elem_of_cons]%elem_of_cons; reflexivity.
Qed.

(** X10. Off Android the root hint [-DPython_ROOT_DIR:PATH=<sys.prefix>] is
    inserted into the thirteen fixed arguments as the sixth built-in
    argument, and no built-in argument carries a key that only an Android
    build passes (the preset and the build directory are passed as they
    are, whatever they spell). *)
Theorem desktop_configuration (w : World) (g : globals) (build_dir extdir : string)
    (s : state) (builtin : list string) :
  PLATFORM g ≠ "android" →
  (builtin_steps w g build_dir extdir s).1 = Ok builtin →
  builtin !! 5 = Some ("-DPython_ROOT_DIR:PATH=" +:+ sys_prefix w)
  ∧ (∃ tail, builtin
             = list_insert 5 ("-DPython_ROOT_DIR:PATH=" +:+ sys_prefix w)
                 (initial_cmake_args g build_dir extdir) ++ tail)
  ∧ ∀ a, a ∈ builtin → android_only a = true → a = CMAKE_PRESET g ∨ a = build_dir.
Proof.
  intros Hne%not_android Hb. rewrite builtin_steps_run in Hb.
  unfold python_location_args in Hb. rewrite Hne in Hb.
  unfold ret in Hb. cbn [fst] in Hb.
  rewrite local_slang_args_run, Hne in Hb. cbn [fst] in Hb.
  match type of Hb with
  | context [wsl_path_mapping w g ?a s] =>
      destruct (wsl_path_mapping_frame w g a s) as (new & _ & _ & Hwsl);
      destruct (wsl_path_mapping w g a s) as [[a3|e3] s3]
  end; cbn [fst] in *; [|done].
  injection Hb as <-. rewrite release_wheel_args_app.
  assert (∃ remap, a3 = list_insert 5 ("-DPython_ROOT_DIR:PATH=" +:+ sys_prefix w)
                          (initial_cmake_args g build_dir extdir) ++ remap
                   ∧ ∀ a, a ∈ remap → android_only a = false) as (remap & -> & Hremap).
  { destruct Hwsl as [[= ->]|[(dst & [= ->])|(e & [=])]].
    - exists []. rewrite app_nil_r. split; [done|]. by intros a ?%elem_of_nil.
    - exists (remap_flags (SOURCE_DIR g) dst). split; [done|].
      apply android_only_remap. }
  split; [reflexivity|]. split; [rewrite <- app_assoc; by eexists|].
  intros a Ha Honly. rewrite !elem_of_app in Ha. destruct Ha as [[Ha|Ha]|Ha].
  - unfold initial_cmake_args, list_insert in Ha. cbn [take drop app] in Ha.
    repeat (apply elem_of_cons in Ha as [->|Ha]);
      first [ by left | by right | by apply elem_of_nil in Ha
            | exfalso; revert Honly; by vm_compute ].
  - rewrite (Hremap a Ha) in Honly. done.
  - destruct (BUILD_RELEASE_WHEEL g).
    + repeat (apply elem_of_cons in Ha as [->|Ha]);
        first [ by apply elem_of_nil in Ha | exfalso; revert Honly; by vm_compute ].
    + by apply elem_of_nil in Ha.
Qed.

Lemma desktop_configuration_witness :
  LINUX_CMAKE_ARGS !! 5 = Some "-DPython_ROOT_DIR:PATH=/usr".
Proof.
  apply (desktop_configuration linux_world linux_globals EXAMPLE_BUILD_DIR
           EXAMPLE_EXTDIR (State stale_disk []) LINUX_CMAKE_ARGS);
    [ vm_compute; discriminate | vm_compute; reflexivity ].
Defined.

(** ** ConfigurationBuilder: the WSL query *)

Lemma wsl_path_mapping_cases w g a s :
  (∃ remap evs,
    wsl_path_mapping w g a s = (Ok (a ++ remap), State (fs s) (log s ++ evs))
    ∧ (remap = [] ∨ remap ≠ [] ∧ WSL_MARKER ∈ fs s ∧ is_Some (which w (fs s) "wslpath")
                     ∧ ∃ out, check_output_utf8 w (WSL_QUERY g) = Ok out
                              ∧ strip out ≠ SOURCE_DIR g
                              ∧ remap = remap_flags (SOURCE_DIR g) (strip out))
    ∧ (WSL_MARKER ∈ fs s → is_Some (which w (fs s) "wslpath") →
       ∀ out, check_output_utf8 w (WSL_QUERY g) = Ok out →
              strip out ≠ SOURCE_DIR g →
              remap = remap_flags (SOURCE_DIR g) (strip out)))
  ∨ ∃ e evs,
      wsl_path_mapping w g a s = (Raise e, State (fs s) (log s ++ evs))
      ∧ is_Exception e = false
      ∧ WSL_MARKER ∈ fs s ∧ is_Some (which w (fs s) "wslpath")
      ∧ check_output_utf8 w (WSL_QUERY g) = Raise e.
Proof.
  destruct (decide (WSL_MARKER ∈ fs s)) as [Hin|Hout].
  2: { left. exists [], []. rewrite !app_nil_r, wsl_path_mapping_absent by done.
       split; [by destruct s|]. split; [by left|]. done. }
  destruct (which w (fs s) "wslpath") as [tool|] eqn:Hwhich.
  2: { left. exists []. eexists. rewrite app_nil_r.
       rewrite (wsl_path_mapping_no_tool w g a s Hin Hwhich).
       split; [reflexivity|]. split; [by left|]. by intros _ [? [=]]. }
  destruct (check_output_utf8 w (WSL_QUERY g)) as [out|e] eqn:Hq.
  - left. rewrite (wsl_path_mapping_query_ok w g a s tool out Hin Hwhich Hq).
    destruct (String.eqb_spec (strip out) (SOURCE_DIR g)) as [Heq|Hdiff].
    + exists []. eexists. rewrite app_nil_r. split; [reflexivity|]. split; [by left|].
      by intros _ _ out' [= <-] ?.
    + exists (remap_flags (SOURCE_DIR g) (strip out)). eexists.
      split; [reflexivity|]. split.
      * right. split; [done|]. split; [done|]. split; [by eexists|]. by exists out.
      * by intros _ _ out' [= <-] _.
  - rewrite (wsl_path_mapping_query_raises w g a s tool e Hin Hwhich Hq).
    destruct (is_Exception e) eqn:He.
    + left. exists []. eexists. rewrite app_nil_r. split; [reflexivity|].
      split; [by left|]. by intros _ _ out' [=].
    + right. exists e. eexists. split; [reflexivity|]. split; [done|]. split; [done|].
      split; [by eexists|done].
Qed.

(** X11. Lines 147-159 within the list: the two prefix-map flags are added if
    and only if the build runs under WSL, [wslpath] is on the search path,
    the query succeeds and its stripped answer differs from the source
    directory; they then stand right after the platform entries and before
    the release-wheel flags, which stand before the user's items. *)
Theorem remap_flags_placement (w : World) (g : globals) (build_dir extdir : string)
    (s : state) (args : list string) :
  (ConfigurationBuilder w g build_dir extdir s).1 = Ok args →
  ∃ a1 base remap,
    (python_location_args w g (initial_cmake_args g build_dir extdir) s).1 = Ok a1
    ∧ (local_slang_args w g a1 s).1 = Ok base
    ∧ args = base ++ remap
             ++ (if BUILD_RELEASE_WHEEL g
                 then ["-DSGL_PROJECT_DIR="; "-DSGL_SLANG_DEBUG_INFO=OFF"] else [])
             ++ user_supplied w
    ∧ (remap = []
       ∨ remap ≠ [] ∧ WSL_MARKER ∈ fs s ∧ is_Some (which w (fs s) "wslpath")
         ∧ ∃ out, check_output_utf8 w (WSL_QUERY g) = Ok out
                  ∧ strip out ≠ SOURCE_DIR g
                  ∧ remap = remap_flags (SOURCE_DIR g) (strip out))
    ∧ (WSL_MARKER ∈ fs s → is_Some (which w (fs s) "wslpath") →
       ∀ out, check_output_utf8 w (WSL_QUERY g) = Ok out →
              strip out ≠ SOURCE_DIR g →
              remap = remap_flags (SOURCE_DIR g) (strip out)).
Proof.
  intros (builtin & Hb & ->)%builder_result. rewrite builtin_steps_run in Hb.
  destruct (python_location_args w g _ s).1 as [a1|] eqn:H1; [|done].
  destruct (local_slang_args w g a1 s).1 as [base|] eqn:H2; [|done].
  exists a1, base.
  destruct (wsl_path_mapping_cases w g base s)
    as [(remap & evs & Hrun & Hwhy & Hwhen)|(e & evs & Hrun & _)];
    rewrite Hrun in Hb; cbn [fst] in Hb; [|done].
  injection Hb as <-. exists remap. rewrite release_wheel_args_app.
  split; [done|]. split; [done|]. split; [by rewrite <- !app_assoc|]. done.
Qed.

Lemma remap_flags_placement_witness :
  ∃ a1 base remap,
    (python_location_args (wsl_world (Some (Ok "C:/src/slangpy"))) linux_globals
       (initial_cmake_args linux_globals EXAMPLE_BUILD_DIR EXAMPLE_EXTDIR) wsl_state).1
    = Ok a1
    ∧ (local_slang_args (wsl_world (Some (Ok "C:/src/slangpy"))) linux_globals a1 wsl_state).1 = Ok base
    ∧ LINUX_CMAKE_ARGS ++ remap_flags "/src/slangpy" "C:/src/slangpy"
      = base ++ remap ++ [] ++ user_supplied (wsl_world (Some (Ok "C:/src/slangpy"))).
Proof.
  destruct (remap_flags_placement (wsl_world (Some (Ok "C:/src/slangpy"))) linux_globals EXAMPLE_BUILD_DIR
              EXAMPLE_EXTDIR wsl_state
              (LINUX_CMAKE_ARGS ++ remap_flags "/src/slangpy" "C:/src/slangpy"))
    as (a1 & base & remap & H1 & H2 & Hargs & _).
  - vm_compute. reflexivity.
  - exists a1, base, remap. split; [exact H1|]. split; [exact H2|].
    exact Hargs.
Defined.

Lemma wsl_path_mapping_events w g a s :
  ∃ evs,
    (wsl_path_mapping w g a s).2 = State (fs s) (log s ++ evs)
    ∧ (WSL_MARKER ∉ fs s → evs = [])
    ∧ Forall (λ ev, (∃ msg, ev = Stdout msg)
                    ∨ ev = Spawn (WSL_QUERY g) (environ w) (fs s)
                      ∧ WSL_MARKER ∈ fs s ∧ is_Some (which w (fs s) "wslpath")) evs.
Proof.
  destruct (decide (WSL_MARKER ∈ fs s)) as [Hin|Hout].
  2: { rewrite wsl_path_mapping_absent by done. exists []. rewrite app_nil_r.
       split; [by destruct s|]. by split. }
  destruct (which w (fs s) "wslpath") as [tool|] eqn:Hwhich.
  2: { rewrite (wsl_path_mapping_no_tool w g a s Hin Hwhich). eexists.
       split; [reflexivity|]. split; [done|].
       repeat (match goal with |- Forall _ _ => constructor end);
         left; by eexists. }
  assert (is_Some (Some tool)) as Htool by by eexists.
  destruct (check_output_utf8 w (WSL_QUERY g)) as [out|e] eqn:Hq.
  - rewrite (wsl_path_mapping_query_ok w g a s tool out Hin Hwhich Hq).
    destruct (strip out == SOURCE_DIR g); eexists;
      (split; [reflexivity|]); (split; [done|]);
      repeat (match goal with |- Forall _ _ => constructor end);
      first [ by right | left; by eexists ].
  - rewrite (wsl_path_mapping_query_raises w g a s tool e Hin Hwhich Hq).
    destruct (is_Exception e); eexists;
      (split; [reflexivity|]); (split; [done|]);
      repeat (match goal with |- Forall _ _ => constructor end);
      first [ by right | left; by eexists ].
Qed.

(** X12. ConfigurationBuilder reads the disk and never changes it.  The only
    child it can start is the [wslpath] query, which gets the ambient
    environment and is started only under WSL with [wslpath] on the search
    path; everything else it logs is a printed line, and outside WSL it
    logs nothing at all. *)
Theorem builder_read_only (w : World) (g : globals) (build_dir extdir : string)
    (s : state) :
  ∃ evs,
    (ConfigurationBuilder w g build_dir extdir s).2 = State (fs s) (log s ++ evs)
    ∧ (WSL_MARKER ∉ fs s → evs = [])
    ∧ Forall (λ ev, (∃ msg, ev = Stdout msg)
                    ∨ ev = Spawn (WSL_QUERY g) (environ w) (fs s)
                      ∧ WSL_MARKER ∈ fs s ∧ is_Some (which w (fs s) "wslpath")) evs.
Proof.
  rewrite builder_split, builtin_steps_run.
  assert (∃ evs, s = State (fs s) (log s ++ evs)
                 ∧ (WSL_MARKER ∉ fs s → evs = [])
                 ∧ Forall (λ ev, (∃ msg, ev = Stdout msg)
                    ∨ ev = Spawn (WSL_QUERY g) (environ w) (fs s)
                      ∧ WSL_MARKER ∈ fs s ∧ is_Some (which w (fs s) "wslpath")) evs)
    as Hnone.
  { exists []. rewrite app_nil_r. split; [by destruct s|]. by split. }
  destruct (python_location_args w g _ s).1 as [a1|e1]; [|exact Hnone].
  destruct (local_slang_args w g a1 s).1 as [a2|e2]; [|exact Hnone].
  destruct (wsl_path_mapping_events w g a2 s) as (evs & Hst & Hev).
  exists evs. split; [|exact Hev].
  by destruct (wsl_path_mapping w g a2 s) as [[a3|e3] s3].
Qed.

(** ** CustomBuildPy *)

(** X16. CustomBuildPy.run for a release wheel: the destination tree is removed
    first, and only if it exists; the data tree is then copied onto the disk
    without the old destination; the inherited run comes last and sees the
    disk the copy left.  An exception from the removal or from the copy
    ends the command there, so the inherited run never starts after a failed
    bundling. *)
Theorem bundling_order (w : World) (g : globals) (s : state) :
  BUILD_RELEASE_WHEEL g = true →
  let src := abspath w "data" in
  let dst := bundle_dst w in
  let pre := if bool_decide (dst ∈ fs s) then [Rmtree dst] else [] in
  let f1 := wiped w dst (fs s) in
  (∀ e, dst ∈ fs s → rmtree_error w (fs s) dst = Some e →
        CustomBuildPy_run w g s = (Raise e, State (fs s) (log s ++ [Rmtree dst])))
  ∧ (dst ∉ fs s ∨ rmtree_error w (fs s) dst = None →
     (∀ e, copytree_result w f1 src dst = Raise e →
           CustomBuildPy_run w g s
           = (Raise e, State f1 (log s ++ pre ++ [Copytree src dst])))
     ∧ (∀ f2, copytree_result w f1 src dst = Ok f2 →
              CustomBuildPy_run w g s
              = super_run w (State f2 (log s ++ pre ++ [Copytree src dst])))).
Proof.
  intros Hrel. cbv zeta. unfold CustomBuildPy_run, bundle_dst, wiped.
  rewrite Hrel. unfold bind, get_fs, os_path_exists.
  set (dst := os_path_join w _). set (src := abspath w "data").
  split.
  - intros e Hin He. rewrite bool_decide_eq_true_2 by done.
    unfold rmtree. by rewrite He.
  - intros Hfree. case_bool_decide as Hin.
    + destruct Hfree as [?|Hnone]; [done|].
      unfold rmtree, copytree. rewrite Hnone. cbn [fs log].
      split.
      * intros e ->. by rewrite <- app_assoc.
      * intros f2 ->. by rewrite <- app_assoc.
    + unfold ret, copytree. rewrite app_nil_l. split.
      * by intros e ->.
      * by intros f2 ->.
Qed.

Lemma bundling_order_witness :
  CustomBuildPy_run linux_world (with_release true linux_globals)
    (State {[ "build/lib/slangpy/data" ]} [])
  = super_run linux_world
      (State {[ "build/lib/slangpy/data" ]}
         [Rmtree "build/lib/slangpy/data";
          Copytree "/src/slangpy/data" "build/lib/slangpy/data"]).
Proof.
  destruct (bundling_order linux_world (with_release true linux_globals)
              (State {[ "build/lib/slangpy/data" ]} []) eq_refl) as [_ Hgo].
  destruct Hgo as [_ Hcopy]; [right; reflexivity|].
  apply (Hcopy {[ "build/lib/slangpy/data" ]}). vm_compute. reflexivity.
Defined.

(** ** The whole script *)

Lemma for_each_log {A} (P : event → Prop) (body : A → M unit) :
  (∀ x s, ∃ new, log (body x s).2 = log s ++ new ∧ Forall P new) →
  ∀ l s, ∃ new, log (for_each l body s).2 = log s ++ new ∧ Forall P new.
Proof.
  intros Hbody l. induction l as [|x l IH]; intros s.
  - exists []. by rewrite app_nil_r.
  - cbn [for_each]. unfold bind.
    destruct (Hbody x s) as (n1 & H1 & HP1).
    destruct (body x s) as [[[]|e] s1]; cbn [snd] in H1.
    + destruct (IH s1) as (n2 & H2 & HP2). exists (n1 ++ n2).
      rewrite H2, H1, <- app_assoc. split; [done|]. by apply Forall_app.
    + by exists n1.
Qed.

Lemma super_run_log w s :
  log (super_run w s).2 = log s ++ [SuperRun].
Proof. unfold super_run. by destruct (super_build_py_run w (fs s)). Qed.

Lemma CustomBuildPy_run_packaging w g s :
  ∃ new, log (CustomBuildPy_run w g s).2 = log s ++ new
         ∧ Forall (λ ev, ¬ is_Spawn ev ∧ ¬ is_Remove ev) new.
Proof.
  assert (∀ ev, (match ev with Rmtree _ | Copytree _ _ | SuperRun => True | _ => False end)
                → ¬ is_Spawn ev ∧ ¬ is_Remove ev) as Hkind.
  { intros []; simpl; tauto. }
  unfold CustomBuildPy_run. destruct (BUILD_RELEASE_WHEEL g).
  2: { unfold bind, ret. exists [SuperRun]. rewrite super_run_log.
       split; [done|]. repeat constructor; by apply Hkind. }
  unfold bind, get_fs, os_path_exists.
  set (dst := os_path_join w _). set (src := abspath w "data").
  assert (∃ r1 s1 n1, (if bool_decide (dst ∈ fs s) then rmtree w dst else ret tt) s
                      = (r1, s1)
                      ∧ log s1 = log s ++ n1
                      ∧ Forall (λ ev, ¬ is_Spawn ev ∧ ¬ is_Remove ev) n1)
    as (r1 & s1 & n1 & -> & H1 & HP1).
  { case_bool_decide.
    - unfold rmtree. destruct (rmtree_error w (fs s) dst);
        eexists _, _, [Rmtree dst]; (split; [reflexivity|]); (split; [done|]);
        repeat constructor; by apply Hkind.
    - exists (Ok tt), s, []. rewrite app_nil_r. by split. }
  destruct r1 as [[]|e1]; [|by exists n1].
  unfold copytree. destruct (copytree_result w (fs s1) src dst) as [f2|e2].
  - rewrite super_run_log. cbn [log]. exists (n1 ++ [Copytree src dst; SuperRun]).
    rewrite H1, <- !app_assoc. split; [done|]. apply Forall_app. split; [done|].
    repeat constructor; by apply Hkind.
  - cbn [snd log]. exists (n1 ++ [Copytree src dst]).
    rewrite H1, <- !app_assoc. split; [done|]. apply Forall_app. split; [done|].
    repeat constructor; by apply Hkind.
Qed.

Lemma setup_py_run w s :
  setup_py w s =
    match module_globals w (fs s) with
    | Raise e => (Raise e, s)
    | Ok g =>
        match read_text w "src/sgl/sgl.h" with
        | Raise e => (Raise e, s)
        | Ok blob =>
            match version_of blob with
            | Raise e => (Raise e, s)
            | Ok v =>
                let s1 := State (fs s) (log s ++ [Stdout ("version=" +:+ v)]) in
                match read_text w "README.md" with
                | Raise e => (Raise e, s1)
                | Ok _ => setup w g v s1
                end
            end
        end
    end.
Proof.
  unfold setup_py, bind, get_fs, lift, print, emit.
  destruct (module_globals w (fs s)); [|done].
  destruct (read_text w "src/sgl/sgl.h"); [|done].
  destruct (version_of _); [|done]. cbn [fs log].
  by destruct (read_text w "README.md").
Qed.

(** ** Module level: platform, preset and toolchain specifier *)

(** X6. Lines 25-65 together.  A detected platform is one of the four names;
    selecting a preset for it can only fail on Android, with the
    unsupported-ABI error, so the closing [else] of the selection is never
    reached.  A selected preset starts with the platform's name, and the
    MSVC platform specifier is set exactly on Windows, where it is paired
    with the preset: [x86_arm64] with the ARM64 preset, [x64] with the
    default one. *)
Theorem preset_selection (w : World) (p : string) :
  resolve_PLATFORM w = Ok p →
  p ∈ PLATFORMS
  ∧ (∀ e, resolve_CMAKE_PRESET w p = Raise e →
       p = "android"
       ∧ e = RuntimeError
               ("Unsupported ANDROID_ABI for slangpy build: "
                +:+ fmt_opt (environ w !! "ANDROID_ABI")
                +:+ " (expected 'arm64-v8a' or 'x86_64')"))
  ∧ ∀ preset spec, resolve_CMAKE_PRESET w p = Ok (preset, spec) →
      String.prefix p preset = true
      ∧ (spec = None ↔ p ≠ "windows")
      ∧ (p = "windows" →
         (preset, spec) = ("windows-arm64-msvc", Some "x86_arm64")
         ∨ (preset, spec) = ("windows-msvc", Some "x64")).
Proof.
  unfold resolve_PLATFORM, PLATFORMS.
  destruct (startswith (sys_platform w) "win");
    [|destruct (startswith (sys_platform w) "linux");
      [|destruct (startswith (sys_platform w) "darwin");
        [|destruct (startswith (sys_platform w) "android"); [|done]]]];
    intros [= <-]; (split; [set_solver|]); unfold resolve_CMAKE_PRESET;
    cbn [String.eqb Ascii.eqb Bool.eqb].
  - destruct (_ || _); (split; [done|]); intros ?? [= <- <-];
      (split; [done|]); (split; [by split|]); auto.
  - split; [done|]. intros ?? [= <- <-]. split; [done|]. by split.
  - split; [done|]. intros ?? [= <- <-]. split; [done|]. by split.
  - destruct (opt_eqb _ "arm64-v8a"); [|destruct (opt_eqb _ "x86_64")].
    + split; [done|]. intros ?? [= <- <-]. split; [done|]. by split.
    + split; [done|]. intros ?? [= <- <-]. split; [done|]. by split.
    + split; [by intros e [= <-]|done].
Qed.

Lemma preset_selection_witness :
  String.prefix "linux" "linux-gcc" = true ∧ ((None : option string) = None ↔ "linux" ≠ "windows").
Proof.
  destruct (preset_selection linux_world "linux" eq_refl) as (_ & _ & Hsel).
  destruct (Hsel "linux-gcc" None eq_refl) as (Hpre & Hspec & _).
  exact (conj Hpre Hspec).
Defined.

Lemma build_extension_log w g name s :
  ∃ new, log (build_extension w g name s).2 = log s ++ new ∧ Forall (λ _, True) new.
Proof.
  destruct (build_extension_outcome w g name s) as (pre & evs & post & Hlog & _).
  exists (pre ++ evs ++ post). split; [done|]. by apply Forall_forall.
Qed.

Lemma run_command_log w g cmd s :
  ∃ new, log (run_command w g cmd s).2 = log s ++ new ∧ Forall (λ _, True) new.
Proof.
  unfold run_command. destruct (cmd == "build_ext").
  - apply for_each_log. intros. apply build_extension_log.
  - destruct (cmd == "build_py").
    + destruct (CustomBuildPy_run_packaging w g s) as (new & Hlog & _).
      exists new. split; [done|]. by apply Forall_forall.
    + exists []. by rewrite app_nil_r.
Qed.

(** X18. The version is settled before any command runs.  If formatting the
    version raises (a directive is missing), the script ends with that
    exception in the state it started in: nothing printed, no command run.
    Otherwise the
    line [version=<version>] is the first thing the script logs, and a
    missing README ends the script right after that line. *)
Theorem version_before_commands (w : World) (s : state) (g : globals) (blob : string) :
  module_globals w (fs s) = Ok g →
  read_text w "src/sgl/sgl.h" = Ok blob →
  (∀ e, version_of blob = Raise e → setup_py w s = (Raise e, s))
  ∧ ∀ v, version_of blob = Ok v →
      (∃ rest, log (setup_py w s).2 = log s ++ Stdout ("version=" +:+ v) :: rest)
      ∧ (∀ e, read_text w "README.md" = Raise e →
              setup_py w s
              = (Raise e, State (fs s) (log s ++ [Stdout ("version=" +:+ v)])))
      ∧ (∀ text, read_text w "README.md" = Ok text →
              setup_py w s
              = setup w g v (State (fs s) (log s ++ [Stdout ("version=" +:+ v)]))).
Proof.
  intros Hg Hblob. rewrite setup_py_run, Hg, Hblob. split.
  - by intros e ->.
  - intros v ->. cbv zeta. split; [|split].
    + destruct (read_text w "README.md"); [|by exists []].
      unfold setup.
      destruct (for_each_log (λ _, True) (run_command w g) (run_command_log w g)
                  (requested_commands w)
                  (State (fs s) (log s ++ [Stdout ("version=" +:+ v)])))
        as (new & -> & _).
      exists new. cbn [log]. by rewrite <- app_assoc.
    + by intros e ->.
    + by intros text ->.
Qed.

Lemma version_before_commands_witness :
  ∃ rest, log (setup_py linux_world (State stale_disk [])).2
          = [] ++ Stdout ("version=" +:+ "0.40.0") :: rest.
Proof.
  destruct (version_before_commands linux_world (State stale_disk []) linux_globals
              EXAMPLE_HEADER eq_refl eq_refl) as [_ Hv].
  apply (Hv "0.40.0"). vm_compute. reflexivity.
Defined.

(** ** CMAKE_ARGS: what the splitting gives back *)

Lemma split_no_sep sep u : has_char sep u = false → split sep u = [u].
Proof.
  induction u as [|c u IH]; [done|]. cbn [has_char split].
  intros [Hc Hu]%orb_false_iff. by rewrite Hc, (IH Hu).
Qed.

Lemma split_app_sep sep u r :
  has_char sep u = false →
  split sep (u +:+ String sep r) = u :: split sep r.
Proof.
  induction u as [|c u IH].
  - intros _. rewrite sapp_nil_l. cbn [split]. by rewrite Ascii.eqb_refl.
  - cbn [has_char]. intros [Hc Hu]%orb_false_iff.
    rewrite sapp_cons. cbn [split]. by rewrite Hc, (IH Hu).
Qed.

(** X13. Line 169 gives back what was joined: a list of non-empty items without
    spaces, joined by single spaces and put into CMAKE_ARGS, reaches the
    command line item by item, unchanged and in order. *)
Theorem user_items_round_trip (items : list string) :
  Forall (λ u, u ≠ EmptyString ∧ has_char " " u = false) items →
  user_items (join_with " " items) = items.
Proof.
  intros Hall. induction Hall as [|u rest [Hu Hsp] Hrest IH]; [done|].
  assert (truthy u = true) as Ht by by destruct u.
  cbn [join_with]. destruct rest as [|u2 rest].
  - unfold user_items. rewrite (split_no_sep _ _ Hsp).
    by rewrite filter_cons_True, filter_nil.
  - unfold user_items in *. rewrite (split_app_sep _ _ _ Hsp).
    rewrite filter_cons_True by done. by rewrite IH.
Qed.

Lemma user_items_round_trip_witness :
  user_items (join_with " " ["-DSGL_BUILD_TESTS=ON"; "-GNinja"])
  = ["-DSGL_BUILD_TESTS=ON"; "-GNinja"].
Proof.
  apply (user_items_round_trip ["-DSGL_BUILD_TESTS=ON"; "-GNinja"]).
  repeat (match goal with |- Forall _ _ => constructor end);
    (split; [discriminate | reflexivity]).
Defined.

(** ** Failures before the pipeline *)

(** X8. The working directory is wiped before the configuration is assembled.
    If its removal raises, the invocation ends there with the removal as the
    only thing logged.  If the removal went through (or there was nothing to
    remove) and ConfigurationBuilder then raises, the invocation ends with
    that exception on the disk without the working directory: the old
    build tree is lost although no phase was started. *)
Theorem early_failures (w : World) (g : globals) (ext_name : string) (s : state)
    (env : env_t) :
  (prepare_env w g s).1 = Ok env →
  let build_dir := build_dir_of w g in
  let s1 := State (wiped w build_dir (fs s))
              (log s ++ if bool_decide (build_dir ∈ fs s)
                        then [Rmtree build_dir] else []) in
  (∀ e, build_dir ∈ fs s → rmtree_error w (fs s) build_dir = Some e →
        build_extension w g ext_name s
        = (Raise e, State (fs s) (log s ++ [Rmtree build_dir])))
  ∧ (build_dir ∉ fs s ∨ rmtree_error w (fs s) build_dir = None →
     ∀ e, (ConfigurationBuilder w g build_dir (extdir_of w ext_name (fs s)) s1).1
          = Raise e →
          build_extension w g ext_name s
          = (Raise e,
             (ConfigurationBuilder w g build_dir (extdir_of w ext_name (fs s)) s1).2)
          ∧ fs (build_extension w g ext_name s).2 = wiped w build_dir (fs s)
          ∧ phases (log (build_extension w g ext_name s).2) = phases (log s)).
Proof.
  intros Henv. cbv zeta. rewrite build_extension_run, Henv.
  unfold wipe_build_dir, bind, get_fs, os_path_exists, wiped.
  split.
  - intros e Hin He. rewrite bool_decide_eq_true_2 by done.
    unfold rmtree. by rewrite He.
  - intros Hfree e Hcb.
    set (s1 := State _ _) in Hcb |- *.
    assert ((if bool_decide (build_dir_of w g ∈ fs s)
             then rmtree w (build_dir_of w g) else ret tt) s = (Ok tt, s1)) as ->.
    { subst s1. case_bool_decide as Hin.
      - destruct Hfree as [?|Hnone]; [done|]. unfold rmtree. by rewrite Hnone.
      - unfold ret. rewrite app_nil_r. by destruct s. }
    destruct (builder_state w g (build_dir_of w g) (extdir_of w ext_name (fs s)) s1)
      as (evs & Hst & Hquiet).
    destruct (ConfigurationBuilder w g _ _ s1) as [[args|e'] s2]; cbn [fst snd] in *;
      [done|]. injection Hcb as ->. subst s2. cbn [fs log].
    split; [done|]. split; [done|].
    subst s1. cbn [log]. rewrite !phases_app, (phases_none evs), app_nil_r.
    + case_bool_decide; apply app_nil_r.
    + eapply Forall_impl; [exact Hquiet|]. intros ev Hq. by apply quiet_calm.
Qed.

Lemma early_failures_witness :
  build_extension (android_world ∅) android_globals "slangpy.slangpy_ext"
    (State stale_disk [])
  = (Raise ASSERT_TOOLCHAIN,
     State {[ "/src/slangpy/setup.py" ]} [Rmtree "/src/slangpy/build/pip"]).
Proof.
  destruct (early_failures (android_world ∅) android_globals "slangpy.slangpy_ext"
              (State stale_disk []) ∅ eq_refl) as [_ Hcfg].
  destruct (Hcfg (or_intror eq_refl) ASSERT_TOOLCHAIN) as (Hrun & _).
  - vm_compute. reflexivity.
  - rewrite Hrun. vm_compute. reflexivity.
Defined.
